(** * NetCDF to SP2 converter (netcdf_to_sp2.py): a shallow embedding

  The converter reads a dataset of wave spectra and writes SWAN's plain
  text spectral format.  The embedding follows the script function by
  function: [validate_netcdf], [format_swan_time], [write_sp2_header],
  [convert_netcdf_to_sp2] and [main].  Library calls (numpy, os.path,
  Python's format mini-language) are embedded next to the function
  that uses them, each with the behaviour the library documents.

  Conventions:
  - a Python [float] / numpy [float64] is a [spec_float] (sign, integer
    mantissa, binary exponent), so every value is an exact rational,
    a signed zero, an infinity or NaN;
  - numpy's default integer is taken to be the 64-bit one;
  - text is [string]; the file system is a finite map from paths to
    contents and a finite set of directories;
  - an exception is a value of [exn]; code that may raise lives in the
    writer monad [Wr], which keeps what was written before the raise. *)

From Stdlib Require Import ZArith Lia List Bool Ascii String QArith Qabs.
From Stdlib Require Import Floats.SpecFloat.
From stdpp Require Import gmap strings list.

Local Open Scope Z_scope.

(* ===================================================================== *)
(** * Part I: definitions                                                 *)
(* ===================================================================== *)

(** ** Text *)

Module Text.

(** The line feed every [f.write] of the script ends with. *)
Definition nl : string := String (ascii_of_nat 10) EmptyString.

Fixpoint replicate_char (n : nat) (c : ascii) : string :=
  match n with
  | O => EmptyString
  | S k => String c (replicate_char k c)
  end.

(** Right-justify [s] in a field of [w] characters (Python's [>] with a
    width: a minimum, never a truncation). *)
Definition rjust (w : nat) (fill : ascii) (s : string) : string :=
  replicate_char (w - String.length s) fill +:+ s.

Definition digit_char (d : Z) : ascii :=
  ascii_of_nat (48 + Z.to_nat d).

Definition is_digit (c : ascii) : bool :=
  let n := nat_of_ascii c in (48 <=? n)%nat && (n <=? 57)%nat.

Fixpoint all_chars (p : ascii -> bool) (s : string) : bool :=
  match s with
  | EmptyString => true
  | String c r => p c && all_chars p r
  end.

Fixpoint count_chars (p : ascii -> bool) (s : string) : nat :=
  match s with
  | EmptyString => O
  | String c r => (if p c then 1 else 0)%nat + count_chars p r
  end.

(** Decimal digits of [n >= 0], most significant first; [fuel] bounds the
    number of digits. *)
Fixpoint digits_fuel (fuel : nat) (n : Z) (acc : string) : string :=
  match fuel with
  | O => acc
  | S f =>
      let acc' := String (digit_char (n mod 10)) acc in
      if n <? 10 then acc' else digits_fuel f (n / 10) acc'
  end.

Definition str_nonneg (n : Z) : string :=
  digits_fuel (S (Z.to_nat (Z.log2 n))) n EmptyString.

(** [str(z)] for a Python int. *)
Definition str_int (z : Z) : string :=
  if z <? 0 then String "-" (str_nonneg (- z)) else str_nonneg z.

Definition str_nat (n : nat) : string := str_nonneg (Z.of_nat n).

(** [format(z, "{w}d")]: sign, digits, right-justified with spaces. *)
Definition format_d (w : nat) (z : Z) : string := rjust w " " (str_int z).

(** [" ".join(parts)] and friends. *)
Fixpoint join (sep : string) (parts : list string) : string :=
  match parts with
  | [] => EmptyString
  | [p] => p
  | p :: rest => p +:+ sep +:+ join sep rest
  end.

Fixpoint concat_all (parts : list string) : string :=
  match parts with
  | [] => EmptyString
  | p :: rest => p +:+ concat_all rest
  end.

(** [s.replace(c, "")] for a one-character [c]. *)
Fixpoint remove_char (c : ascii) (s : string) : string :=
  match s with
  | EmptyString => EmptyString
  | String a r => if Ascii.eqb a c then remove_char c r
                  else String a (remove_char c r)
  end.

(** [s.split(c)] for a one-character separator: never empty, one more
    part than there are separators. *)
Fixpoint split_char (c : ascii) (s : string) : list string :=
  match s with
  | EmptyString => [EmptyString]
  | String a r =>
      if Ascii.eqb a c then EmptyString :: split_char c r
      else match split_char c r with
           | [] => [String a EmptyString]
           | p :: ps => String a p :: ps
           end
  end.

Definition startswith (s pre : string) : bool := String.prefix pre s.

Fixpoint rev_string (s : string) : string :=
  match s with
  | EmptyString => EmptyString
  | String a r => rev_string r +:+ String a EmptyString
  end.

Definition endswith (s suf : string) : bool :=
  String.prefix (rev_string suf) (rev_string s).

End Text.

(** ** Floating-point values and numpy's element-wise operations *)

Module Float.
Import Text.

Definition float := spec_float.

Definition is_nan (x : float) : bool :=
  match x with S754_nan => true | _ => false end.

Definition is_finite (x : float) : bool :=
  match x with S754_zero _ | S754_finite _ _ _ => true | _ => false end.

Definition sign_of (x : float) : bool :=
  match x with
  | S754_zero s | S754_infinity s | S754_finite s _ _ => s
  | S754_nan => false
  end.

(** Magnitude of a finite value as a fraction [num / den], [den > 0]. *)
Definition magnitude (x : float) : Z * Z :=
  match x with
  | S754_finite _ m e =>
      if 0 <=? e then (Z.pos m * 2 ^ e, 1) else (Z.pos m, 2 ^ (- e))
  | _ => (0, 1)
  end.

(** The exact rational a finite value denotes (0 for the others). *)
Definition to_Q (x : float) : Q :=
  let '(n, d) := magnitude x in
  Qmake (if sign_of x then - n else n) (Z.to_pos d).

(** The largest binary64 value, [sys.float_info.max]. *)
Definition DBL_MAX_mantissa : positive := 9007199254740991.
Definition DBL_MAX (s : bool) : float := S754_finite s DBL_MAX_mantissa 971.

(** [np.nan_to_num(x, nan=nan)]: NaN becomes [nan]; with [posinf] and
    [neginf] left at their defaults the infinities become the largest
    finite values of the type. *)
Definition nan_to_num (nan : float) (x : float) : float :=
  match x with
  | S754_nan => nan
  | S754_infinity s => DBL_MAX s
  | _ => x
  end.

(** Nearest integer to [n / d] ([n >= 0], [d > 0]), ties to the even one. *)
Definition round_half_even_div (n d : Z) : Z :=
  let q := n / d in
  let r := n mod d in
  match 2 * r ?= d with
  | Lt => q
  | Gt => q + 1
  | Eq => if Z.even q then q else q + 1
  end.

(** [np.round(x)] with the default [decimals=0] is [rint]: the nearest
    integer as a float, ties to even, the sign kept (so -0.4 gives -0.0);
    NaN and infinities pass through. *)
Definition np_round (x : float) : float :=
  match x with
  | S754_finite s m e =>
      if 0 <=? e then x
      else match round_half_even_div (Z.pos m) (2 ^ (- e)) with
           | Z.pos p => S754_finite s p 0
           | _ => S754_zero s
           end
  | _ => x
  end.

Definition INT64_MIN : Z := - 2 ^ 63.
Definition INT64_MAX : Z := 2 ^ 63 - 1.

Definition in_int64 (z : Z) : bool := (INT64_MIN <=? z) && (z <=? INT64_MAX).

(** Truncation toward zero of a finite value. *)
Definition trunc (x : float) : option Z :=
  match x with
  | S754_zero _ => Some 0
  | S754_finite s m e =>
      let '(n, d) := magnitude x in
      Some (if s then - (n / d) else n / d)
  | _ => None
  end.

(** [x.astype(int)]: the C conversion from double to a 64-bit integer.
    It truncates toward zero.  For NaN, infinities and values outside
    the 64-bit range C leaves the result undefined; numpy on x86-64
    stores the "integer indefinite" value [INT64_MIN] there, which is
    what is modelled. *)
Definition astype_int (x : float) : Z :=
  match trunc x with
  | Some z => if in_int64 z then z else INT64_MIN
  | None => INT64_MIN
  end.

(** *** Python's float formatting *)

(** Number of decimal digits of [q >= 1], minus one. *)
Fixpoint floor_log10 (fuel : nat) (q : Z) : Z :=
  match fuel with
  | O => 0
  | S f => if q <? 10 then 0 else 1 + floor_log10 f (q / 10)
  end.

(** The least [j >= j0] with [n * 10 ^ (j - j0) >= d]. *)
Fixpoint log10_up (fuel : nat) (n d j : Z) : Z :=
  match fuel with
  | O => j
  | S f => if d <=? n then j else log10_up f (n * 10) d (j + 1)
  end.

(** Decimal exponent of [n / d > 0]: the [k] with
    [10 ^ k <= n / d < 10 ^ (k + 1)]. *)
Definition decimal_exponent (n d : Z) : Z :=
  if d <=? n then floor_log10 (S (Z.to_nat (Z.log2 (n / d)))) (n / d)
  else - log10_up (S (S (Z.to_nat (Z.log2 d)))) n d 0.

(** [n / d] scaled by [10 ^ sh] and rounded to the nearest integer. *)
Definition scaled_round (n d sh : Z) : Z :=
  if 0 <=? sh then round_half_even_div (n * 10 ^ sh) d
  else round_half_even_div n (d * 10 ^ (- sh)).

(** Digits and decimal exponent of the nearest decimal with [prec + 1]
    significant digits. *)
Definition sci_digits (prec : nat) (n d : Z) : Z * Z :=
  let k := decimal_exponent n d in
  let N := scaled_round n d (Z.of_nat prec - k) in
  if 10 ^ (Z.of_nat prec + 1) <=? N then (N / 10, k + 1) else (N, k).

Definition zeros (n : nat) : string := replicate_char n "0".

Definition exponent_str (k : Z) : string :=
  String (if k <? 0 then "-"%char else "+"%char) (rjust 2 "0" (str_nonneg (Z.abs k))).

Definition mantissa_str (prec : nat) (ds : string) : string :=
  match ds with
  | EmptyString => EmptyString
  | String d0 rest =>
      match prec with
      | O => String d0 EmptyString
      | _ => String d0 (String "." rest)
      end
  end.

Definition sign_str (s : bool) : string :=
  if s then "-" else EmptyString.

(** [format(x, ".{prec}e")] without a width. *)
Definition format_e_body (prec : nat) (x : float) : string :=
  match x with
  | S754_nan => "nan"
  | S754_infinity s => sign_str s +:+ "inf"
  | S754_zero s =>
      sign_str s +:+ mantissa_str prec (zeros (S prec)) +:+ "e+00"
  | S754_finite s _ _ =>
      let '(n, d) := magnitude x in
      let '(N, k) := sci_digits prec n d in
      sign_str s +:+ mantissa_str prec (str_nonneg N) +:+ "e" +:+ exponent_str k
  end.

(** [format(x, ".{prec}f")] without a width. *)
Definition format_f_body (prec : nat) (x : float) : string :=
  match x with
  | S754_nan => "nan"
  | S754_infinity s => sign_str s +:+ "inf"
  | _ =>
      let '(n, d) := magnitude x in
      let N := round_half_even_div (n * 10 ^ Z.of_nat prec) d in
      let ip := N / 10 ^ Z.of_nat prec in
      let fp := N mod 10 ^ Z.of_nat prec in
      sign_str (sign_of x) +:+ str_nonneg ip +:+
      match prec with
      | O => EmptyString
      | _ => String "." (rjust prec "0" (str_nonneg fp))
      end
  end.

(** [f"{x:{w}.{prec}e}"] and [f"{x:{w}.{prec}f}"]: numbers are
    right-justified in the minimum width [w]. *)
Definition format_e (w prec : nat) (x : float) : string :=
  rjust w " " (format_e_body prec x).

Definition format_f (w prec : nat) (x : float) : string :=
  rjust w " " (format_f_body prec x).

(** Literals used below and in examples. *)
Definition of_Z (z : Z) : float :=
  match z with
  | Z0 => S754_zero false
  | Z.pos p => S754_finite false p 0
  | Z.neg p => S754_finite true p 0
  end.

End Float.

(** ** Exceptions and the file-writing monad *)

Module Py.

Inductive exn : Type :=
| ValueError (msg : string)
| IndexError (msg : string)
| AttributeError (msg : string)
| OSError (msg : string).

(** [str(e)]. *)
Definition str_exn (e : exn) : string :=
  match e with
  | ValueError m | IndexError m | AttributeError m | OSError m => m
  end.

(** A computation that writes chunks of text to the open file and then
    either raises or returns: the chunks written before a raise stay. *)
Definition Wr (A : Type) : Type := list string * (exn + A).

Definition ret {A} (a : A) : Wr A := ([], inr a).
Definition raise {A} (e : exn) : Wr A := ([], inl e).
Definition write (s : string) : Wr unit := ([s], inr tt).

Definition bind {A B} (m : Wr A) (k : A -> Wr B) : Wr B :=
  match m with
  | (out, inl e) => (out, inl e)
  | (out, inr a) => let '(out', r) := k a in (out ++ out', r)
  end.

Definition lift {A} (r : exn + A) : Wr A := ([], r).

(** [for x in xs: body(x)]. *)
Fixpoint for_each {A} (xs : list A) (body : A -> Wr unit) : Wr unit :=
  match xs with
  | [] => ret tt
  | x :: rest => bind (body x) (fun _ => for_each rest body)
  end.

Definition written {A} (m : Wr A) : list string := fst m.
Definition outcome {A} (m : Wr A) : exn + A := snd m.

(** [range(n)]. *)
Definition range (n : nat) : list nat := seq 0 n.

End Py.

Declare Scope wr_scope.
Delimit Scope wr_scope with wr.
Notation "x <- m ;; k" := (Py.bind m (fun x => k))
(at level 100, m at next level, k at level 200, right associativity)
: wr_scope.
Notation "m ;;; k" := (Py.bind m (fun _ => k))
(at level 100, k at level 200, right associativity) : wr_scope.

(** ** Timestamps *)

Module DateTime.
Import Text Py.

(** An element of xarray's decoded time coordinate, [datetime64[ns]]:
    a count of nanoseconds since 1970-01-01T00:00:00, or NaT. *)
Inductive datetime64 : Type :=
| NaT
| DT (ns : Z).

(** The counts a 64-bit [datetime64] can hold ([INT64_MIN] is NaT). *)
Definition valid_ns (ns : Z) : Prop := - 2 ^ 63 < ns < 2 ^ 63.

(** numpy's broken-down time, the fields printed down to seconds. *)
Record datetimestruct : Type := {
  year : Z; month : Z; day : Z; hour : Z; minute : Z; sec : Z
}.

Definition is_leapyear (y : Z) : bool :=
  (y mod 4 =? 0) && (negb (y mod 100 =? 0) || (y mod 400 =? 0)).

(** numpy's [days_to_yearsdays]: the year of a day count since the
    epoch, and the day within that year. *)
Definition days_to_yearsdays (days0 : Z) : Z * Z :=
  let days_per_400years := 400 * 365 + 100 - 4 + 1 in
  let days := days0 - (365 * 30 + 7) in
  let year := 400 * (days / days_per_400years) in
  let days := days mod days_per_400years in
  let '(year, days) :=
    if 366 <=? days then
      let year := year + 100 * ((days - 1) / (100 * 365 + 25 - 1)) in
      let days := (days - 1) mod (100 * 365 + 25 - 1) in
      if 365 <=? days then
        let year := year + 4 * ((days + 1) / (4 * 365 + 1)) in
        let days := (days + 1) mod (4 * 365 + 1) in
        if 366 <=? days then
          (year + (days - 1) / 365, (days - 1) mod 365)
        else (year, days)
      else (year, days)
    else (year, days) in
  (year + 2000, days).

Definition days_per_month_table (leap : bool) : list Z :=
  if leap then [31; 29; 31; 30; 31; 30; 31; 31; 30; 31; 30; 31]
  else [31; 28; 31; 30; 31; 30; 31; 31; 30; 31; 30; 31].

(** Walk the month lengths: the month (from 1) and day (from 1) of a
    day of the year (from 0). *)
Fixpoint month_day (lengths : list Z) (m : Z) (days : Z) : Z * Z :=
  match lengths with
  | [] => (m, days + 1)
  | len :: rest =>
      if days <? len then (m, days + 1)
      else month_day rest (m + 1) (days - len)
  end.

(** numpy's conversion of a nanosecond count to broken-down time; each
    unit is extracted by floor division. *)
Definition to_datetimestruct (ns : Z) : datetimestruct :=
  let perday := 24 * 60 * 60 * 1000000000 in
  let days := ns / perday in
  let rest := ns mod perday in
  let '(y, yd) := days_to_yearsdays days in
  let '(mo, d) := month_day (days_per_month_table (is_leapyear y)) 1 yd in
  {| year := y; month := mo; day := d;
     hour := rest / (60 * 60 * 1000000000);
     minute := (rest mod (60 * 60 * 1000000000)) / (60 * 1000000000);
     sec := (rest mod (60 * 1000000000)) / 1000000000 |}.

(** C's [%0{w}d]. *)
Definition zero_pad (w : nat) (z : Z) : string :=
  if z <? 0 then String "-" (rjust (w - 1) "0" (str_nonneg (- z)))
  else rjust w "0" (str_nonneg z).

Definition iso_date (d : datetimestruct) : string :=
  zero_pad 4 (year d) +:+ "-" +:+ zero_pad 2 (month d) +:+ "-" +:+
  zero_pad 2 (day d).

Definition iso_time (d : datetimestruct) : string :=
  zero_pad 2 (hour d) +:+ ":" +:+ zero_pad 2 (minute d) +:+ ":" +:+
  zero_pad 2 (sec d).

(** [np.datetime_as_string(t, unit="s")]: ISO 8601 down to seconds;
    finer fields are not printed. *)
Definition datetime_as_string_s (t : datetime64) : string :=
  match t with
  | NaT => "NaT"
  | DT ns =>
      let d := to_datetimestruct ns in
      iso_date d +:+ "T" +:+ iso_time d
  end.

(** [format_swan_time(nptime)]. *)
Definition format_swan_time (nptime : datetime64) : exn + string :=
  let dt := datetime_as_string_s nptime in
  match split_char "T" dt with
  | [date; time] =>
      inr (remove_char "-" date +:+ "." +:+ remove_char ":" time)
  | [] | [_] => inl (ValueError "not enough values to unpack (expected 2, got 1)")
  | _ => inl (ValueError "too many values to unpack (expected 2)")
  end.

End DateTime.

(** ** The dataset *)

Module Netcdf.
Import Text Float Py DateTime.

(** A numpy array is its shape and its elements; it is rectangular by
    construction.  Only indices inside the shape are ever looked up. *)
Record ndarray2 : Type := {
  shape2 : nat * nat;
  data2 : nat -> nat -> float
}.

Record ndarray4 : Type := {
  shape4 : nat * nat * nat * nat;
  data4 : nat -> nat -> nat -> nat -> float
}.

(** The variables of an opened dataset that the script looks at; a
    variable that the file does not have is [None]. *)
Record Dataset : Type := {
  longitude : option (list float);
  latitude : option (list float);
  frequency : option (list float);
  direction : option (list float);
  energy_density : option ndarray4;
  time : option (list datetime64);
  factor : option ndarray2
}.

Definition name_if {A} (name : string) (v : option A) : list string :=
  match v with Some _ => [name] | None => [] end.

(** [ds.variables], as the names present. *)
Definition variables (ds : Dataset) : list string :=
  name_if "longitude" (longitude ds) ++ name_if "latitude" (latitude ds) ++
  name_if "frequency" (frequency ds) ++ name_if "direction" (direction ds) ++
  name_if "energy_density" (energy_density ds) ++ name_if "time" (time ds) ++
  name_if "factor" (factor ds).

(** [name in names]. *)
Definition contains (names : list string) (name : string) : bool :=
  existsb (String.eqb name) names.

(** [ds.<name>]: raises [AttributeError] for a variable that is absent. *)
Definition attr {A} (name : string) (v : option A) : exn + A :=
  match v with
  | Some a => inr a
  | None =>
      inl (AttributeError
             ("'Dataset' object has no attribute '" +:+ name +:+ "'"))
  end.

Definition out_of_bounds (i axis size : nat) : exn :=
  IndexError ("index " +:+ str_nat i +:+ " is out of bounds for axis " +:+
              str_nat axis +:+ " with size " +:+ str_nat size).

(** [a[i, j]]. *)
Definition index2 (a : ndarray2) (i j : nat) : exn + float :=
  let '(n0, n1) := shape2 a in
  if negb (i <? n0)%nat then inl (out_of_bounds i 0 n0)
  else if negb (j <? n1)%nat then inl (out_of_bounds j 1 n1)
  else inr (data2 a i j).

(** [a[i, j, k, :]]. *)
Definition row4 (a : ndarray4) (i j k : nat) : exn + list float :=
  let '(n0, n1, n2, n3) := shape4 a in
  if negb (i <? n0)%nat then inl (out_of_bounds i 0 n0)
  else if negb (j <? n1)%nat then inl (out_of_bounds j 1 n1)
  else if negb (k <? n2)%nat then inl (out_of_bounds k 2 n2)
  else inr (map (data4 a i j k) (range n3)).

(** [a[i]] on a one-dimensional array. *)
Definition index1 {A} (a : list A) (i : nat) : exn + A :=
  match nth_error a i with
  | Some x => inr x
  | None => inl (out_of_bounds i 0 (length a))
  end.

(** [np.ones((n0, n1))]. *)
Definition ones (n0 n1 : nat) : ndarray2 :=
  {| shape2 := (n0, n1); data2 := fun _ _ => of_Z 1 |}.

End Netcdf.

(** ** Logging *)

Module Logging.

Inductive level : Type := INFO | WARNING | ERROR.

(** One record as both handlers receive it (the time stamp the
    formatter prepends is not part of the message). *)
Definition record : Type := level * string.

Definition info (msg : string) : record := (INFO, msg).
Definition warning (msg : string) : record := (WARNING, msg).
Definition error (msg : string) : record := (ERROR, msg).

End Logging.

(** ** Paths and the file system *)

Module Os.
Import Text Py.

Definition is_sep (c : ascii) : bool := Ascii.eqb c "/".
Definition is_dot (c : ascii) : bool := Ascii.eqb c ".".

(** [p[:i], p[i:]] for [i = p.rfind("/") + 1]. *)
Fixpoint split_path (p : string) : string * string :=
  match p with
  | EmptyString => (EmptyString, EmptyString)
  | String a r =>
      let '(h, t) := split_path r in
      match h with
      | EmptyString =>
          if is_sep a then (String a EmptyString, r)
          else (EmptyString, String a t)
      | _ => (String a h, t)
      end
  end.

(** [s.rstrip("/")]. *)
Fixpoint rstrip_sep (s : string) : string :=
  match s with
  | EmptyString => EmptyString
  | String a r =>
      match rstrip_sep r with
      | EmptyString => if is_sep a then EmptyString else String a EmptyString
      | r' => String a r'
      end
  end.

(** [posixpath.dirname] and [posixpath.basename]. *)
Definition dirname (p : string) : string :=
  let head := fst (split_path p) in
  if all_chars is_sep head then head else rstrip_sep head.

Definition basename (p : string) : string := snd (split_path p).

(** [posixpath.join(a, b)]. *)
Definition join (a b : string) : string :=
  if startswith b "/" then b
  else if (String.eqb a EmptyString || endswith a "/")%bool then a +:+ b
  else a +:+ "/" +:+ b.

(** A name split at its last dot: [(name[:i], name[i:])], or
    [(name, "")] without a dot. *)
Fixpoint split_dot (s : string) : string * string :=
  match s with
  | EmptyString => (EmptyString, EmptyString)
  | String a r =>
      let '(b, e) := split_dot r in
      match e with
      | EmptyString =>
          if is_dot a then (EmptyString, s) else (String a b, EmptyString)
      | _ => (String a b, e)
      end
  end.

(** [posixpath.splitext]: the extension starts at the last dot of the
    last component, unless only dots come before it. *)
Definition splitext (p : string) : string * string :=
  let '(h, name) := split_path p in
  let '(root, ext) := split_dot name in
  match ext with
  | EmptyString => (p, EmptyString)
  | _ => if all_chars is_dot root then (p, EmptyString)
         else (h +:+ root, ext)
  end.

(** The state the script acts on: regular files with their contents,
    directories, and the records logged so far. *)
Record World : Type := {
  files : gmap string string;
  dirs : gset string;
  log : list Logging.record
}.

Definition add_log (rs : list Logging.record) (w : World) : World :=
  {| files := files w; dirs := dirs w; log := log w ++ rs |}.

(** [os.path.exists(p)]. *)
Definition exists_ (p : string) (w : World) : bool :=
  bool_decide (p ∈ dirs w) || bool_decide (is_Some (files w !! p)).

(** [os.makedirs(d, exist_ok=True)]: the empty path and a path taken by
    a regular file raise; otherwise the directory exists afterwards. *)
Definition makedirs (d : string) (w : World) : exn + World :=
  if String.eqb d EmptyString then
    inl (OSError "[Errno 2] No such file or directory: ''")
  else if bool_decide (is_Some (files w !! d)) then
    inl (OSError ("[Errno 17] File exists: '" +:+ d +:+ "'"))
  else inr {| files := files w; dirs := {[ d ]} ∪ dirs w; log := log w |}.

(** [open(p, "w")]: the directory of [p] must exist (the empty one is
    the current directory) and [p] must not be a directory; the file is
    created or truncated. *)
Definition open_w (p : string) (w : World) : exn + World :=
  if bool_decide (p ∈ dirs w) then
    inl (OSError ("[Errno 21] Is a directory: '" +:+ p +:+ "'"))
  else if negb (String.eqb (dirname p) EmptyString) &&
          negb (bool_decide (dirname p ∈ dirs w)) then
    inl (OSError ("[Errno 2] No such file or directory: '" +:+ p +:+ "'"))
  else inr {| files := <[ p := EmptyString ]> (files w);
              dirs := dirs w; log := log w |}.

(** The file at [p] after the chunks [out] were written to it and it
    was closed. *)
Definition close_with (p : string) (out : list string) (w : World) : World :=
  {| files := <[ p := concat_all out ]> (files w);
     dirs := dirs w; log := log w |}.

(** What the operating system and the clock provide. *)
Record Env : Type := {
  open_dataset : string -> exn + Netcdf.Dataset;
  listdir : string -> list string;
  now : string;
  abspath : string -> string
}.

End Os.

(** ** The converter *)

Module Sp2.
Import Text Float Py DateTime Netcdf Logging Os.
Local Open Scope wr_scope.

(** The script's [CONFIG] dictionary. *)
Record Config : Type := {
  input_dir : string;
  output_dir : string;
  log_file : string;
  exception_value : float;
  swan_version : string;
  project_name : string;
  run_number : string;
  overwrite : bool
}.

(** The values the script sets, for the working directory [cwd]. *)
Definition CONFIG (cwd : string) : Config := {|
  input_dir := cwd;
  output_dir := Os.join cwd "converted_sp2_files";
  log_file := "conversion_log.txt";
  exception_value := S754_finite true 99 0;
  swan_version := "41.41";
  project_name := "WaveDataProject";
  run_number := "1.0";
  overwrite := false
|}.

(** [setup_logging()]: the two records it logs. *)
Definition setup_logging (env : Env) : list Logging.record :=
  [ info "SWAN NetCDF to SP2 Conversion Tool";
    info ("Started at " +:+ now env) ].

Definition required_vars : list string :=
  ["longitude"; "latitude"; "frequency"; "direction"; "energy_density";
   "time"].

Fixpoint validate_loop (vars : list string) (present : list string)
  : list Logging.record * bool :=
  match vars with
  | [] => ([], true)
  | var :: rest =>
      if negb (contains present var) then
        ([error ("Missing required variable: " +:+ var)], false)
      else validate_loop rest present
  end.

(** [validate_netcdf(ds)]: what it logs and what it returns. *)
Definition validate_netcdf (ds : Dataset) : list Logging.record * bool :=
  validate_loop required_vars (variables ds).

(** [write_sp2_header(f, ds, nloc)]. *)
Definition write_sp2_header (cfg : Config) (ds : Dataset) (nloc : nat)
  : Wr unit :=
  write ("SWAN   1                                Swan standard spectral file, version" +:+ nl) ;;;
  write ("$   Data produced by SWAN version " +:+ swan_version cfg +:+ nl) ;;;
  write ("$   Project: " +:+ project_name cfg +:+
         "        ;  run number: " +:+ run_number cfg +:+ nl) ;;;
  write ("TIME                                    time-dependent data" +:+ nl) ;;;
  write ("     1                                  time coding option" +:+ nl) ;;;
  write ("LONLAT                                  locations in spherical coordinates" +:+ nl) ;;;
  write (format_d 6 (Z.of_nat nloc) +:+
         "                                  number of locations" +:+ nl) ;;;
  lons <- lift (attr "longitude" (longitude ds)) ;;
  lats <- lift (attr "latitude" (latitude ds)) ;;
  for_each (combine lons lats) (fun '(lon, lat) =>
    write (format_f 10 4 lon +:+ " " +:+ format_f 10 4 lat +:+ nl)) ;;;
  write ("AFREQ                                   absolute frequencies in Hz" +:+ nl) ;;;
  freqs <- lift (attr "frequency" (frequency ds)) ;;
  write (format_d 6 (Z.of_nat (length freqs)) +:+
         "                                  number of frequencies" +:+ nl) ;;;
  for_each freqs (fun fr => write (format_f 10 4 fr +:+ nl)) ;;;
  write ("NDIR                                    spectral nautical directions in degr" +:+ nl) ;;;
  dirns <- lift (attr "direction" (direction ds)) ;;
  write (format_d 6 (Z.of_nat (length dirns)) +:+
         "                                  number of directions" +:+ nl) ;;;
  for_each dirns (fun d => write (format_f 10 4 d +:+ nl)) ;;;
  write ("QUANT" +:+ nl) ;;;
  write ("     1                                  number of quantities in table" +:+ nl) ;;;
  write ("EnDens                                  energy densities in J/m2/Hz/degr" +:+ nl) ;;;
  write ("J/m2/Hz/degr                            unit" +:+ nl) ;;;
  write (format_e 10 4 (exception_value cfg) +:+
         "                          exception value" +:+ nl).

(** The three statements that turn one row of the energy array into
    integers: [np.nan_to_num(row, nan=0.0)], then
    [np.round(...).astype(int)]. *)
Definition row_to_ints (row : list float) : list Z :=
  let row_ints := map (nan_to_num (S754_zero false)) row in
  map astype_int (map np_round row_ints).

(** [" ".join(f"{val:6d}" for val in row_ints)]. *)
Definition row_str (row_ints : list Z) : string :=
  Text.join " " (map (format_d 6) row_ints).

(** The body of the innermost loop: one line of the energy matrix. *)
Definition write_row (energy : ndarray4) (t_idx p_idx fr_idx : nat)
  : Wr unit :=
  row <- lift (row4 energy t_idx p_idx fr_idx) ;;
  write (row_str (row_to_ints row) +:+ nl).

(** The body of the location loop: the data of one location. *)
Definition write_location (ds : Dataset) (energy : ndarray4)
    (factors : ndarray2) (t_idx p_idx : nat) : Wr unit :=
  write ("FACTOR" +:+ nl) ;;;
  fac <- lift (index2 factors t_idx p_idx) ;;
  write (format_e 0 16 fac +:+ nl) ;;;
  freqs <- lift (attr "frequency" (frequency ds)) ;;
  for_each (range (length freqs)) (write_row energy t_idx p_idx).

(** The body of the time loop: one time step. *)
Definition write_timestep (ds : Dataset) (energy : ndarray4)
    (factors : ndarray2) (nloc : nat) (t_idx : nat) : Wr unit :=
  times <- lift (attr "time" (time ds)) ;;
  nptime <- lift (index1 times t_idx) ;;
  swan_time <- lift (format_swan_time nptime) ;;
  write (swan_time +:+ "                         date and time" +:+ nl) ;;;
  for_each (range nloc) (write_location ds energy factors t_idx).

(** Everything written between [open(output_path, "w")] and the end of
    that [with] block. *)
Definition write_sp2 (cfg : Config) (ds : Dataset) (energy : ndarray4)
    (factors : ndarray2) (nloc : nat) : Wr unit :=
  write_sp2_header cfg ds nloc ;;;
  times <- lift (attr "time" (time ds)) ;;
  for_each (range (length times))
           (write_timestep ds energy factors nloc).

(** The "prepare data arrays" statements. *)
Definition prepare (ds : Dataset) : exn + (ndarray4 * ndarray2 * nat) :=
  match attr "energy_density" (energy_density ds) with
  | inl e => inl e
  | inr energy =>
      let factors :=
        if contains (variables ds) "factor" then attr "factor" (factor ds)
        else match attr "time" (time ds), attr "longitude" (longitude ds) with
             | inl e, _ => inl e
             | _, inl e => inl e
             | inr ts, inr lons => inr (ones (length ts) (length lons))
             end in
      match factors with
      | inl e => inl e
      | inr factors =>
          match attr "longitude" (longitude ds) with
          | inl e => inl e
          | inr lons => inr (energy, factors, length lons)
          end
      end
  end.

(** The [except Exception] handler of [convert_netcdf_to_sp2]. *)
Definition handler (input_path : string) (e : exn) (w : World)
  : World * bool :=
  (add_log [error ("Error processing " +:+ basename input_path +:+ ": " +:+
                   str_exn e)] w, false).

(** [convert_netcdf_to_sp2(input_path, output_path)]. *)
Definition convert_netcdf_to_sp2 (env : Env) (cfg : Config)
    (input_path output_path : string) (w : World) : World * bool :=
  match open_dataset env input_path with
  | inl e => handler input_path e w
  | inr ds =>
      let '(records, valid) := validate_netcdf ds in
      let w := add_log records w in
      if negb valid then (w, false)
      else
        match prepare ds with
        | inl e => handler input_path e w
        | inr (energy, factors, nloc) =>
            match makedirs (dirname output_path) w with
            | inl e => handler input_path e w
            | inr w =>
                match open_w output_path w with
                | inl e => handler input_path e w
                | inr w =>
                    let '(out, r) := write_sp2 cfg ds energy factors nloc in
                    let w := close_with output_path out w in
                    match r with
                    | inl e => handler input_path e w
                    | inr _ => (w, true)
                    end
                end
            end
        end
  end.

(** The list comprehension that selects the input files. *)
Definition netcdf_files (env : Env) (cfg : Config) : list string :=
  List.filter (fun f => startswith f "esp_" && endswith f ".nc")
              (listdir env (input_dir cfg)).

Definition output_path_of (cfg : Config) (filename : string) : string :=
  Os.join (output_dir cfg) (fst (splitext filename) +:+ ".sp2").

(** One iteration of the loop over the files; the state is the world
    and [success_count]. *)
Definition process_file (env : Env) (cfg : Config) (filename : string)
    (st : World * nat) : World * nat :=
  let '(w, success_count) := st in
  let input_path := Os.join (input_dir cfg) filename in
  let output_path := output_path_of cfg filename in
  if negb (overwrite cfg) && exists_ output_path w then
    (add_log [info ("Skipping existing file: " +:+ filename)] w,
     success_count)
  else
    let '(w, ok) := convert_netcdf_to_sp2 env cfg input_path output_path w in
    if ok then
      (add_log [info ("Successfully converted: " +:+ filename)] w,
       S success_count)
    else (w, success_count).

Definition process_files (env : Env) (cfg : Config) (names : list string)
    (st : World * nat) : World * nat :=
  fold_left (fun st filename => process_file env cfg filename st) names st.

Definition summary (env : Env) (cfg : Config) (total succeeded : nat)
  : list Logging.record :=
  [ info (nl +:+ "Conversion Summary:");
    info ("- Total files processed: " +:+ str_nat total);
    info ("- Successfully converted: " +:+ str_nat succeeded);
    info ("- Output directory: " +:+ abspath env (output_dir cfg));
    info ("Log file saved to: " +:+ abspath env (log_file cfg)) ].

(** [main()]: the world it leaves, or the exception that ends it. *)
Definition main (env : Env) (cfg : Config) (w : World) : exn + World :=
  let w := add_log (setup_logging env) w in
  match makedirs (output_dir cfg) w with
  | inl e => inl e
  | inr w =>
      let names := netcdf_files env cfg in
      match names with
      | [] =>
          inr (add_log
                 [ warning ("No valid NetCDF files found in " +:+ input_dir cfg);
                   warning "Expected files starting with 'esp_' and ending with '.nc'" ]
                 w)
      | _ =>
          let w := add_log [info ("Found " +:+ str_nat (length names) +:+
                                  " NetCDF files to process")] w in
          let '(w, success_count) := process_files env cfg names (w, O) in
          inr (add_log (summary env cfg (length names) success_count) w)
      end
  end.

End Sp2.

(** ** Vocabulary of the statements *)

Module Spec.
Import Text Float.

(** [z] is [q] rounded to the nearest integer, ties to even. *)
Definition is_round_half_even (q : Q) (z : Z) : Prop :=
  (Qabs (q - inject_Z z) <= 1 # 2)%Q /\
  ((Qabs (q - inject_Z z) == 1 # 2)%Q -> Z.even z = true).

(** What the three statements of the innermost loop do to one sample:
    [row_to_ints] applies it to every element of the row. *)
Definition sample_to_int (x : float) : Z :=
  astype_int (np_round (nan_to_num (S754_zero false) x)).

(** The integer a finite sample becomes, before the range check of the
    conversion to int. *)
Definition rounded_magnitude (m : positive) (e : Z) : Z :=
  if 0 <=? e then Z.pos m * 2 ^ e
  else round_half_even_div (Z.pos m) (2 ^ (- e)).

(** The values a signed 64-bit integer can hold, as rationals. *)
Definition fits_int64 (q : Q) : Prop :=
  (inject_Z INT64_MIN <= q)%Q /\ (q <= inject_Z INT64_MAX)%Q.

Definition two_and_a_half : float := S754_finite false 5 (-1).
Definition three_and_a_half : float := S754_finite false 7 (-1).

(** The decimal exponent brackets the fraction between two powers of
    ten. *)
Definition bracketed (n d k : Z) : Prop :=
  (0 <= k /\ 10 ^ k * d <= n < 10 ^ (k + 1) * d) \/
  (k < 0 /\ d <= n * 10 ^ (- k) < 10 * d).

(** Scientific notation with [prec] digits after the point: an optional
    minus, one digit, a point, [prec] digits, "e", a sign and at least
    two digits of exponent. *)
Definition sci_text (prec : nat) (s : string) : Prop :=
  exists (sg : string) (d0 : ascii) (frac : string) (es : ascii)
         (ex : string),
    s = sg +:+ String d0 (String "." frac) +:+ "e" +:+ String es ex /\
    (sg = EmptyString \/ sg = "-") /\
    is_digit d0 = true /\
    String.length frac = prec /\ all_chars is_digit frac = true /\
    (es = "+"%char \/ es = "-"%char) /\
    (2 <= String.length ex)%nat /\ all_chars is_digit ex = true.

(** The text before the "e", and the digits in it: all of them are
    significant in scientific notation. *)
Definition mantissa (s : string) : string :=
  hd EmptyString (split_char "e" s).

Definition significant_digits (s : string) : nat :=
  count_chars is_digit (mantissa s).

(** The digits of a broken-down time: [YYYYMMDD] and [HHMMSS]. *)
Definition swan_date (d : DateTime.datetimestruct) : string :=
  DateTime.zero_pad 4 (DateTime.year d) +:+
  DateTime.zero_pad 2 (DateTime.month d) +:+
  DateTime.zero_pad 2 (DateTime.day d).

Definition swan_clock (d : DateTime.datetimestruct) : string :=
  DateTime.zero_pad 2 (DateTime.hour d) +:+
  DateTime.zero_pad 2 (DateTime.minute d) +:+
  DateTime.zero_pad 2 (DateTime.sec d).

(** The shape [YYYYMMDD.HHMMSS]: eight digits, a period, six digits. *)
Definition is_swan_time (s : string) : bool :=
  (String.length s =? 15)%nat &&
  all_chars is_digit (String.substring 0 8 s) &&
  String.eqb (String.substring 8 1 s) "." &&
  all_chars is_digit (String.substring 9 6 s).

Definition differs (c : ascii) (a : ascii) : bool := negb (Ascii.eqb a c).

End Spec.

(** ** The layout of an SP2 file, line by line *)

Module Layout.
Import Text Float Py DateTime Netcdf Sp2.

(** A count in the header: six characters, then the legend. *)
Definition count_line (n : nat) (legend : string) : string :=
  format_d 6 (Z.of_nat n) +:+ "                                  " +:+
  legend +:+ nl.

Definition coordinate_line (lonlat : float * float) : string :=
  format_f 10 4 (fst lonlat) +:+ " " +:+ format_f 10 4 (snd lonlat) +:+ nl.

Definition value_line (x : float) : string := format_f 10 4 x +:+ nl.

Definition identification (cfg : Config) : list string :=
  [ "SWAN   1                                Swan standard spectral file, version" +:+ nl;
    "$   Data produced by SWAN version " +:+ swan_version cfg +:+ nl;
    "$   Project: " +:+ project_name cfg +:+
      "        ;  run number: " +:+ run_number cfg +:+ nl;
    "TIME                                    time-dependent data" +:+ nl;
    "     1                                  time coding option" +:+ nl ].

Definition locations (nloc : nat) (lons lats : list float) : list string :=
  [ "LONLAT                                  locations in spherical coordinates" +:+ nl;
    count_line nloc "number of locations" ] ++
  map coordinate_line (combine lons lats).

Definition frequencies (freqs : list float) : list string :=
  [ "AFREQ                                   absolute frequencies in Hz" +:+ nl;
    count_line (length freqs) "number of frequencies" ] ++
  map value_line freqs.

Definition directions (dirns : list float) : list string :=
  [ "NDIR                                    spectral nautical directions in degr" +:+ nl;
    count_line (length dirns) "number of directions" ] ++
  map value_line dirns.

Definition exception_line (cfg : Config) : string :=
  format_e 10 4 (exception_value cfg) +:+
  "                          exception value" +:+ nl.

Definition quantities (cfg : Config) : list string :=
  [ "QUANT" +:+ nl;
    "     1                                  number of quantities in table" +:+ nl;
    "EnDens                                  energy densities in J/m2/Hz/degr" +:+ nl;
    "J/m2/Hz/degr                            unit" +:+ nl;
    exception_line cfg ].

Definition header (cfg : Config) (nloc : nat)
    (lons lats freqs dirns : list float) : list string :=
  identification cfg ++ locations nloc lons lats ++ frequencies freqs ++
  directions dirns ++ quantities cfg.

(** One line of the matrix: the samples of one frequency, as integers. *)
Definition matrix_line (energy : ndarray4) (ndir t p fr : nat) : string :=
  row_str (row_to_ints (map (data4 energy t p fr) (range ndir))) +:+ nl.

Definition factor_line (factors : ndarray2) (t p : nat) : string :=
  format_e 0 16 (data2 factors t p) +:+ nl.

(** The data block of one location at one time step. *)
Definition location_block (energy : ndarray4) (factors : ndarray2)
    (nfreq ndir t p : nat) : list string :=
  ("FACTOR" +:+ nl) :: factor_line factors t p ::
  map (matrix_line energy ndir t p) (range nfreq).

Definition time_line (nptime : datetime64) : string :=
  match format_swan_time nptime with
  | inr swan_time =>
      swan_time +:+ "                         date and time" +:+ nl
  | inl _ => EmptyString
  end.

(** One time step: its time line, then one block per location. *)
Definition timestep_block (times : list datetime64) (energy : ndarray4)
    (factors : ndarray2) (nloc nfreq ndir t : nat) : list string :=
  time_line (nth t times NaT) ::
  flat_map (location_block energy factors nfreq ndir t) (range nloc).

Definition body (times : list datetime64) (energy : ndarray4)
    (factors : ndarray2) (nloc nfreq ndir : nat) : list string :=
  flat_map (timestep_block times energy factors nloc nfreq ndir)
           (range (length times)).

(** The factors the script uses: the file's, or ones. *)
Definition factors_of (ds : Dataset) (ntime nloc : nat) : ndarray2 :=
  match factor ds with
  | Some fa => fa
  | None => ones ntime nloc
  end.

(** A dataset that has the required variables, with the shapes the
    format needs: one latitude per longitude, energy indexed by time,
    location, frequency and direction, and a factor (when present) per
    time and location. *)
Record well_formed (ds : Dataset) (lons lats freqs dirns : list float)
    (times : list datetime64) (energy : ndarray4) : Prop := {
  wf_longitude : longitude ds = Some lons;
  wf_latitude : latitude ds = Some lats;
  wf_frequency : frequency ds = Some freqs;
  wf_direction : direction ds = Some dirns;
  wf_time : time ds = Some times;
  wf_energy : energy_density ds = Some energy;
  wf_locations : length lats = length lons;
  wf_shape : shape4 energy =
             (length times, length lons, length freqs, length dirns);
  wf_factor : match factor ds with
              | Some fa => shape2 fa = (length times, length lons)
              | None => True
              end
}.

(** The chunks that are the tag opening a data block. *)
Definition is_factor_tag (chunk : string) : bool :=
  String.eqb chunk ("FACTOR" +:+ nl).

Definition count_blocks (chunks : list string) : nat :=
  length (List.filter is_factor_tag chunks).

End Layout.

(** ** Notions used to state what a batch does *)

Module Batch.
Import Text Float Py DateTime Netcdf Logging Os Sp2 Layout.

(** The required variable [var] is absent from [ds]. *)
Definition missing (ds : Dataset) (var : string) : Prop :=
  In var required_vars /\ contains (variables ds) var = false.

(** Two worlds with the same files and directories; their logs may
    differ. *)
Definition same_files (w1 w2 : World) : Prop :=
  files w1 = files w2 /\ dirs w1 = dirs w2.

(** Two states of the loop of [main] with the same files, directories
    and success count. *)
Definition same_result (st1 st2 : World * nat) : Prop :=
  same_files (fst st1) (fst st2) /\ snd st1 = snd st2.

(** The directory of [p] can be made and [p] opened for writing. *)
Definition writable (p : string) (w : World) : bool :=
  match makedirs (dirname p) w with
  | inl _ => false
  | inr w1 => match open_w p w1 with
              | inl _ => false
              | inr _ => true
              end
  end.

(** The whole text of the SP2 file of a well-formed dataset. *)
Definition sp2_text (cfg : Config) (ds : Dataset)
    (lons lats freqs dirns : list float) (times : list datetime64)
    (energy : ndarray4) : string :=
  concat_all
    (header cfg (length lons) lons lats freqs dirns ++
     body times energy (factors_of ds (length times) (length lons))
          (length lons) (length freqs) (length dirns)).

End Batch.

(** ** Concrete inputs used by the examples *)

Module Examples.
Import Text Float Py DateTime Netcdf Os Sp2.

(** 10^19 = 5^19 * 2^19, a binary64 value above 2^63. *)
Definition ten_to_19 : float := S754_finite false 19073486328125 19.

Definition quarter : float := S754_finite false 1 (-2).

(** One time step, two locations, two frequencies, three directions;
    the first direction of every row is NaN. *)
Definition energy1 : ndarray4 := {|
  shape4 := (1, 2, 2, 3)%nat;
  data4 := fun t p f d =>
    if (d =? 0)%nat then S754_nan
    else of_Z (Z.of_nat (p * 100 + f * 10 + d))
|}.

Definition ds1 : Dataset := {|
  longitude := Some [of_Z 1; of_Z 2];
  latitude := Some [of_Z 3; of_Z 4];
  frequency := Some [Spec.two_and_a_half; of_Z 1];
  direction := Some [of_Z 0; of_Z 90; of_Z 180];
  energy_density := Some energy1;
  time := Some [DT 1710482430750000000];
  factor := None
|}.

(** The same dataset without its [direction] variable. *)
Definition ds_no_direction : Dataset := {|
  longitude := longitude ds1;
  latitude := latitude ds1;
  frequency := frequency ds1;
  direction := None;
  energy_density := energy_density ds1;
  time := time ds1;
  factor := None
|}.

Definition env1 : Env := {|
  open_dataset := fun p =>
    if String.eqb p "/w/esp_a.nc" then inr ds_no_direction
    else if String.eqb p "/w/esp_b.nc" then inr ds1
    else inl (OSError "[Errno 2] No such file or directory");
  listdir := fun _ => ["esp_a.nc"; "esp_b.nc"; "notes.txt"];
  now := "2024-03-15 06:00:30";
  abspath := fun p => p
|}.

Definition world0 : World := {| files := ∅; dirs := ∅; log := [] |}.

End Examples.
(** ** Log records by kind *)

Module Records.
Import Text Logging.

Definition is_error (r : Logging.record) : bool :=
  match fst r with ERROR => true | _ => false end.

(** The record the loop of [main] logs for a converted file. *)
Definition is_success (r : Logging.record) : bool :=
  match fst r with
  | INFO => startswith (snd r) "Successfully converted: "
  | _ => false
  end.

(** The record one turn of the loop of [main] leaves for the name [f]:
    the file was skipped, its conversion failed, or it was converted. *)
Definition turn_record (f : string) (r : Logging.record) : Prop :=
  r = info ("Skipping existing file: " +:+ f) \/
  (exists msg, r = error msg) \/
  r = info ("Successfully converted: " +:+ f).

End Records.

(** ** Datasets whose arrays do not fit their coordinates *)

Module Cases.
Import Text Float Py DateTime Netcdf Os Sp2 Examples.

(** One latitude for two longitudes. *)
Definition ds_fewer_latitudes : Dataset := {|
  longitude := longitude ds1;
  latitude := Some [of_Z 3];
  frequency := frequency ds1;
  direction := direction ds1;
  energy_density := energy_density ds1;
  time := time ds1;
  factor := None
|}.

(** Energy for one location only, where the coordinates have two. *)
Definition energy_one_location : ndarray4 := {|
  shape4 := (1, 1, 2, 3)%nat;
  data4 := data4 energy1
|}.

Definition ds_small_energy : Dataset := {|
  longitude := longitude ds1;
  latitude := latitude ds1;
  frequency := frequency ds1;
  direction := direction ds1;
  energy_density := Some energy_one_location;
  time := time ds1;
  factor := None
|}.

(** Energy with three frequencies and five directions, where the
    coordinates have two and three. *)
Definition energy_wide : ndarray4 := {|
  shape4 := (1, 2, 3, 5)%nat;
  data4 := data4 energy1
|}.

Definition ds_wide_energy : Dataset := {|
  longitude := longitude ds1;
  latitude := latitude ds1;
  frequency := frequency ds1;
  direction := direction ds1;
  energy_density := Some energy_wide;
  time := time ds1;
  factor := None
|}.

Definition env2 : Env := {|
  open_dataset := fun p =>
    if String.eqb p "/w/esp_c.nc" then inr ds_small_energy
    else if String.eqb p "/w/esp_d.nc" then inr ds_wide_energy
    else inl (OSError "[Errno 2] No such file or directory");
  listdir := fun _ => ["esp_c.nc"; "esp_d.nc"];
  now := "2024-03-15 06:00:30";
  abspath := fun p => p
|}.

(** A directory without a file that is selected. *)
Definition env_no_input : Env := {|
  open_dataset := fun _ => inl (OSError "[Errno 2] No such file or directory");
  listdir := fun _ => ["notes.txt"; "esp_x.txt"; "data.nc"; "ESP_a.nc"];
  now := "2024-03-15 06:00:30";
  abspath := fun p => p
|}.

End Cases.

(** ** Arrays at least as large as the coordinates *)

Module Fit.
Import Text Float Py DateTime Netcdf Sp2 Layout.

(** The six required variables are present, and the energy array (and
    the factor, when the file has one) is at least as large as the time,
    longitude and frequency coordinates; nothing is asked of the
    latitudes, of the directions or of the last axis of the energy. *)
Record fits (ds : Dataset) (lons lats freqs dirns : list float)
    (times : list datetime64) (energy : ndarray4) (n0 n1 n2 n3 : nat)
    : Prop := {
  fit_longitude : longitude ds = Some lons;
  fit_latitude : latitude ds = Some lats;
  fit_frequency : frequency ds = Some freqs;
  fit_direction : direction ds = Some dirns;
  fit_time : time ds = Some times;
  fit_energy : energy_density ds = Some energy;
  fit_shape : shape4 energy = (n0, n1, n2, n3);
  fit_times : (length times <= n0)%nat;
  fit_locations : (length lons <= n1)%nat;
  fit_frequencies : (length freqs <= n2)%nat;
  fit_factor : match factor ds with
               | Some fa => (length times <= fst (shape2 fa))%nat /\
                            (length lons <= snd (shape2 fa))%nat
               | None => True
               end
}.

End Fit.

(** ** Reading the text back *)

(** What a reader of the file does with a line: Python's [str.split()]
    on blanks and [int()] on a field.  These are not part of the script;
    they are used to state that what it writes can be read back. *)
Module Reading.
Import Text.

Definition digit_value (c : ascii) : Z := Z.of_nat (nat_of_ascii c) - 48.

Fixpoint read_digits (acc : Z) (s : string) : Z :=
  match s with
  | EmptyString => acc
  | String c r => read_digits (acc * 10 + digit_value c) r
  end.

Definition read_nat (s : string) : Z := read_digits 0 s.

Fixpoint lstrip (s : string) : string :=
  match s with
  | EmptyString => EmptyString
  | String c r => if Ascii.eqb c " " then lstrip r else s
  end.

(** [int(s)] for a field: blanks, an optional minus, digits. *)
Definition read_int (s : string) : Z :=
  match lstrip s with
  | EmptyString => 0
  | String c r => if Ascii.eqb c "-" then - read_nat r
                  else read_nat (String c r)
  end.

(** [s.split()] for a line whose only blanks are spaces. *)
Definition words (s : string) : list string :=
  List.filter (fun p => negb (String.eqb p EmptyString)) (split_char " " s).

End Reading.

(** ** Reading a time stamp back *)

(** The second a broken-down time denotes, by the rules of the
    Gregorian calendar, and the fields a reader takes from the fifteen
    characters of a SWAN time stamp.  Not part of the script: used to
    state that the time stamp identifies the second. *)
Module Calendar.
Import Text DateTime Reading.

(** Days from 1970-01-01 to the first day of year [y]: 365 per year
    and one per leap year in between. *)
Definition days_before_year (y : Z) : Z :=
  365 * (y - 1970) + (y - 1969) / 4 - (y - 1901) / 100 + (y - 1601) / 400.

(** Days of the year before the first day of month [m] (from 1). *)
Definition days_before_month (leap : bool) (m : Z) : Z :=
  fold_right Z.add 0 (firstn (Z.to_nat (m - 1)) (days_per_month_table leap)).

Definition seconds_since_epoch (d : datetimestruct) : Z :=
  (days_before_year (year d) +
   days_before_month (is_leapyear (year d)) (month d) +
   (day d - 1)) * 86400 +
  hour d * 3600 + minute d * 60 + sec d.

(** [YYYYMMDD.HHMMSS] taken apart by position. *)
Definition read_swan_time (s : string) : datetimestruct := {|
  year := read_nat (String.substring 0 4 s);
  month := read_nat (String.substring 4 2 s);
  day := read_nat (String.substring 6 2 s);
  hour := read_nat (String.substring 9 2 s);
  minute := read_nat (String.substring 11 2 s);
  sec := read_nat (String.substring 13 2 s)
|}.

End Calendar.

(* ===================================================================== *)
(** * Part II: lemmas and theorems                                        *)
(* ===================================================================== *)

(** ** Text *)

Section TextFacts.
Import Text.

Lemma append_cons (c : ascii) (s t : string) :
  String c s +:+ t = String c (s +:+ t).
Proof. reflexivity. Qed.

Lemma append_nil_l (t : string) : EmptyString +:+ t = t.
Proof. reflexivity. Qed.

Lemma length_append (s t : string) :
  String.length (s +:+ t) = (String.length s + String.length t)%nat.
Proof.
  induction s as [|c s IH]; [reflexivity|].
  rewrite append_cons. simpl. now rewrite IH.
Qed.

Lemma append_nil_r (s : string) : s +:+ EmptyString = s.
Proof.
  induction s as [|c s IH]; [reflexivity|]. now rewrite append_cons, IH.
Qed.

Lemma append_assoc (s t u : string) : (s +:+ t) +:+ u = s +:+ (t +:+ u).
Proof.
  induction s as [|c s IH]; [reflexivity|]. now rewrite !append_cons, IH.
Qed.

Lemma length_replicate_char (n : nat) (c : ascii) :
  String.length (replicate_char n c) = n.
Proof. induction n as [|n IH]; simpl; [reflexivity|now rewrite IH]. Qed.

Lemma length_rjust (w : nat) (c : ascii) (s : string) :
  String.length (rjust w c s) = Nat.max w (String.length s).
Proof.
  unfold rjust. rewrite length_append, length_replicate_char. lia.
Qed.

Lemma rjust_fits (w : nat) (c : ascii) (s : string) :
  (w <= String.length s)%nat -> rjust w c s = s.
Proof.
  intros H. unfold rjust.
  replace (w - String.length s)%nat with O by lia. reflexivity.
Qed.

Lemma all_chars_append (p : ascii -> bool) (s t : string) :
  all_chars p (s +:+ t) = all_chars p s && all_chars p t.
Proof.
  induction s as [|c s IH]; [reflexivity|].
  rewrite append_cons. simpl. rewrite IH. now rewrite andb_assoc.
Qed.

Lemma all_chars_replicate (p : ascii -> bool) (n : nat) (c : ascii) :
  p c = true -> all_chars p (replicate_char n c) = true.
Proof. intros H. induction n as [|n IH]; simpl; [reflexivity|now rewrite H]. Qed.

Lemma is_digit_digit_char (d : Z) :
  0 <= d < 10 -> is_digit (digit_char d) = true.
Proof.
  intros H. unfold is_digit, digit_char.
  rewrite nat_ascii_embedding by lia.
  apply andb_true_intro. split; apply Nat.leb_le; lia.
Qed.

(** *** Decimal digits *)

Lemma digits_fuel_length_le (fuel : nat) :
  forall (n : Z) (acc : string) (k : nat),
    0 <= n < 10 ^ Z.of_nat k -> (1 <= k)%nat ->
    (String.length (digits_fuel fuel n acc) <= k + String.length acc)%nat.
Proof.
  induction fuel as [|f IH]; intros n acc k Hn Hk;
    cbn [digits_fuel]; [lia|].
  destruct (n <? 10) eqn:Hlt; cbn [String.length]; [lia|].
  apply Z.ltb_ge in Hlt.
  destruct k as [|[|k]]; [lia| simpl in Hn; lia |].
  specialize (IH (n / 10) (String (digit_char (n mod 10)) acc) (S k)).
  cbn [String.length] in IH.
  assert (Hdiv : 0 <= n / 10 < 10 ^ Z.of_nat (S k)).
  { split; [apply Z.div_pos; lia|].
    apply Z.div_lt_upper_bound; [lia|].
    replace (Z.of_nat (S (S k))) with (Z.of_nat (S k) + 1) in Hn by lia.
    rewrite Z.pow_add_r in Hn by lia. lia. }
  specialize (IH Hdiv ltac:(lia)). lia.
Qed.

Lemma digits_fuel_length_ge (fuel : nat) (n : Z) (acc : string) :
  (String.length acc <= String.length (digits_fuel fuel n acc))%nat /\
  (fuel <> O -> String.length acc < String.length (digits_fuel fuel n acc))%nat.
Proof.
  revert n acc. induction fuel as [|f IH]; intros n acc;
    cbn [digits_fuel]; [lia|].
  destruct (n <? 10); cbn [String.length]; [lia|].
  destruct (IH (n / 10) (String (digit_char (n mod 10)) acc)) as [H _].
  cbn [String.length] in H. lia.
Qed.

Lemma digits_fuel_all_digits (fuel : nat) :
  forall (n : Z) (acc : string),
    0 <= n -> all_chars is_digit acc = true ->
    all_chars is_digit (digits_fuel fuel n acc) = true.
Proof.
  induction fuel as [|f IH]; intros n acc Hn Hacc;
    cbn [digits_fuel]; [assumption|].
  assert (Hd : is_digit (digit_char (n mod 10)) = true).
  { apply is_digit_digit_char. apply Z.mod_pos_bound. lia. }
  destruct (n <? 10).
  - cbn [all_chars]. now rewrite Hd.
  - apply IH; [apply Z.div_pos; lia|]. cbn [all_chars]. now rewrite Hd.
Qed.

Lemma str_nonneg_length_le (n : Z) (k : nat) :
  0 <= n < 10 ^ Z.of_nat k -> (1 <= k)%nat ->
  (String.length (str_nonneg n) <= k)%nat.
Proof.
  intros Hn Hk. unfold str_nonneg.
  pose proof (digits_fuel_length_le (S (Z.to_nat (Z.log2 n))) n
                EmptyString k Hn Hk) as H.
  cbn [String.length] in H. lia.
Qed.

Lemma str_nonneg_length_pos (n : Z) : (1 <= String.length (str_nonneg n))%nat.
Proof.
  unfold str_nonneg.
  destruct (digits_fuel_length_ge (S (Z.to_nat (Z.log2 n))) n EmptyString)
    as [_ H].
  specialize (H ltac:(lia)). cbn [String.length] in H. lia.
Qed.

Lemma str_nonneg_all_digits (n : Z) :
  0 <= n -> all_chars is_digit (str_nonneg n) = true.
Proof. intros H. now apply digits_fuel_all_digits. Qed.

(** *** Integer fields *)

Lemma format_d_min_width (w : nat) (z : Z) :
  (w <= String.length (format_d w z))%nat.
Proof. unfold format_d. rewrite length_rjust. lia. Qed.

Lemma str_int_length_6 (z : Z) :
  -99999 <= z <= 999999 -> (String.length (str_int z) <= 6)%nat.
Proof.
  intros H. unfold str_int. destruct (z <? 0) eqn:Hneg.
  - apply Z.ltb_lt in Hneg. simpl.
    pose proof (str_nonneg_length_le (- z) 5 ltac:(simpl; lia) ltac:(lia)).
    lia.
  - apply Z.ltb_ge in Hneg.
    apply (str_nonneg_length_le z 6); [simpl; lia|lia].
Qed.

Lemma format_d_6_exact (z : Z) :
  -99999 <= z <= 999999 -> String.length (format_d 6 z) = 6%nat.
Proof.
  intros H. unfold format_d. rewrite length_rjust.
  pose proof (str_int_length_6 z H). lia.
Qed.

End TextFacts.
(** ** Rounding *)

Section Rounding.
Import Text Float Spec.

Lemma round_half_even_div_near (n d : Z) :
  0 <= n -> 0 < d ->
  let z := round_half_even_div n d in
  2 * Z.abs (n - z * d) <= d /\
  (2 * Z.abs (n - z * d) = d -> Z.even z = true) /\ 0 <= z.
Proof.
  intros Hn Hd z. subst z. unfold round_half_even_div.
  pose proof (Z.div_mod n d ltac:(lia)) as Hdm.
  pose proof (Z.mod_pos_bound n d Hd) as Hr.
  pose proof (Z.div_pos n d Hn Hd) as Hq.
  destruct (Z.compare_spec (2 * (n mod d)) d) as [He|Hl|Hg].
  - destruct (Z.even (n / d)) eqn:Hev.
    + repeat split; try lia. intros _. exact Hev.
    + repeat split; try lia. intros _.
      rewrite Z.even_add, Hev. reflexivity.
  - repeat split; try lia.
  - repeat split; try lia.
Qed.

Lemma Qabs_diff_half (a z : Z) (d : positive) :
  (Qabs ((a # d) - inject_Z z) <= 1 # 2)%Q <-> 2 * Z.abs (a - z * Z.pos d) <= Z.pos d.
Proof.
  unfold Qle, Qabs, Qminus, Qplus, Qopp, inject_Z; simpl.
  rewrite Pos.mul_1_r. lia.
Qed.

Lemma Qabs_diff_half_eq (a z : Z) (d : positive) :
  (Qabs ((a # d) - inject_Z z) == 1 # 2)%Q <-> 2 * Z.abs (a - z * Z.pos d) = Z.pos d.
Proof.
  unfold Qeq, Qabs, Qminus, Qplus, Qopp, inject_Z; simpl.
  rewrite Pos.mul_1_r. lia.
Qed.

(** The spec determines the integer. *)
Lemma is_round_half_even_unique (q : Q) (z1 z2 : Z) :
  is_round_half_even q z1 -> is_round_half_even q z2 -> z1 = z2.
Proof.
  destruct q as [a d]. intros [H1 E1] [H2 E2].
  rewrite Qabs_diff_half in H1, H2. rewrite Qabs_diff_half_eq in E1, E2.
  assert (Hd : Z.abs (z1 - z2) * Z.pos d <= Z.pos d) by nia.
  assert (Hc : Z.abs (z1 - z2) <= 1) by nia.
  destruct (Z.eq_dec z1 z2) as [|Hne]; [assumption|exfalso].
  assert (Hone : Z.abs (z1 - z2) = 1) by lia.
  assert (2 * Z.abs (a - z1 * Z.pos d) = Z.pos d) by nia.
  assert (2 * Z.abs (a - z2 * Z.pos d) = Z.pos d) by nia.
  specialize (E1 ltac:(assumption)). specialize (E2 ltac:(assumption)).
  assert (Z.even z1 = negb (Z.even z2)).
  { replace z1 with (z2 + (z1 - z2)) by lia.
    rewrite Z.even_add.
    assert (Hodd : Z.even (z1 - z2) = false).
    { destruct (Z.abs_eq_or_opp (z1 - z2)) as [Ha|Ha]; rewrite Hone in Ha.
      - rewrite <- Ha. reflexivity.
      - replace (z1 - z2) with (-1) by lia. reflexivity. }
    rewrite Hodd. destruct (Z.even z2); reflexivity. }
  rewrite E1, E2 in *. discriminate.
Qed.

End Rounding.

(** ** From samples to integers *)

Section Samples.
Import Text Float Spec Sp2.

Lemma row_to_ints_map (row : list float) :
  row_to_ints row = map sample_to_int row.
Proof.
  unfold row_to_ints, sample_to_int. rewrite !map_map. reflexivity.
Qed.

Lemma row_to_ints_length (row : list float) :
  length (row_to_ints row) = length row.
Proof. rewrite row_to_ints_map. apply length_map. Qed.

Lemma row_to_ints_nth (row : list float) (j : nat) (x : float) :
  nth_error row j = Some x ->
  nth_error (row_to_ints row) j = Some (sample_to_int x).
Proof.
  intros H. rewrite row_to_ints_map. now apply map_nth_error.
Qed.

Lemma pow2_pos (e : Z) : 0 < 2 ^ e \/ (e < 0 /\ 2 ^ e = 0).
Proof.
  destruct (Z.lt_ge_cases e 0) as [H|H].
  - right. split; [assumption|]. now apply Z.pow_neg_r.
  - left. apply Z.pow_pos_nonneg; lia.
Qed.

Lemma trunc_np_round_finite (s : bool) (m : positive) (e : Z) :
  trunc (np_round (S754_finite s m e)) =
  Some (if s then - rounded_magnitude m e else rounded_magnitude m e).
Proof.
  unfold rounded_magnitude. simpl. destruct (0 <=? e) eqn:He.
  - simpl. rewrite He. rewrite Z.div_1_r. reflexivity.
  - apply Z.leb_gt in He.
    assert (Hd : 0 < 2 ^ (- e)) by (apply Z.pow_pos_nonneg; lia).
    pose proof (round_half_even_div_near (Z.pos m) (2 ^ (- e))
                  ltac:(lia) Hd) as (_ & _ & Hz).
    destruct (round_half_even_div (Z.pos m) (2 ^ (- e))) as [|p|p] eqn:Hr.
    + simpl. destruct s; reflexivity.
    + simpl. rewrite Z.div_1_r, Z.mul_1_r. reflexivity.
    + lia.
Qed.

Lemma rounded_magnitude_spec (s : bool) (m : positive) (e : Z) :
  let x := S754_finite s m e in
  let z := if s then - rounded_magnitude m e else rounded_magnitude m e in
  is_round_half_even (to_Q x) z /\
  (fits_int64 (to_Q x) -> in_int64 z = true).
Proof.
  intros x z. subst x z. unfold to_Q, rounded_magnitude, fits_int64. simpl.
  destruct (0 <=? e) eqn:He.
  - apply Z.leb_le in He.
    assert (Hp : 0 < 2 ^ e) by (apply Z.pow_pos_nonneg; lia).
    split.
    + split.
      * apply Qabs_diff_half. simpl. destruct s; lia.
      * intros Heq. apply Qabs_diff_half_eq in Heq. simpl in Heq.
        destruct s; lia.
    + unfold Qle, inject_Z, in_int64. simpl. rewrite !Z.mul_1_r.
      intros [Hlo Hhi]. destruct s; apply andb_true_intro; split;
        apply Z.leb_le; assumption.
  - apply Z.leb_gt in He.
    assert (Hd : 0 < 2 ^ (- e)) by (apply Z.pow_pos_nonneg; lia).
    pose proof (round_half_even_div_near (Z.pos m) (2 ^ (- e))
                  ltac:(lia) Hd) as (Hnear & Heven & Hz).
    set (N := round_half_even_div (Z.pos m) (2 ^ (- e))) in *.
    set (d := 2 ^ (- e)) in *.
    assert (Hid : Z.pos (Z.to_pos d) = d) by (apply Z2Pos.id; lia).
    split.
    + split.
      * apply Qabs_diff_half. rewrite Hid. destruct s; lia.
      * intros Heq. apply Qabs_diff_half_eq in Heq. rewrite Hid in Heq.
        destruct s.
        -- rewrite Z.even_opp. apply Heven. lia.
        -- apply Heven. lia.
    + unfold Qle, inject_Z, in_int64. simpl. rewrite !Z.mul_1_r, Hid.
      unfold INT64_MIN, INT64_MAX.
      intros [Hlo Hhi]. destruct s; apply andb_true_intro; split;
        apply Z.leb_le; nia.
Qed.

Lemma sample_to_int_finite (s : bool) (m : positive) (e : Z) :
  let z := if s then - rounded_magnitude m e else rounded_magnitude m e in
  sample_to_int (S754_finite s m e) = if in_int64 z then z else INT64_MIN.
Proof.
  intros z. unfold sample_to_int, astype_int.
  change (nan_to_num (S754_zero false) (S754_finite s m e))
    with (S754_finite s m e).
  rewrite trunc_np_round_finite. reflexivity.
Qed.

End Samples.

(** ** The writer monad *)

Section Writer.
Import Py.

Lemma bind_ok {A B} (m : Wr A) (k : A -> Wr B) out a out' r :
  m = (out, inr a) -> k a = (out', r) -> bind m k = (out ++ out', r).
Proof. intros -> Hk. unfold bind. now rewrite Hk. Qed.

Lemma bind_write {B} (s : string) (k : unit -> Wr B) out r :
  k tt = (out, r) -> bind (write s) k = (s :: out, r).
Proof. intros Hk. unfold bind, write. now rewrite Hk. Qed.

Lemma bind_lift_ok {A B} (a : A) (k : A -> Wr B) :
  bind (lift (inr a)) k = k a.
Proof. unfold bind, lift. now destruct (k a). Qed.

Lemma bind_lift_raise {A B} (e : exn) (k : A -> Wr B) :
  bind (lift (inl e)) k = ([], inl e).
Proof. reflexivity. Qed.

(** A loop whose every iteration returns writes the iterations' chunks
    in order and returns. *)
Lemma for_each_ok {A} (xs : list A) (body : A -> Wr unit)
      (chunks : A -> list string) :
  (forall x, In x xs -> body x = (chunks x, inr tt)) ->
  for_each xs body = (flat_map chunks xs, inr tt).
Proof.
  induction xs as [|x xs IH]; intros H; [reflexivity|].
  cbn [for_each flat_map].
  apply bind_ok with (a := tt).
  - apply H. now left.
  - apply IH. intros y Hy. apply H. now right.
Qed.

Lemma flat_map_singleton {A B} (f : A -> B) (xs : list A) :
  flat_map (fun x => [f x]) xs = map f xs.
Proof. induction xs as [|x xs IH]; [reflexivity|]. cbn. now rewrite IH. Qed.

Lemma nth_error_middle {A} (xs : list A) (y : A) (rest : list A) (n : nat) :
  length xs = n -> nth_error (xs ++ y :: rest) n = Some y.
Proof.
  intros <-. rewrite nth_error_app2 by lia. now rewrite Nat.sub_diag.
Qed.

Lemma in_range (n i : nat) : In i (range n) <-> (i < n)%nat.
Proof. unfold range. rewrite in_seq. lia. Qed.

Lemma nth_error_range (n i : nat) :
  (i < n)%nat -> nth_error (range n) i = Some i.
Proof.
  intros H. unfold range.
  rewrite (nth_error_nth' (seq 0 n) O) by (rewrite length_seq; lia).
  now rewrite seq_nth.
Qed.

Lemma length_range (n : nat) : length (range n) = n.
Proof. apply length_seq. Qed.

End Writer.

(** ** Array lookups *)

Section Arrays.
Import Py Netcdf.

Lemma row4_in_bounds (a : ndarray4) (n0 n1 n2 n3 i j k : nat) :
  shape4 a = (n0, n1, n2, n3) ->
  (i < n0)%nat -> (j < n1)%nat -> (k < n2)%nat ->
  row4 a i j k = inr (map (data4 a i j k) (range n3)).
Proof.
  intros Hs Hi Hj Hk. unfold row4. rewrite Hs.
  apply Nat.ltb_lt in Hi, Hj, Hk. now rewrite Hi, Hj, Hk.
Qed.

Lemma index2_in_bounds (a : ndarray2) (n0 n1 i j : nat) :
  shape2 a = (n0, n1) -> (i < n0)%nat -> (j < n1)%nat ->
  index2 a i j = inr (data2 a i j).
Proof.
  intros Hs Hi Hj. unfold index2. rewrite Hs.
  apply Nat.ltb_lt in Hi, Hj. now rewrite Hi, Hj.
Qed.

Lemma index1_in_bounds {A} (a : list A) (i : nat) (x : A) :
  nth_error a i = Some x -> index1 a i = inr x.
Proof. intros H. unfold index1. now rewrite H. Qed.

End Arrays.

(** ** Lines of the energy matrix *)

Section Rows.
Import Text Float Py Netcdf Sp2 Spec.

Lemma write_row_ok (energy : ndarray4) (t p fr : nat) (row : list float) :
  row4 energy t p fr = inr row ->
  write_row energy t p fr = ([row_str (row_to_ints row) +:+ nl], inr tt).
Proof.
  intros H. unfold write_row. rewrite H, bind_lift_ok. reflexivity.
Qed.

End Rows.

(** ** Splitting and stripping text *)

Section SplitFacts.
Import Text Spec.

Lemma all_chars_impl (p q : ascii -> bool) (s : string) :
  (forall a, p a = true -> q a = true) ->
  all_chars p s = true -> all_chars q s = true.
Proof.
  intros Hpq. induction s as [|a s IH]; [reflexivity|].
  cbn [all_chars]. intros H. apply andb_prop in H as [Ha Hs].
  now rewrite (Hpq a Ha), (IH Hs).
Qed.

Lemma split_char_absent (c : ascii) (s : string) :
  all_chars (differs c) s = true -> split_char c s = [s].
Proof.
  induction s as [|a s IH]; [reflexivity|].
  cbn [all_chars split_char]. intros H. apply andb_prop in H as [Ha Hs].
  unfold differs in Ha. apply negb_true_iff in Ha.
  now rewrite Ha, (IH Hs).
Qed.

Lemma split_char_at (c : ascii) (s t : string) :
  all_chars (differs c) s = true ->
  split_char c (s +:+ String c t) = s :: split_char c t.
Proof.
  induction s as [|a s IH].
  - intros _. rewrite append_nil_l. cbn [split_char].
    now rewrite Ascii.eqb_refl.
  - cbn [all_chars]. intros H. apply andb_prop in H as [Ha Hs].
    unfold differs in Ha. apply negb_true_iff in Ha.
    rewrite append_cons. cbn [split_char]. now rewrite Ha, (IH Hs).
Qed.

Lemma remove_char_append (c : ascii) (s t : string) :
  remove_char c (s +:+ t) = remove_char c s +:+ remove_char c t.
Proof.
  induction s as [|a s IH]; [reflexivity|].
  rewrite append_cons. cbn [remove_char].
  destruct (Ascii.eqb a c); [exact IH|]. now rewrite append_cons, IH.
Qed.

Lemma remove_char_absent (c : ascii) (s : string) :
  all_chars (differs c) s = true -> remove_char c s = s.
Proof.
  induction s as [|a s IH]; [reflexivity|].
  cbn [all_chars remove_char]. intros H. apply andb_prop in H as [Ha Hs].
  unfold differs in Ha. apply negb_true_iff in Ha.
  now rewrite Ha, (IH Hs).
Qed.

Lemma remove_char_single (c : ascii) :
  remove_char c (String c EmptyString) = EmptyString.
Proof. cbn [remove_char]. now rewrite Ascii.eqb_refl. Qed.

(** A digit is none of the separators of an ISO 8601 time. *)
Lemma is_digit_differs (c a : ascii) :
  is_digit c = false -> is_digit a = true -> differs c a = true.
Proof.
  intros Hc Ha. unfold differs. apply negb_true_iff.
  apply Ascii.eqb_neq. intros ->. congruence.
Qed.

Lemma digits_differ (c : ascii) (s : string) :
  is_digit c = false -> all_chars is_digit s = true ->
  all_chars (differs c) s = true.
Proof.
  intros Hc. apply all_chars_impl. intros a. now apply is_digit_differs.
Qed.

Lemma substring_append_l (s t : string) :
  String.substring 0 (String.length s) (s +:+ t) = s.
Proof.
  induction s as [|a s IH].
  - cbn. now destruct t.
  - rewrite append_cons. cbn [String.length String.substring].
    now rewrite IH.
Qed.

Lemma substring_append_r (s t : string) (n : nat) :
  String.substring (String.length s) n (s +:+ t) = String.substring 0 n t.
Proof.
  induction s as [|a s IH]; [reflexivity|].
  rewrite append_cons. cbn [String.length String.substring]. exact IH.
Qed.

Lemma substring_all (s : string) :
  String.substring 0 (String.length s) s = s.
Proof.
  induction s as [|a s IH]; [reflexivity|].
  cbn [String.length String.substring]. now rewrite IH.
Qed.

End SplitFacts.

(** ** Timestamps *)

Section TimeFacts.
Import Text Py DateTime Spec.

Lemma is_leapyear_iff (y : Z) :
  is_leapyear y = true <->
  y mod 4 = 0 /\ (y mod 100 <> 0 \/ y mod 400 = 0).
Proof.
  unfold is_leapyear.
  rewrite andb_true_iff, orb_true_iff, negb_true_iff, !Z.eqb_eq, Z.eqb_neq.
  reflexivity.
Qed.

Lemma days_to_yearsdays_eq (d : Z) :
  days_to_yearsdays d =
  let days := (d - 10957) mod 146097 in
  let year := 400 * ((d - 10957) / 146097) in
  let '(year, days) :=
    if 366 <=? days then
      let year := year + 100 * ((days - 1) / 36524) in
      let days := (days - 1) mod 36524 in
      if 365 <=? days then
        let year := year + 4 * ((days + 1) / 1461) in
        let days := (days + 1) mod 1461 in
        if 366 <=? days then
          (year + (days - 1) / 365, (days - 1) mod 365)
        else (year, days)
      else (year, days)
    else (year, days) in
  (year + 2000, days).
Proof. reflexivity. Qed.

(** The day of the year is one the year has. *)
Lemma days_to_yearsdays_spec (d : Z) :
  let c := (d - 10957) / 146097 in
  2000 + 400 * c <= fst (days_to_yearsdays d) <= 2399 + 400 * c /\
  0 <= snd (days_to_yearsdays d) /\
  (snd (days_to_yearsdays d) <= 364 \/
   (snd (days_to_yearsdays d) = 365 /\
    is_leapyear (fst (days_to_yearsdays d)) = true)).
Proof.
  intros c. rewrite days_to_yearsdays_eq. cbv zeta. fold c.
  pose proof (Z.mod_pos_bound (d - 10957) 146097 ltac:(lia)) as Hr.
  set (r := (d - 10957) mod 146097) in *.
  destruct (366 <=? r) eqn:H1.
  - apply Z.leb_le in H1.
    pose proof (Z.mod_pos_bound (r - 1) 36524 ltac:(lia)) as Hr1.
    pose proof (Z.div_mod (r - 1) 36524 ltac:(lia)) as Hd1.
    set (c1 := (r - 1) / 36524) in *. set (r1 := (r - 1) mod 36524) in *.
    destruct (365 <=? r1) eqn:H2.
    + apply Z.leb_le in H2.
      pose proof (Z.mod_pos_bound (r1 + 1) 1461 ltac:(lia)) as Hr2.
      pose proof (Z.div_mod (r1 + 1) 1461 ltac:(lia)) as Hd2.
      set (c2 := (r1 + 1) / 1461) in *. set (r2 := (r1 + 1) mod 1461) in *.
      destruct (366 <=? r2) eqn:H3.
      * apply Z.leb_le in H3.
        pose proof (Z.mod_pos_bound (r2 - 1) 365 ltac:(lia)) as Hr3.
        pose proof (Z.div_mod (r2 - 1) 365 ltac:(lia)) as Hd3.
        cbn [fst snd]. repeat split; lia.
      * apply Z.leb_gt in H3. cbn [fst snd].
        repeat split; try lia.
        destruct (Z.eq_dec r2 365) as [He|Hne]; [right|left; lia].
        split; [exact He|]. apply is_leapyear_iff.
        assert (1 <= c2 <= 24) by lia.
        assert (0 <= c1 <= 3) by lia.
        split.
        -- replace (400 * c + 100 * c1 + 4 * c2 + 2000)
             with ((100 * c + 25 * c1 + c2 + 500) * 4) by lia.
           apply Z.mod_mul. lia.
        -- left.
           replace (400 * c + 100 * c1 + 4 * c2 + 2000)
             with (4 * c2 + (4 * c + c1 + 20) * 100) by lia.
           rewrite Z.mod_add by lia. rewrite Z.mod_small by lia. lia.
    + apply Z.leb_gt in H2. cbn [fst snd].
      repeat split; lia.
  - apply Z.leb_gt in H1. cbn [fst snd]. repeat split; try lia.
    destruct (Z.eq_dec r 365) as [He|Hne]; [right|left; lia].
    split; [exact He|]. apply is_leapyear_iff. split.
    + replace (400 * c + 2000) with ((100 * c + 500) * 4) by lia.
      apply Z.mod_mul. lia.
    + right. replace (400 * c + 2000) with ((c + 5) * 400) by lia.
      apply Z.mod_mul. lia.
Qed.

Lemma month_day_spec (leap : bool) (yd : Z) :
  0 <= yd -> (yd <= 364 \/ (yd = 365 /\ leap = true)) ->
  1 <= fst (month_day (days_per_month_table leap) 1 yd) <= 12 /\
  1 <= snd (month_day (days_per_month_table leap) 1 yd) <= 31.
Proof.
  intros H0 H1. destruct leap; cbn [days_per_month_table month_day];
    repeat match goal with
           | |- context [if ?a <? ?b then _ else _] =>
               destruct (Z.ltb_spec a b)
           end; cbn [fst snd]; lia.
Qed.

Lemma days_of_valid_ns (ns : Z) :
  valid_ns ns -> -106752 <= ns / (24 * 60 * 60 * 1000000000) <= 106751.
Proof.
  unfold valid_ns. intros [Hlo Hhi].
  change (2 ^ 63) with 9223372036854775808 in *.
  change (24 * 60 * 60 * 1000000000) with 86400000000000.
  split.
  - apply Z.div_le_lower_bound; lia.
  - apply Z.lt_succ_r. apply Z.div_lt_upper_bound; lia.
Qed.

Lemma zero_pad_digits (w : nat) (z : Z) :
  0 <= z -> all_chars is_digit (zero_pad w z) = true.
Proof.
  intros Hz. unfold zero_pad.
  destruct (z <? 0) eqn:Hneg; [apply Z.ltb_lt in Hneg; lia|].
  unfold rjust. rewrite all_chars_append.
  rewrite all_chars_replicate by reflexivity.
  now rewrite str_nonneg_all_digits.
Qed.

Lemma zero_pad_length (w : nat) (z : Z) :
  0 <= z < 10 ^ Z.of_nat w -> (1 <= w)%nat ->
  String.length (zero_pad w z) = w.
Proof.
  intros Hz Hw. unfold zero_pad.
  destruct (z <? 0) eqn:Hneg; [apply Z.ltb_lt in Hneg; lia|].
  rewrite length_rjust.
  pose proof (str_nonneg_length_le z w Hz Hw). lia.
Qed.

(** The fields of a valid time are those of a calendar date and a time
    of day. *)
Lemma fields_in_range (ns : Z) :
  valid_ns ns ->
  let d := to_datetimestruct ns in
  1677 <= year d <= 2262 /\ 1 <= month d <= 12 /\ 1 <= day d <= 31 /\
  0 <= hour d <= 23 /\ 0 <= minute d <= 59 /\ 0 <= sec d <= 59.
Proof.
  intros Hv d. subst d. unfold to_datetimestruct.
  pose proof (days_of_valid_ns ns Hv) as Hdays.
  change (24 * 60 * 60 * 1000000000) with 86400000000000 in *.
  change (60 * 60 * 1000000000) with 3600000000000.
  change (60 * 1000000000) with 60000000000.
  set (days := ns / 86400000000000) in *.
  pose proof (Z.mod_pos_bound ns 86400000000000 ltac:(lia)) as Hrest.
  set (rest := ns mod 86400000000000) in *.
  pose proof (days_to_yearsdays_spec days) as (Hy & Hyd0 & Hyd).
  cbv zeta in Hy.
  assert (Hc : -1 <= (days - 10957) / 146097 <= 0).
  { split.
    - apply Z.div_le_lower_bound; lia.
    - apply Z.lt_succ_r. apply Z.div_lt_upper_bound; lia. }
  destruct (days_to_yearsdays days) as [y yd] eqn:Hdy.
  cbn [fst snd] in Hy, Hyd0, Hyd.
  pose proof (month_day_spec (is_leapyear y) yd Hyd0 Hyd) as [Hmo Hdd].
  destruct (month_day (days_per_month_table (is_leapyear y)) 1 yd)
    as [mo dd].
  cbn [fst snd] in Hmo, Hdd.
  cbn [year month day hour minute sec].
  pose proof (Z.mod_pos_bound rest 3600000000000 ltac:(lia)).
  pose proof (Z.mod_pos_bound rest 60000000000 ltac:(lia)).
  assert (Hyear : 1677 <= y <= 2262).
  { (* the first and the last day a valid count reaches *)
    pose proof (days_to_yearsdays_eq days) as He. rewrite Hdy in He.
    clear - He Hdays. revert He.
    pose proof (Z.div_mod (days - 10957) 146097 ltac:(lia)) as Hd0.
    pose proof (Z.mod_pos_bound (days - 10957) 146097 ltac:(lia)) as Hr.
    cbv zeta.
    set (c := (days - 10957) / 146097) in *.
    set (r := (days - 10957) mod 146097) in *.
    destruct (366 <=? r) eqn:H1.
    - apply Z.leb_le in H1.
      pose proof (Z.mod_pos_bound (r - 1) 36524 ltac:(lia)) as Hr1.
      pose proof (Z.div_mod (r - 1) 36524 ltac:(lia)) as Hd1.
      set (c1 := (r - 1) / 36524) in *. set (r1 := (r - 1) mod 36524) in *.
      destruct (365 <=? r1) eqn:H2.
      + apply Z.leb_le in H2.
        pose proof (Z.mod_pos_bound (r1 + 1) 1461 ltac:(lia)) as Hr2.
        pose proof (Z.div_mod (r1 + 1) 1461 ltac:(lia)) as Hd2.
        set (c2 := (r1 + 1) / 1461) in *.
        set (r2 := (r1 + 1) mod 1461) in *.
        destruct (366 <=? r2) eqn:H3.
        * apply Z.leb_le in H3.
          pose proof (Z.mod_pos_bound (r2 - 1) 365 ltac:(lia)) as Hr3.
          pose proof (Z.div_mod (r2 - 1) 365 ltac:(lia)) as Hd3.
          intros [= -> _]. lia.
        * intros [= -> _]. lia.
      + intros [= -> _]. lia.
    - intros [= -> _]. apply Z.leb_gt in H1. lia. }
  repeat split; try lia.
  - apply Z.div_pos; lia.
  - apply Z.lt_succ_r. apply Z.div_lt_upper_bound; lia.
  - apply Z.div_pos; lia.
  - apply Z.lt_succ_r. apply Z.div_lt_upper_bound; lia.
  - apply Z.div_pos; lia.
  - apply Z.lt_succ_r. apply Z.div_lt_upper_bound; lia.
Qed.

(** Down to the second, only whole seconds matter: the broken-down
    time of [ns] is that of [ns] with its sub-second part cut off. *)
Lemma to_datetimestruct_floor (ns : Z) :
  to_datetimestruct (ns - ns mod 1000000000) = to_datetimestruct ns.
Proof.
  unfold to_datetimestruct.
  change (24 * 60 * 60 * 1000000000) with 86400000000000.
  change (60 * 60 * 1000000000) with 3600000000000.
  change (60 * 1000000000) with 60000000000.
  set (f := ns - ns mod 1000000000).
  assert (E1 : f / 86400000000000 = ns / 86400000000000).
  { subst f. Z.div_mod_to_equations. lia. }
  assert (E2 : f mod 86400000000000 / 3600000000000
               = ns mod 86400000000000 / 3600000000000).
  { subst f. Z.div_mod_to_equations. lia. }
  assert (E3 : (f mod 86400000000000) mod 3600000000000 / 60000000000
               = (ns mod 86400000000000) mod 3600000000000 / 60000000000).
  { subst f. Z.div_mod_to_equations. lia. }
  assert (E4 : (f mod 86400000000000) mod 60000000000 / 1000000000
               = (ns mod 86400000000000) mod 60000000000 / 1000000000).
  { subst f. Z.div_mod_to_equations. lia. }
  rewrite E1, E2, E3, E4. reflexivity.
Qed.

End TimeFacts.

(** ** The SWAN time stamp *)

Section SwanTime.
Import Text Py DateTime Spec.

Lemma swan_date_shape (d : datetimestruct) :
  0 <= year d <= 9999 -> 0 <= month d <= 99 -> 0 <= day d <= 99 ->
  String.length (swan_date d) = 8%nat /\
  all_chars is_digit (swan_date d) = true.
Proof.
  intros Hy Hm Hd. unfold swan_date. split.
  - rewrite !length_append.
    rewrite (zero_pad_length 4), !(zero_pad_length 2);
      try lia; change (10 ^ Z.of_nat 2) with 100;
      change (10 ^ Z.of_nat 4) with 10000; lia.
  - rewrite !all_chars_append, !zero_pad_digits by lia. reflexivity.
Qed.

Lemma swan_clock_shape (d : datetimestruct) :
  0 <= hour d <= 99 -> 0 <= minute d <= 99 -> 0 <= sec d <= 99 ->
  String.length (swan_clock d) = 6%nat /\
  all_chars is_digit (swan_clock d) = true.
Proof.
  intros Hh Hm Hs. unfold swan_clock. split.
  - rewrite !length_append, !(zero_pad_length 2);
      try lia; change (10 ^ Z.of_nat 2) with 100; lia.
  - rewrite !all_chars_append, !zero_pad_digits by lia. reflexivity.
Qed.

Lemma zero_pad_differs (c : ascii) (w : nat) (z : Z) :
  is_digit c = false -> 0 <= z ->
  all_chars (differs c) (zero_pad w z) = true.
Proof.
  intros Hc Hz. apply digits_differ; [exact Hc|now apply zero_pad_digits].
Qed.

(** With fields that are not negative, splitting the ISO text at its
    "T" and stripping dashes and colons leaves the digits. *)
Lemma format_swan_time_fields (ns : Z) :
  let d := to_datetimestruct ns in
  0 <= year d -> 0 <= month d -> 0 <= day d ->
  0 <= hour d -> 0 <= minute d -> 0 <= sec d ->
  format_swan_time (DT ns) = inr (swan_date d +:+ "." +:+ swan_clock d).
Proof.
  intros d Hy Hmo Hd Hh Hmi Hs.
  unfold format_swan_time, datetime_as_string_s. fold d.
  assert (HdT : all_chars (differs "T") (iso_date d) = true).
  { unfold iso_date. rewrite !all_chars_append.
    rewrite !(zero_pad_differs "T") by (reflexivity || lia).
    reflexivity. }
  assert (HtT : all_chars (differs "T") (iso_time d) = true).
  { unfold iso_time. rewrite !all_chars_append.
    rewrite !(zero_pad_differs "T") by (reflexivity || lia).
    reflexivity. }
  change (iso_date d +:+ "T" +:+ iso_time d)
    with (iso_date d +:+ String "T" (iso_time d)).
  rewrite (split_char_at "T" _ _ HdT), (split_char_absent "T" _ HtT).
  f_equal. unfold iso_date, iso_time, swan_date, swan_clock.
  rewrite !remove_char_append.
  rewrite !(remove_char_absent "-" (zero_pad _ _))
    by (apply zero_pad_differs; [reflexivity|lia]).
  rewrite !(remove_char_absent ":" (zero_pad _ _))
    by (apply zero_pad_differs; [reflexivity|lia]).
  change (remove_char "-" "-") with EmptyString.
  change (remove_char ":" ":") with EmptyString.
  rewrite !append_nil_l. now rewrite !append_assoc.
Qed.

Lemma is_swan_time_intro (date clock : string) :
  String.length date = 8%nat -> all_chars is_digit date = true ->
  String.length clock = 6%nat -> all_chars is_digit clock = true ->
  is_swan_time (date +:+ "." +:+ clock) = true.
Proof.
  intros Ld Dd Lc Dc.
  destruct date as [|c0 [|c1 [|c2 [|c3 [|c4 [|c5 [|c6 [|c7 [|c8 r]]]]]]]]];
    try discriminate Ld.
  destruct clock as [|h0 [|h1 [|h2 [|h3 [|h4 [|h5 [|h6 t]]]]]]];
    try discriminate Lc.
  unfold is_swan_time. rewrite !append_cons, !append_nil_l.
  cbn [String.length String.substring Nat.eqb andb].
  rewrite Dd, Dc. reflexivity.
Qed.

End SwanTime.

(** ** Decimal exponent and digits of a positive fraction *)

Section Decimal.
Import Text Float Spec.

Lemma pow10_pos (k : Z) : 0 <= k -> 0 < 10 ^ k.
Proof. intros H. apply Z.pow_pos_nonneg; lia. Qed.

Lemma pow10_succ (k : Z) : 0 <= k -> 10 ^ (k + 1) = 10 * 10 ^ k.
Proof. intros H. rewrite Z.pow_add_r by lia. lia. Qed.

Lemma floor_log10_spec (fuel : nat) :
  forall q, 1 <= q -> q < 2 ^ Z.of_nat fuel ->
  let k := floor_log10 fuel q in
  0 <= k /\ 10 ^ k <= q < 10 ^ (k + 1).
Proof.
  induction fuel as [|f IH]; intros q Hq Hf.
  - simpl in Hf. lia.
  - cbn [floor_log10]. destruct (q <? 10) eqn:Hlt.
    + apply Z.ltb_lt in Hlt. cbv zeta. simpl. lia.
    + apply Z.ltb_ge in Hlt.
      assert (Hq10 : 1 <= q / 10) by (apply Z.div_le_lower_bound; lia).
      assert (Hf10 : q / 10 < 2 ^ Z.of_nat f).
      { apply Z.div_lt_upper_bound; [lia|].
        rewrite Nat2Z.inj_succ, Z.pow_succ_r in Hf by lia. lia. }
      specialize (IH (q / 10) Hq10 Hf10). cbv zeta in IH |- *.
      destruct IH as (Hk & Hlo & Hhi).
      set (k := floor_log10 f (q / 10)) in *.
      pose proof (Z.div_mod q 10 ltac:(lia)) as Hdm.
      pose proof (Z.mod_pos_bound q 10 ltac:(lia)) as Hm.
      pose proof (pow10_pos k Hk) as Hp.
      split; [lia|].
      replace (1 + k + 1) with ((k + 1) + 1) by lia.
      replace (1 + k) with (k + 1) by lia.
      rewrite !pow10_succ in * by lia. lia.
Qed.

Lemma log2_fuel (q : Z) : 1 <= q -> q < 2 ^ Z.of_nat (S (Z.to_nat (Z.log2 q))).
Proof.
  intros Hq. rewrite Nat2Z.inj_succ, Z2Nat.id by apply Z.log2_nonneg.
  apply Z.log2_spec. lia.
Qed.

(** [log10_up] finds the least power of ten that lifts [n] to [d]. *)
Lemma log10_up_spec (fuel : nat) :
  forall n d j, 1 <= n -> 1 <= d -> d <= n * 2 ^ Z.of_nat fuel ->
  let j' := log10_up fuel n d j in
  j <= j' /\ d <= n * 10 ^ (j' - j) /\
  (j < j' -> n * 10 ^ (j' - j) < 10 * d).
Proof.
  induction fuel as [|f IH]; intros n d j Hn Hd Hf.
  - cbn [log10_up]. cbv zeta. rewrite Z.sub_diag. simpl in *. lia.
  - cbn [log10_up]. destruct (d <=? n) eqn:Hle.
    + apply Z.leb_le in Hle. cbv zeta. rewrite Z.sub_diag. simpl. lia.
    + apply Z.leb_gt in Hle.
      assert (Hf' : d <= n * 10 * 2 ^ Z.of_nat f).
      { rewrite Nat2Z.inj_succ, Z.pow_succ_r in Hf by lia.
        assert (0 < 2 ^ Z.of_nat f) by (apply Z.pow_pos_nonneg; lia). nia. }
      specialize (IH (n * 10) d (j + 1) ltac:(lia) Hd Hf').
      cbv zeta in IH |- *. destruct IH as (Hj & Hlo & Hhi).
      set (j' := log10_up f (n * 10) d (j + 1)) in *.
      replace (j' - j) with ((j' - (j + 1)) + 1) by lia.
      rewrite pow10_succ by lia.
      split; [lia|]. split; [lia|]. intros _.
      destruct (Z.eq_dec j' (j + 1)) as [He|Hne].
      * rewrite He, Z.sub_diag. simpl. lia.
      * specialize (Hhi ltac:(lia)). lia.
Qed.

Lemma decimal_exponent_spec (n d : Z) :
  1 <= n -> 1 <= d -> bracketed n d (decimal_exponent n d).
Proof.
  intros Hn Hd. unfold decimal_exponent, bracketed.
  destruct (d <=? n) eqn:Hle.
  - apply Z.leb_le in Hle. left.
    assert (Hq : 1 <= n / d) by (apply Z.div_le_lower_bound; lia).
    pose proof (floor_log10_spec _ (n / d) Hq (log2_fuel _ Hq)) as H.
    cbv zeta in H. destruct H as (Hk & Hlo & Hhi).
    set (k := floor_log10 _ (n / d)) in *.
    pose proof (Z.div_mod n d ltac:(lia)) as Hdm.
    pose proof (Z.mod_pos_bound n d ltac:(lia)) as Hm.
    split; [exact Hk|]. split; nia.
  - apply Z.leb_gt in Hle. right.
    assert (Hf : d <= n * 2 ^ Z.of_nat (S (S (Z.to_nat (Z.log2 d))))).
    { pose proof (log2_fuel d Hd) as H2.
      rewrite (Nat2Z.inj_succ (S _)), Z.pow_succ_r by lia.
      assert (0 < 2 ^ Z.of_nat (S (Z.to_nat (Z.log2 d))))
        by (apply Z.pow_pos_nonneg; lia).
      nia. }
    pose proof (log10_up_spec _ n d 0 Hn Hd Hf) as H.
    cbv zeta in H. destruct H as (Hj & Hlo & Hhi).
    set (j := log10_up _ n d 0) in *.
    rewrite Z.sub_0_r in Hlo, Hhi.
    assert (Hjpos : 0 < j).
    { destruct (Z.eq_dec j 0) as [He|]; [|lia].
      rewrite He in Hlo. simpl in Hlo. lia. }
    rewrite Z.opp_involutive. split; [lia|]. split; [exact Hlo|].
    apply Hhi. lia.
Qed.

End Decimal.

(** ** Significant digits *)

Section Significant.
Import Text Float Spec.

Lemma round_half_even_div_bounds (n D a b : Z) :
  0 <= n -> 0 < D ->
  (a * D <= n -> a <= round_half_even_div n D) /\
  (n < b * D -> round_half_even_div n D <= b).
Proof.
  intros Hn HD.
  pose proof (round_half_even_div_near n D Hn HD) as (Hnear & _ & _).
  cbv zeta in Hnear. set (z := round_half_even_div n D) in *.
  split; intros H.
  - destruct (Z.le_gt_cases a z) as [|Hlt]; [assumption|exfalso]. nia.
  - destruct (Z.le_gt_cases z b) as [|Hlt]; [assumption|exfalso]. nia.
Qed.

(** The scaled and rounded fraction has [prec + 1] digits, or is the
    next power of ten. *)
Lemma scaled_round_bounds (prec : nat) (n d k : Z) :
  1 <= n -> 1 <= d -> bracketed n d k ->
  let P := Z.of_nat prec in
  10 ^ P <= scaled_round n d (P - k) <= 10 ^ (P + 1).
Proof.
  intros Hn Hd Hb P. unfold scaled_round.
  assert (HP : 0 <= P) by (subst P; lia).
  pose proof (pow10_pos P HP) as HpP.
  rewrite (pow10_succ P HP).
  destruct Hb as [(Hk & Hlo & Hhi) | (Hk & Hlo & Hhi)].
  - rewrite (pow10_succ k Hk) in Hhi.
    pose proof (pow10_pos k Hk) as Hpk.
    destruct (0 <=? P - k) eqn:Hsh.
    + apply Z.leb_le in Hsh.
      pose proof (pow10_pos (P - k) Hsh) as Hps.
      assert (Hprod : 10 ^ P = 10 ^ k * 10 ^ (P - k)).
      { rewrite <- Z.pow_add_r by lia. f_equal; lia. }
      destruct (round_half_even_div_bounds (n * 10 ^ (P - k)) d
                  (10 ^ P) (10 * 10 ^ P) ltac:(nia) ltac:(lia)) as [Ha Hb].
      split; [apply Ha|apply Hb]; rewrite Hprod; nia.
    + apply Z.leb_gt in Hsh.
      pose proof (pow10_pos (- (P - k)) ltac:(lia)) as Hps.
      assert (Hprod : 10 ^ k = 10 ^ P * 10 ^ (- (P - k))).
      { rewrite <- Z.pow_add_r by lia. f_equal; lia. }
      destruct (round_half_even_div_bounds n (d * 10 ^ (- (P - k)))
                  (10 ^ P) (10 * 10 ^ P) ltac:(lia) ltac:(nia)) as [Ha Hb].
      rewrite Hprod in Hlo, Hhi.
      split; [apply Ha|apply Hb]; nia.
  - assert (Hsh : 0 <= P - k) by lia.
    apply Z.leb_le in Hsh. rewrite Hsh. apply Z.leb_le in Hsh.
    pose proof (pow10_pos (- k) ltac:(lia)) as Hpk.
    assert (Hprod : 10 ^ (P - k) = 10 ^ P * 10 ^ (- k)).
    { rewrite <- Z.pow_add_r by lia. f_equal; lia. }
    destruct (round_half_even_div_bounds (n * 10 ^ (P - k)) d
                (10 ^ P) (10 * 10 ^ P) ltac:(nia) ltac:(lia)) as [Ha Hb].
    rewrite Hprod in Ha, Hb |- *.
    split; [apply Ha|apply Hb]; nia.
Qed.

Lemma sci_digits_bounds (prec : nat) (n d : Z) :
  1 <= n -> 1 <= d ->
  let P := Z.of_nat prec in
  10 ^ P <= fst (sci_digits prec n d) < 10 ^ (P + 1).
Proof.
  intros Hn Hd P. unfold sci_digits. fold P.
  pose proof (scaled_round_bounds prec n d _ Hn Hd
                (decimal_exponent_spec n d Hn Hd)) as H.
  cbv zeta in H. fold P in H.
  set (N := scaled_round n d (P - decimal_exponent n d)) in *.
  assert (HP : 0 <= P) by (subst P; lia).
  pose proof (pow10_pos P HP) as HpP.
  rewrite (pow10_succ P HP) in *.
  destruct (10 * 10 ^ P <=? N) eqn:Hc; cbn [fst].
  - apply Z.leb_le in Hc. assert (HN : N = 10 ^ P * 10) by lia.
    rewrite HN, Z.div_mul by lia. lia.
  - apply Z.leb_gt in Hc. lia.
Qed.

Lemma digits_fuel_length_lower (fuel : nat) :
  forall (n : Z) (acc : string) (k : nat),
    10 ^ Z.of_nat k <= n -> n < 2 ^ Z.of_nat fuel ->
    (S k + String.length acc <= String.length (digits_fuel fuel n acc))%nat.
Proof.
  induction fuel as [|f IH]; intros n acc k Hlo Hf.
  - assert (0 < 10 ^ Z.of_nat k) by (apply pow10_pos; lia).
    simpl in Hf. lia.
  - cbn [digits_fuel]. destruct (n <? 10) eqn:Hlt.
    + apply Z.ltb_lt in Hlt. destruct k as [|k].
      * cbn [String.length]. lia.
      * rewrite Nat2Z.inj_succ, Z.pow_succ_r in Hlo by lia.
        assert (0 < 10 ^ Z.of_nat k) by (apply pow10_pos; lia). lia.
    + apply Z.ltb_ge in Hlt. destruct k as [|k].
      * destruct (digits_fuel_length_ge f (n / 10)
                    (String (digit_char (n mod 10)) acc)) as [H _].
        cbn [String.length] in H. lia.
      * assert (Hlo' : 10 ^ Z.of_nat k <= n / 10).
        { apply Z.div_le_lower_bound; [lia|].
          rewrite Nat2Z.inj_succ, Z.pow_succ_r in Hlo by lia. lia. }
        assert (Hf' : n / 10 < 2 ^ Z.of_nat f).
        { apply Z.div_lt_upper_bound; [lia|].
          rewrite Nat2Z.inj_succ, Z.pow_succ_r in Hf by lia. lia. }
        specialize (IH (n / 10) (String (digit_char (n mod 10)) acc) k
                       Hlo' Hf').
        cbn [String.length] in IH. lia.
Qed.

(** A number between two powers of ten has that many digits. *)
Lemma str_nonneg_length (n : Z) (k : nat) :
  10 ^ Z.of_nat k <= n < 10 ^ (Z.of_nat k + 1) ->
  String.length (str_nonneg n) = S k.
Proof.
  intros [Hlo Hhi].
  assert (Hp : 0 < 10 ^ Z.of_nat k) by (apply pow10_pos; lia).
  apply Nat.le_antisymm.
  - apply str_nonneg_length_le; [|lia].
    rewrite Nat2Z.inj_succ, <- Z.add_1_r. lia.
  - pose proof (digits_fuel_length_lower _ n EmptyString k Hlo
                  (log2_fuel n ltac:(lia))) as H.
    cbn [String.length] in H. unfold str_nonneg. lia.
Qed.

End Significant.

(** ** Python's [e] format *)

Section SciText.
Import Text Float Spec.

Lemma count_chars_append (p : ascii -> bool) (s t : string) :
  count_chars p (s +:+ t) = (count_chars p s + count_chars p t)%nat.
Proof.
  induction s as [|c s IH]; [reflexivity|].
  rewrite append_cons. cbn [count_chars]. rewrite IH. lia.
Qed.

Lemma count_chars_all (p : ascii -> bool) (s : string) :
  all_chars p s = true -> count_chars p s = String.length s.
Proof.
  induction s as [|c s IH]; [reflexivity|].
  cbn [all_chars count_chars String.length]. intros H.
  apply andb_prop in H as [Hc Hs]. now rewrite Hc, (IH Hs).
Qed.

Lemma sci_text_significant (prec : nat) (s : string) :
  sci_text prec s -> significant_digits s = S prec.
Proof.
  intros (sg & d0 & frac & es & ex & -> & Hsg & Hd0 & Hlen & Hfrac & _).
  unfold significant_digits, mantissa.
  assert (Hm : all_chars (differs "e") (sg +:+ String d0 (String "." frac))
               = true).
  { rewrite all_chars_append. cbn [all_chars].
    rewrite (is_digit_differs "e" d0) by (reflexivity || assumption).
    rewrite (digits_differ "e" frac) by (reflexivity || assumption).
    destruct Hsg as [-> | ->]; reflexivity. }
  change ("e" +:+ String es ex) with (String "e" (String es ex)).
  rewrite <- append_assoc.
  rewrite (split_char_at "e" _ _ Hm). cbn [hd].
  rewrite count_chars_append. cbn [count_chars]. rewrite Hd0.
  change (is_digit ".") with false. cbn iota.
  rewrite (count_chars_all _ _ Hfrac), Hlen.
  destruct Hsg as [-> | ->]; reflexivity.
Qed.

Lemma exponent_str_shape (k : Z) :
  exists es ex, exponent_str k = String es ex /\
    (es = "+"%char \/ es = "-"%char) /\
    (2 <= String.length ex)%nat /\ all_chars is_digit ex = true.
Proof.
  unfold exponent_str.
  exists (if k <? 0 then "-"%char else "+"%char).
  exists (rjust 2 "0" (str_nonneg (Z.abs k))).
  split; [reflexivity|]. split; [destruct (k <? 0); tauto|]. split.
  - rewrite length_rjust. lia.
  - unfold rjust. rewrite all_chars_append.
    rewrite all_chars_replicate by reflexivity.
    apply str_nonneg_all_digits. lia.
Qed.

Lemma magnitude_finite_pos (s : bool) (m : positive) (e : Z) :
  1 <= fst (magnitude (S754_finite s m e)) /\
  1 <= snd (magnitude (S754_finite s m e)).
Proof.
  cbn [magnitude]. destruct (0 <=? e) eqn:He; cbn [fst snd].
  - apply Z.leb_le in He.
    assert (0 < 2 ^ e) by (apply Z.pow_pos_nonneg; lia). nia.
  - apply Z.leb_gt in He.
    assert (0 < 2 ^ (- e)) by (apply Z.pow_pos_nonneg; lia). lia.
Qed.

(** Every finite value prints in scientific notation with exactly
    [prec] digits after the point. *)
Lemma format_e_body_shape (prec : nat) (x : float) :
  is_finite x = true -> prec <> O -> sci_text prec (format_e_body prec x).
Proof.
  intros Hfin Hprec. destruct x as [s|s| |s m e]; try discriminate.
  - (* a signed zero *)
    unfold format_e_body, sci_text.
    exists (sign_str s), "0"%char, (zeros prec), "+"%char, "00".
    split.
    { destruct prec as [|p]; [contradiction|]. reflexivity. }
    split; [destruct s; tauto|]. split; [reflexivity|].
    split; [apply length_replicate_char|].
    split; [now apply all_chars_replicate|].
    split; [tauto|]. split; [simpl; lia|reflexivity].
  - unfold format_e_body.
    destruct (magnitude_finite_pos s m e) as [Hn Hd].
    destruct (magnitude (S754_finite s m e)) as [n d]. cbn [fst snd] in *.
    pose proof (sci_digits_bounds prec n d Hn Hd) as HN. cbv zeta in HN.
    destruct (sci_digits prec n d) as [N k]. cbn [fst] in HN.
    pose proof (str_nonneg_length N prec HN) as Hlen.
    assert (HNpos : 0 <= N).
    { assert (0 < 10 ^ Z.of_nat prec) by (apply pow10_pos; lia). lia. }
    pose proof (str_nonneg_all_digits N HNpos) as Hdig.
    destruct (str_nonneg N) as [|d0 rest]; [discriminate|].
    cbn [String.length] in Hlen. cbn [all_chars] in Hdig.
    apply andb_prop in Hdig as [Hd0 Hrest].
    destruct (exponent_str_shape k) as (es & ex & -> & Hes & Hex & Hexd).
    exists (sign_str s), d0, rest, es, ex.
    split.
    { destruct prec as [|p]; [contradiction|]. reflexivity. }
    split; [destruct s; tauto|]. split; [exact Hd0|].
    split; [lia|]. split; [exact Hrest|]. tauto.
Qed.

Lemma sci_text_length (prec : nat) (s : string) :
  sci_text prec s -> (prec + 6 <= String.length s)%nat.
Proof.
  intros (sg & d0 & frac & es & ex & -> & _ & _ & Hlen & _ & _ & Hex & _).
  change ("e" +:+ String es ex) with (String "e" (String es ex)).
  rewrite !length_append. cbn [String.length]. lia.
Qed.

Lemma format_e_shape (w prec : nat) (x : float) :
  is_finite x = true -> prec <> O -> (w <= prec + 6)%nat ->
  sci_text prec (format_e w prec x) /\
  significant_digits (format_e w prec x) = S prec.
Proof.
  intros Hfin Hprec Hw.
  pose proof (format_e_body_shape prec x Hfin Hprec) as Hs.
  pose proof (sci_text_length prec _ Hs) as Hl.
  unfold format_e. rewrite rjust_fits by lia.
  split; [exact Hs|now apply sci_text_significant].
Qed.

End SciText.

(** ** What the writer writes *)

Section Structure.
Import Text Float Py DateTime Netcdf Sp2 Spec Layout.

(** A zero-padded number holds digits and at most a minus sign. *)
Lemma zero_pad_chars (c : ascii) (w : nat) (z : Z) :
  is_digit c = false -> differs c "-" = true ->
  all_chars (differs c) (zero_pad w z) = true.
Proof.
  intros Hc Hm. destruct (Z.ltb_spec z 0) as [Hneg|Hpos].
  - unfold zero_pad. apply Z.ltb_lt in Hneg. rewrite Hneg.
    apply Z.ltb_lt in Hneg. cbn [all_chars]. rewrite Hm. unfold rjust.
    rewrite all_chars_append.
    rewrite all_chars_replicate by (now apply is_digit_differs).
    apply digits_differ; [exact Hc|apply str_nonneg_all_digits; lia].
  - now apply zero_pad_differs.
Qed.

Lemma iso_date_chars (c : ascii) (d : datetimestruct) :
  is_digit c = false -> differs c "-" = true ->
  all_chars (differs c) (iso_date d) = true.
Proof.
  intros Hc Hm. unfold iso_date.
  rewrite !all_chars_append, !(zero_pad_chars c) by assumption.
  cbn [all_chars]. now rewrite Hm.
Qed.

Lemma iso_time_chars (c : ascii) (d : datetimestruct) :
  is_digit c = false -> differs c "-" = true -> differs c ":" = true ->
  all_chars (differs c) (iso_time d) = true.
Proof.
  intros Hc Hm Hcol. unfold iso_time.
  rewrite !all_chars_append, !(zero_pad_chars c) by assumption.
  cbn [all_chars]. now rewrite Hcol.
Qed.

(** [format_swan_time] never raises on an element of a time
    coordinate. *)
Lemma format_swan_time_DT (ns : Z) :
  let d := to_datetimestruct ns in
  format_swan_time (DT ns) =
  inr (remove_char "-" (iso_date d) +:+ "." +:+
       remove_char ":" (iso_time d)).
Proof.
  intros d. unfold format_swan_time, datetime_as_string_s. fold d.
  change (iso_date d +:+ "T" +:+ iso_time d)
    with (iso_date d +:+ String "T" (iso_time d)).
  rewrite (split_char_at "T" _ _ (iso_date_chars "T" d eq_refl eq_refl)).
  rewrite (split_char_absent "T" _
             (iso_time_chars "T" d eq_refl eq_refl eq_refl)).
  reflexivity.
Qed.

Lemma format_swan_time_total (nptime : datetime64) :
  exists swan_time, format_swan_time nptime = inr swan_time.
Proof.
  destruct nptime as [|ns]; [eexists; reflexivity|].
  eexists. apply format_swan_time_DT.
Qed.

Lemma all_chars_remove_char (p : ascii -> bool) (c : ascii) (s : string) :
  all_chars p s = true -> all_chars p (remove_char c s) = true.
Proof.
  induction s as [|a s IH]; [reflexivity|].
  cbn [all_chars remove_char]. intros H. apply andb_prop in H as [Ha Hs].
  destruct (Ascii.eqb a c); [now apply IH|].
  cbn [all_chars]. now rewrite Ha, IH.
Qed.

Lemma write_sp2_header_ok (cfg : Config) (ds : Dataset) (nloc : nat)
      (lons lats freqs dirns : list float) :
  longitude ds = Some lons -> latitude ds = Some lats ->
  frequency ds = Some freqs -> direction ds = Some dirns ->
  write_sp2_header cfg ds nloc =
  (header cfg nloc lons lats freqs dirns, inr tt).
Proof.
  intros Hlon Hlat Hfr Hdir. unfold write_sp2_header.
  rewrite Hlon, Hlat, Hfr, Hdir. cbn [attr].
  rewrite !bind_lift_ok.
  rewrite (for_each_ok (combine lons lats) _ (fun x => [coordinate_line x]))
    by (intros [lon lat] _; reflexivity).
  rewrite (for_each_ok freqs _ (fun x => [value_line x]))
    by (intros x _; reflexivity).
  rewrite (for_each_ok dirns _ (fun x => [value_line x]))
    by (intros x _; reflexivity).
  cbn [bind write]. unfold header, locations, frequencies, directions,
    quantities, identification, count_line, exception_line.
  rewrite !flat_map_singleton. reflexivity.
Qed.

Lemma write_location_ok (ds : Dataset) (energy : ndarray4)
      (factors : ndarray2) (freqs : list float)
      (n0 n1 n2 ndir m0 m1 t p : nat) :
  frequency ds = Some freqs ->
  shape4 energy = (n0, n1, n2, ndir) -> shape2 factors = (m0, m1) ->
  (t < n0)%nat -> (p < n1)%nat -> (length freqs <= n2)%nat ->
  (t < m0)%nat -> (p < m1)%nat ->
  write_location ds energy factors t p =
  (location_block energy factors (length freqs) ndir t p, inr tt).
Proof.
  intros Hfr Hse Hsf Ht Hp Hf Ht' Hp'. unfold write_location.
  rewrite (index2_in_bounds factors m0 m1 t p Hsf Ht' Hp').
  rewrite Hfr. cbn [attr]. rewrite !bind_lift_ok.
  rewrite (for_each_ok (range (length freqs)) _
             (fun fr => [matrix_line energy ndir t p fr])).
  - rewrite flat_map_singleton. reflexivity.
  - intros fr Hin. apply in_range in Hin.
    apply write_row_ok.
    apply (row4_in_bounds energy n0 n1 n2 ndir); (assumption || lia).
Qed.

Lemma write_timestep_ok (ds : Dataset) (energy : ndarray4)
      (factors : ndarray2) (freqs : list float) (times : list datetime64)
      (n0 n1 n2 ndir m0 m1 nloc t : nat) :
  frequency ds = Some freqs -> time ds = Some times ->
  shape4 energy = (n0, n1, n2, ndir) -> shape2 factors = (m0, m1) ->
  (t < length times)%nat ->
  (t < n0)%nat -> (nloc <= n1)%nat -> (length freqs <= n2)%nat ->
  (t < m0)%nat -> (nloc <= m1)%nat ->
  write_timestep ds energy factors nloc t =
  (timestep_block times energy factors nloc (length freqs) ndir t, inr tt).
Proof.
  intros Hfr Hti Hse Hsf Htl Ht Hl Hf Ht' Hl'.
  unfold write_timestep, timestep_block, time_line.
  rewrite Hti. cbn [attr]. rewrite bind_lift_ok.
  destruct (nth_error times t) as [nptime|] eqn:Hnth;
    [|apply nth_error_None in Hnth; lia].
  rewrite (index1_in_bounds times t nptime Hnth), bind_lift_ok.
  rewrite (nth_error_nth times t NaT Hnth).
  destruct (format_swan_time_total nptime) as [swan_time ->].
  rewrite bind_lift_ok.
  apply bind_write.
  apply for_each_ok. intros p Hin. apply in_range in Hin.
  apply (write_location_ok ds energy factors freqs n0 n1 n2 ndir m0 m1);
    (assumption || lia).
Qed.

(** The arrays of a well-formed dataset are those [prepare] returns. *)
Lemma prepare_ok (ds : Dataset) (lons lats freqs dirns : list float)
      (times : list datetime64) (energy : ndarray4) :
  well_formed ds lons lats freqs dirns times energy ->
  prepare ds =
  inr (energy, factors_of ds (length times) (length lons), length lons).
Proof.
  intros [Hlon Hlat Hfr Hdir Hti Hen Hll Hsh Hfa].
  unfold prepare, factors_of, variables.
  rewrite Hlon, Hlat, Hfr, Hdir, Hti, Hen. cbn [attr name_if app].
  destruct (factor ds) as [fa|]; reflexivity.
Qed.

Lemma factors_of_shape (ds : Dataset) (lons lats freqs dirns : list float)
      (times : list datetime64) (energy : ndarray4) :
  well_formed ds lons lats freqs dirns times energy ->
  shape2 (factors_of ds (length times) (length lons))
  = (length times, length lons).
Proof.
  intros [_ _ _ _ _ _ _ _ Hfa]. unfold factors_of.
  destruct (factor ds); [exact Hfa|reflexivity].
Qed.

(** A well-formed dataset is written without an exception, and what
    is written is the header followed by the body. *)
Lemma write_sp2_ok (cfg : Config) (ds : Dataset)
      (lons lats freqs dirns : list float) (times : list datetime64)
      (energy : ndarray4) :
  well_formed ds lons lats freqs dirns times energy ->
  let factors := factors_of ds (length times) (length lons) in
  write_sp2 cfg ds energy factors (length lons) =
  (header cfg (length lons) lons lats freqs dirns ++
   body times energy factors (length lons) (length freqs) (length dirns),
   inr tt).
Proof.
  intros Hwf factors.
  pose proof (factors_of_shape _ _ _ _ _ _ _ Hwf) as Hsf. fold factors in Hsf.
  destruct Hwf as [Hlon Hlat Hfr Hdir Hti Hen Hll Hsh Hfa].
  unfold write_sp2.
  eapply bind_ok; [now apply write_sp2_header_ok|].
  rewrite Hti. cbn [attr]. rewrite bind_lift_ok.
  apply for_each_ok. intros t Hin. apply in_range in Hin.
  eapply write_timestep_ok; eauto; lia.
Qed.

End Structure.

(** ** Counting the data blocks *)

Section Blocks.
Import Text Float Py DateTime Netcdf Sp2 Spec Layout.

(** A chunk without a capital F is not the FACTOR tag. *)
Lemma no_F_not_tag (chunk : string) :
  all_chars (differs "F") chunk = true -> is_factor_tag chunk = false.
Proof.
  intros H. unfold is_factor_tag. apply String.eqb_neq. intros ->.
  discriminate H.
Qed.

Lemma str_int_no_F (z : Z) : all_chars (differs "F") (str_int z) = true.
Proof.
  unfold str_int. destruct (Z.ltb_spec z 0).
  - cbn [all_chars]. rewrite (digits_differ "F") by
      (reflexivity || apply str_nonneg_all_digits; lia). reflexivity.
  - apply digits_differ; [reflexivity|now apply str_nonneg_all_digits].
Qed.

Lemma rjust_no_F (w : nat) (fill : ascii) (s : string) :
  differs "F" fill = true -> all_chars (differs "F") s = true ->
  all_chars (differs "F") (rjust w fill s) = true.
Proof.
  intros Hf Hs. unfold rjust.
  now rewrite all_chars_append, all_chars_replicate, Hs.
Qed.

Lemma join_no_F (parts : list string) :
  Forall (fun p => all_chars (differs "F") p = true) parts ->
  all_chars (differs "F") (Text.join " " parts) = true.
Proof.
  induction 1 as [|p rest Hp Hrest IH]; [reflexivity|].
  cbn [Text.join]. destruct rest as [|q rest]; [exact Hp|].
  rewrite !all_chars_append, Hp, IH. reflexivity.
Qed.

Lemma matrix_line_no_tag (energy : ndarray4) (ndir t p fr : nat) :
  is_factor_tag (matrix_line energy ndir t p fr) = false.
Proof.
  apply no_F_not_tag. unfold matrix_line, row_str.
  rewrite all_chars_append, join_no_F; [reflexivity|].
  apply List.Forall_forall. intros field Hin. apply in_map_iff in Hin.
  destruct Hin as (v & <- & _). unfold format_d.
  apply rjust_no_F; [reflexivity|apply str_int_no_F].
Qed.

Lemma mantissa_str_no_F (prec : nat) (ds : string) :
  all_chars (differs "F") ds = true ->
  all_chars (differs "F") (mantissa_str prec ds) = true.
Proof.
  intros H. destruct ds as [|d0 rest]; [reflexivity|].
  cbn [all_chars] in H. apply andb_prop in H as [H0 Hr].
  unfold mantissa_str. destruct prec; cbn [all_chars]; rewrite H0;
    [reflexivity|]. now rewrite Hr.
Qed.

Lemma format_e_body_no_F (prec : nat) (x : float) :
  all_chars (differs "F") (format_e_body prec x) = true.
Proof.
  destruct x as [s|s| |s m e].
  - unfold format_e_body. rewrite !all_chars_append.
    rewrite mantissa_str_no_F
      by (apply all_chars_replicate; reflexivity).
    destruct s; reflexivity.
  - destruct s; reflexivity.
  - reflexivity.
  - unfold format_e_body.
    destruct (magnitude_finite_pos s m e) as [Hn Hd].
    destruct (magnitude (S754_finite s m e)) as [n d]. cbn [fst snd] in *.
    pose proof (sci_digits_bounds prec n d Hn Hd) as HN. cbv zeta in HN.
    destruct (sci_digits prec n d) as [N k]. cbn [fst] in HN.
    assert (HNpos : 0 <= N).
    { assert (0 < 10 ^ Z.of_nat prec) by (apply pow10_pos; lia). lia. }
    rewrite !all_chars_append.
    rewrite mantissa_str_no_F
      by (apply digits_differ;
          [reflexivity|now apply str_nonneg_all_digits]).
    destruct (exponent_str_shape k) as (es & ex & -> & Hes & _ & Hexd).
    cbn [all_chars]. rewrite (digits_differ "F" ex) by (reflexivity || assumption).
    destruct s, Hes as [-> | ->]; reflexivity.
Qed.

Lemma factor_line_no_tag (factors : ndarray2) (t p : nat) :
  is_factor_tag (factor_line factors t p) = false.
Proof.
  apply no_F_not_tag. unfold factor_line, format_e.
  rewrite all_chars_append, rjust_no_F;
    [reflexivity|reflexivity|apply format_e_body_no_F].
Qed.

Lemma filter_tag_map {A} (f : A -> string) (xs : list A) :
  (forall x, is_factor_tag (f x) = false) ->
  List.filter is_factor_tag (map f xs) = [].
Proof.
  intros H. induction xs as [|x xs IH]; [reflexivity|].
  cbn [map List.filter]. now rewrite H.
Qed.

(** A data block opens with the only FACTOR tag it has. *)
Lemma count_blocks_location (energy : ndarray4) (factors : ndarray2)
      (nfreq ndir t p : nat) :
  count_blocks (location_block energy factors nfreq ndir t p) = 1%nat.
Proof.
  unfold count_blocks, location_block. cbn [List.filter].
  change (is_factor_tag ("FACTOR" +:+ nl)) with true. cbv iota.
  rewrite factor_line_no_tag.
  rewrite filter_tag_map by (intros; apply matrix_line_no_tag).
  reflexivity.
Qed.

Lemma time_line_no_tag (nptime : datetime64) :
  is_factor_tag (time_line nptime) = false.
Proof.
  destruct nptime as [|ns]; [reflexivity|].
  apply no_F_not_tag. unfold time_line.
  rewrite format_swan_time_DT. cbv zeta.
  rewrite !all_chars_append.
  rewrite !all_chars_remove_char
    by (apply iso_date_chars || apply iso_time_chars; reflexivity).
  reflexivity.
Qed.

Lemma count_blocks_app (xs ys : list string) :
  count_blocks (xs ++ ys) = (count_blocks xs + count_blocks ys)%nat.
Proof. unfold count_blocks. now rewrite List.filter_app, length_app. Qed.

Lemma count_blocks_flat_map {A} (f : A -> list string) (xs : list A)
      (k : nat) :
  (forall x, count_blocks (f x) = k) ->
  count_blocks (flat_map f xs) = (length xs * k)%nat.
Proof.
  intros H. induction xs as [|x xs IH]; [reflexivity|].
  cbn [flat_map length]. rewrite count_blocks_app, H, IH. lia.
Qed.

(** A time step has as many data blocks as there are locations, and
    the body as many as time steps times locations. *)
Lemma count_blocks_timestep (times : list datetime64) (energy : ndarray4)
      (factors : ndarray2) (nloc nfreq ndir t : nat) :
  count_blocks (timestep_block times energy factors nloc nfreq ndir t)
  = nloc.
Proof.
  unfold timestep_block.
  change (?x :: ?l) with ([x] ++ l). rewrite count_blocks_app.
  unfold count_blocks at 1. cbn [List.filter].
  rewrite time_line_no_tag. cbn [length].
  rewrite (count_blocks_flat_map _ _ 1)
    by (intros; apply count_blocks_location).
  rewrite length_range. lia.
Qed.

Lemma count_blocks_body (times : list datetime64) (energy : ndarray4)
      (factors : ndarray2) (nloc nfreq ndir : nat) :
  count_blocks (body times energy factors nloc nfreq ndir)
  = (length times * nloc)%nat.
Proof.
  unfold body.
  rewrite (count_blocks_flat_map _ _ nloc)
    by (intros; apply count_blocks_timestep).
  now rewrite length_range.
Qed.

End Blocks.

(** ** Validation, one conversion, and the loop over the files *)

Section Conversion.
Import Text Float Py DateTime Netcdf Logging Os Sp2 Layout Batch.

Lemma validate_loop_spec (vars present : list string) :
  ((forall v, In v vars -> contains present v = true) /\
   validate_loop vars present = ([], true)) \/
  (exists pre var post,
     vars = pre ++ var :: post /\
     (forall v, In v pre -> contains present v = true) /\
     contains present var = false /\
     validate_loop vars present =
     ([error ("Missing required variable: " +:+ var)], false)).
Proof.
  induction vars as [|var rest IH].
  - left. split; [intros v []|reflexivity].
  - cbn [validate_loop]. destruct (contains present var) eqn:Hc; cbn [negb].
    + destruct IH as [[Hall Hv]|(pre & v & post & -> & Hpre & Hm & Hv)].
      * left. split; [|exact Hv].
        intros v [<-|Hin]; [exact Hc|exact (Hall v Hin)].
      * right. exists (var :: pre), v, post.
        split; [reflexivity|]. split; [|split; assumption].
        intros u [<-|Hin]; [exact Hc|exact (Hpre u Hin)].
    + right. exists [], var, rest.
      split; [reflexivity|]. split; [intros v []|]. split; [exact Hc|].
      reflexivity.
Qed.

(** A dataset that lacks a required variable fails validation with one
    error record, which names the first variable that is absent. *)
Lemma validate_netcdf_missing (ds : Dataset) :
  (exists v, missing ds v) ->
  exists pre var post,
    required_vars = pre ++ var :: post /\
    (forall v, In v pre -> contains (variables ds) v = true) /\
    missing ds var /\
    validate_netcdf ds =
    ([error ("Missing required variable: " +:+ var)], false).
Proof.
  intros (v & Hin & Hv). unfold validate_netcdf.
  destruct (validate_loop_spec required_vars (variables ds))
    as [[Hall _]|(pre & var & post & Heq & Hpre & Hm & Hval)].
  - rewrite (Hall v Hin) in Hv. discriminate Hv.
  - exists pre, var, post. split; [exact Heq|]. split; [exact Hpre|].
    split; [|exact Hval]. split; [|exact Hm].
    rewrite Heq. apply in_or_app. right. now left.
Qed.

Lemma validate_netcdf_false (ds : Dataset) :
  snd (validate_netcdf ds) = false -> exists v, missing ds v.
Proof.
  unfold validate_netcdf.
  destruct (validate_loop_spec required_vars (variables ds))
    as [[_ Hval]|(pre & var & post & Heq & _ & Hm & _)].
  - rewrite Hval. discriminate.
  - intros _. exists var. split; [|exact Hm].
    rewrite Heq. apply in_or_app. right. now left.
Qed.

Lemma validate_netcdf_true (ds : Dataset) :
  snd (validate_netcdf ds) = true -> validate_netcdf ds = ([], true).
Proof.
  unfold validate_netcdf.
  destruct (validate_loop_spec required_vars (variables ds))
    as [[_ Hval]|(pre & var & post & _ & _ & _ & Hval)];
    rewrite Hval; [reflexivity|discriminate].
Qed.

Lemma validate_netcdf_well_formed (ds : Dataset)
      (lons lats freqs dirns : list float) (times : list datetime64)
      (energy : ndarray4) :
  well_formed ds lons lats freqs dirns times energy ->
  validate_netcdf ds = ([], true).
Proof.
  intros [Hlon Hlat Hfr Hdir Hti Hen _ _ _].
  unfold validate_netcdf, variables.
  rewrite Hlon, Hlat, Hfr, Hdir, Hti, Hen. reflexivity.
Qed.

Variable env : Env.
Variable cfg : Config.

(** A dataset that fails validation: the records of the validation are
    logged and nothing else happens. *)
Lemma convert_invalid (input_path output_path : string) (w : World)
      (ds : Dataset) (records : list Logging.record) :
  open_dataset env input_path = inr ds ->
  validate_netcdf ds = (records, false) ->
  convert_netcdf_to_sp2 env cfg input_path output_path w =
  (add_log records w, false).
Proof.
  intros Hopen Hval. unfold convert_netcdf_to_sp2.
  rewrite Hopen, Hval. reflexivity.
Qed.

Lemma add_log_nil (w : World) : add_log [] w = w.
Proof.
  destruct w as [f d l]. unfold add_log. cbn [files dirs log].
  now rewrite app_nil_r.
Qed.

(** What a successful conversion went through. *)
Lemma convert_success (input_path output_path : string) (w w' : World) :
  convert_netcdf_to_sp2 env cfg input_path output_path w = (w', true) ->
  exists ds energy factors nloc w1 w2 out,
    open_dataset env input_path = inr ds /\
    validate_netcdf ds = ([], true) /\
    prepare ds = inr (energy, factors, nloc) /\
    makedirs (dirname output_path) w = inr w1 /\
    open_w output_path w1 = inr w2 /\
    write_sp2 cfg ds energy factors nloc = (out, inr tt) /\
    w' = close_with output_path out w2.
Proof.
  unfold convert_netcdf_to_sp2, handler.
  destruct (open_dataset env input_path) as [e|ds] eqn:Hopen;
    [discriminate|].
  destruct (validate_netcdf ds) as [records valid] eqn:Hval.
  destruct valid; cbn [negb]; [|discriminate].
  pose proof (validate_netcdf_true ds) as Hrec.
  rewrite Hval in Hrec. specialize (Hrec eq_refl).
  injection Hrec as ->. rewrite add_log_nil.
  destruct (prepare ds) as [e|[[energy factors] nloc]] eqn:Hprep;
    [discriminate|].
  destruct (makedirs (dirname output_path) w) as [e|w1] eqn:Hmk;
    [discriminate|].
  destruct (open_w output_path w1) as [e|w2] eqn:Hop; [discriminate|].
  destruct (write_sp2 cfg ds energy factors nloc) as [out [e|[]]] eqn:Hwr;
    [discriminate|].
  intros [= <-]. exists ds, energy, factors, nloc, w1, w2, out.
  split; [reflexivity|]. split; [exact Hval|]. split; [exact Hprep|].
  split; [first [reflexivity|exact Hmk]|].
  split; [first [reflexivity|exact Hop]|].
  split; [first [reflexivity|exact Hwr]|reflexivity].
Qed.

Lemma convert_steps (input_path output_path : string) (w w1 w2 : World)
      (ds : Dataset) (energy : ndarray4) (factors : ndarray2) (nloc : nat)
      (out : list string) :
  open_dataset env input_path = inr ds ->
  validate_netcdf ds = ([], true) ->
  prepare ds = inr (energy, factors, nloc) ->
  makedirs (dirname output_path) w = inr w1 ->
  open_w output_path w1 = inr w2 ->
  write_sp2 cfg ds energy factors nloc = (out, inr tt) ->
  convert_netcdf_to_sp2 env cfg input_path output_path w =
  (close_with output_path out w2, true).
Proof.
  intros Hopen Hval Hprep Hmk Hop Hwr. unfold convert_netcdf_to_sp2.
  rewrite Hopen, Hval. cbn [negb]. rewrite add_log_nil, Hprep, Hmk, Hop, Hwr.
  reflexivity.
Qed.

Lemma makedirs_inv (d : string) (w w1 : World) :
  makedirs d w = inr w1 ->
  String.eqb d EmptyString = false /\ files w !! d = None /\
  w1 = {| files := files w; dirs := {[ d ]} ∪ dirs w; log := log w |}.
Proof.
  unfold makedirs. destruct (String.eqb d EmptyString); [discriminate|].
  case_bool_decide as Hd; [discriminate|]. intros [= <-].
  split; [reflexivity|]. split; [|reflexivity].
  now apply eq_None_not_Some.
Qed.

Lemma makedirs_ok (d : string) (w : World) :
  String.eqb d EmptyString = false -> files w !! d = None ->
  makedirs d w =
  inr {| files := files w; dirs := {[ d ]} ∪ dirs w; log := log w |}.
Proof.
  intros Hd Hf. unfold makedirs. rewrite Hd.
  case_bool_decide as Hs; [|reflexivity].
  rewrite Hf in Hs. now destruct Hs.
Qed.

Lemma open_w_inv (p : string) (w w2 : World) :
  open_w p w = inr w2 ->
  (p ∉ dirs w) /\
  (String.eqb (dirname p) EmptyString = true \/ dirname p ∈ dirs w) /\
  w2 = {| files := <[ p := EmptyString ]> (files w);
          dirs := dirs w; log := log w |}.
Proof.
  unfold open_w. case_bool_decide as Hp; [discriminate|].
  destruct (String.eqb (dirname p) EmptyString); cbn [negb andb].
  - intros [= <-]. split; [exact Hp|]. split; [now left|reflexivity].
  - case_bool_decide as Hd; cbn [negb]; [|discriminate].
    intros [= <-]. split; [exact Hp|]. split; [now right|reflexivity].
Qed.

Lemma open_w_ok (p : string) (w : World) :
  p ∉ dirs w ->
  (String.eqb (dirname p) EmptyString = true \/ dirname p ∈ dirs w) ->
  open_w p w =
  inr {| files := <[ p := EmptyString ]> (files w);
         dirs := dirs w; log := log w |}.
Proof.
  intros Hp Hd. unfold open_w. rewrite (bool_decide_eq_false_2 _ Hp).
  destruct Hd as [Hd|Hd].
  - rewrite Hd. reflexivity.
  - rewrite (bool_decide_eq_true_2 _ Hd). cbn [negb].
    now rewrite andb_false_r.
Qed.

Lemma writable_inv (p : string) (w : World) :
  writable p w = true ->
  exists w1 w2,
    makedirs (dirname p) w = inr w1 /\ open_w p w1 = inr w2 /\
    files w2 = <[ p := EmptyString ]> (files w) /\
    dirs w2 = {[ dirname p ]} ∪ dirs w /\ log w2 = log w.
Proof.
  unfold writable.
  destruct (makedirs (dirname p) w) as [e|w1] eqn:Hmk; [discriminate|].
  destruct (open_w p w1) as [e|w2] eqn:Hop; [discriminate|]. intros _.
  exists w1, w2. split; [reflexivity|]. split; [exact Hop|].
  destruct (makedirs_inv _ _ _ Hmk) as (_ & _ & ->).
  destruct (open_w_inv _ _ _ Hop) as (_ & _ & ->).
  cbn [files dirs log]. split; [reflexivity|]. split; reflexivity.
Qed.

(** The conversion of a well-formed dataset to a path that can be
    written: the file holds the text of the header and the body. *)
Lemma convert_well_formed (input_path output_path : string) (w : World)
      (ds : Dataset) (lons lats freqs dirns : list float)
      (times : list datetime64) (energy : ndarray4) :
  open_dataset env input_path = inr ds ->
  well_formed ds lons lats freqs dirns times energy ->
  writable output_path w = true ->
  convert_netcdf_to_sp2 env cfg input_path output_path w =
  ({| files := <[ output_path :=
                  sp2_text cfg ds lons lats freqs dirns times energy ]>
               (files w);
      dirs := {[ dirname output_path ]} ∪ dirs w;
      log := log w |}, true).
Proof.
  intros Hopen Hwf Hwr.
  destruct (writable_inv _ _ Hwr) as (w1 & w2 & Hmk & Hop & Hf & Hd & Hl).
  rewrite (convert_steps input_path output_path w w1 w2 ds _ _ _ _ Hopen
             (validate_netcdf_well_formed ds _ _ _ _ _ _ Hwf)
             (prepare_ok ds _ _ _ _ _ _ Hwf) Hmk Hop
             (write_sp2_ok cfg ds _ _ _ _ _ _ Hwf)).
  unfold close_with, sp2_text. rewrite Hf, Hd, Hl.
  now rewrite insert_insert_eq.
Qed.

(** A second conversion of the same input to the same path leaves the
    world of the first one as it is. *)
Lemma convert_again (input_path output_path : string) (w w' : World) :
  convert_netcdf_to_sp2 env cfg input_path output_path w = (w', true) ->
  convert_netcdf_to_sp2 env cfg input_path output_path w' = (w', true).
Proof.
  intros Hc.
  destruct (convert_success _ _ _ _ Hc)
    as (ds & energy & factors & nloc & w1 & w2 & out &
        Hopen & Hval & Hprep & Hmk & Hop & Hwr & ->).
  destruct (makedirs_inv _ _ _ Hmk) as (Hne & Hnf & ->).
  destruct (open_w_inv _ _ _ Hop) as (Hnd & _ & ->).
  cbn [files dirs log] in *.
  set (d := dirname output_path) in *.
  assert (Hdo : d <> output_path).
  { intros Heq. apply Hnd. rewrite <- Heq.
    apply elem_of_union. left. now apply elem_of_singleton. }
  set (c := concat_all out).
  set (W := {| files := <[ output_path := c ]> (files w);
               dirs := {[ d ]} ∪ dirs w; log := log w |}).
  assert (HW : close_with output_path out
                 {| files := <[ output_path := EmptyString ]> (files w);
                    dirs := {[ d ]} ∪ dirs w; log := log w |} = W).
  { unfold close_with, W, c. cbn [files dirs log].
    now rewrite insert_insert_eq. }
  rewrite HW.
  assert (Hmk2 : makedirs d W =
                 inr {| files := files W; dirs := {[ d ]} ∪ dirs W;
                        log := log W |}).
  { apply makedirs_ok; [exact Hne|]. unfold W. cbn [files].
    rewrite lookup_insert_ne by congruence. exact Hnf. }
  assert (Hnd2 : output_path ∉ {[ d ]} ∪ dirs W).
  { unfold W. cbn [dirs]. intros [Hin|Hin]%elem_of_union; [|exact (Hnd Hin)].
    apply elem_of_singleton in Hin. now apply Hdo. }
  assert (Hd2 : d ∈ {[ d ]} ∪ dirs W).
  { apply elem_of_union. left. now apply elem_of_singleton. }
  pose proof (open_w_ok output_path
                {| files := files W; dirs := {[ d ]} ∪ dirs W;
                   log := log W |} Hnd2 (or_intror Hd2)) as Hop2.
  cbn [files dirs log] in Hop2.
  rewrite (convert_steps input_path output_path _ _ _ ds _ _ _ _ Hopen
             Hval Hprep Hmk2 Hop2 Hwr).
  unfold close_with, W. cbn [files dirs log]. fold c.
  rewrite !insert_insert_eq.
  rewrite (assoc_L (∪)), (idemp_L (∪)). reflexivity.
Qed.

(** ** The log does not influence the files *)

Local Ltac same_worlds :=
  split; [split; cbn [add_log close_with fst files dirs log]; congruence
         |reflexivity].

Lemma same_files_refl (w : World) : same_files w w.
Proof. split; reflexivity. Qed.

Lemma same_files_add_log (rs1 rs2 : list Logging.record) (w1 w2 : World) :
  same_files w1 w2 -> same_files (add_log rs1 w1) (add_log rs2 w2).
Proof. intros [Hf Hd]. split; assumption. Qed.

Lemma same_files_add_log_l (rs : list Logging.record) (w : World) :
  same_files (add_log rs w) w.
Proof. split; reflexivity. Qed.

Lemma convert_same_files (input_path output_path : string)
      (w1 w2 : World) :
  same_files w1 w2 ->
  same_files (fst (convert_netcdf_to_sp2 env cfg input_path output_path w1))
             (fst (convert_netcdf_to_sp2 env cfg input_path output_path w2))
  /\ snd (convert_netcdf_to_sp2 env cfg input_path output_path w1) =
     snd (convert_netcdf_to_sp2 env cfg input_path output_path w2).
Proof.
  intros [Hf Hd]. unfold convert_netcdf_to_sp2, handler.
  destruct (open_dataset env input_path) as [e|ds]; [same_worlds|].
  destruct (validate_netcdf ds) as [records valid].
  destruct valid; cbn [negb]; [|same_worlds].
  destruct (prepare ds) as [e|[[energy factors] nloc]]; [same_worlds|].
  unfold makedirs. cbn [add_log files dirs log]. rewrite Hf.
  destruct (String.eqb (dirname output_path) EmptyString) eqn:He;
    [same_worlds|].
  destruct (bool_decide (is_Some (files w2 !! dirname output_path)));
    [same_worlds|].
  unfold open_w. cbn [files dirs log]. rewrite Hd, He.
  destruct (bool_decide (output_path ∈ {[dirname output_path]} ∪ dirs w2));
    [same_worlds|].
  destruct (negb false &&
            negb (bool_decide (dirname output_path ∈
                               {[dirname output_path]} ∪ dirs w2)));
    [same_worlds|].
  destruct (write_sp2 cfg ds energy factors nloc) as [out [e|[]]];
    same_worlds.
Qed.

Lemma process_file_same (filename : string) (st1 st2 : World * nat) :
  same_result st1 st2 ->
  same_result (process_file env cfg filename st1)
              (process_file env cfg filename st2).
Proof.
  destruct st1 as [w1 n1], st2 as [w2 n2].
  intros [Hs Hn]. cbn [fst snd] in Hs, Hn. subst n2.
  unfold process_file.
  assert (He : exists_ (output_path_of cfg filename) w1 =
               exists_ (output_path_of cfg filename) w2).
  { unfold exists_. destruct Hs as [-> ->]. reflexivity. }
  rewrite He.
  destruct (negb (overwrite cfg) &&
            exists_ (output_path_of cfg filename) w2).
  - split; [now apply same_files_add_log|reflexivity].
  - pose proof (convert_same_files (Os.join (input_dir cfg) filename)
                  (output_path_of cfg filename) w1 w2 Hs) as [Hc Hok].
    destruct (convert_netcdf_to_sp2 env cfg _ _ w1) as [w1' ok1].
    destruct (convert_netcdf_to_sp2 env cfg _ _ w2) as [w2' ok2].
    cbn [fst snd] in Hc, Hok. subst ok2. destruct ok1.
    + split; [now apply same_files_add_log|reflexivity].
    + split; [exact Hc|reflexivity].
Qed.

Lemma process_files_same (names : list string) (st1 st2 : World * nat) :
  same_result st1 st2 ->
  same_result (process_files env cfg names st1)
              (process_files env cfg names st2).
Proof.
  revert st1 st2. induction names as [|f names IH]; intros st1 st2 Hs.
  - exact Hs.
  - apply IH, process_file_same, Hs.
Qed.

Lemma process_files_app (pre post : list string) (st : World * nat) :
  process_files env cfg (pre ++ post) st =
  process_files env cfg post (process_files env cfg pre st).
Proof. apply fold_left_app. Qed.

(** A file whose dataset lacks a required variable: the loop logs one
    record and goes on, with the files, the directories and the count
    of successes as they were. *)
Lemma process_file_invalid (filename : string) (ds : Dataset)
      (w : World) (n : nat) :
  open_dataset env (Os.join (input_dir cfg) filename) = inr ds ->
  (exists v, missing ds v) ->
  exists r,
    process_file env cfg filename (w, n) = (add_log [r] w, n) /\
    (r = info ("Skipping existing file: " +:+ filename) \/
     exists var, missing ds var /\
       r = error ("Missing required variable: " +:+ var)).
Proof.
  intros Hopen Hmiss. unfold process_file.
  destruct (negb (overwrite cfg) &&
            exists_ (output_path_of cfg filename) w).
  - eexists. split; [reflexivity|now left].
  - destruct (validate_netcdf_missing ds Hmiss)
      as (pre & var & post & _ & _ & Hm & Hval).
    rewrite (convert_invalid _ _ w ds _ Hopen Hval).
    eexists. split; [reflexivity|]. right. exists var. now split.
Qed.

Lemma process_files_skip (pre post : list string) (filename : string)
      (ds : Dataset) (st : World * nat) :
  open_dataset env (Os.join (input_dir cfg) filename) = inr ds ->
  (exists v, missing ds v) ->
  same_result (process_files env cfg (pre ++ filename :: post) st)
              (process_files env cfg (pre ++ post) st).
Proof.
  intros Hopen Hmiss. rewrite !process_files_app.
  change (process_files env cfg (filename :: post) ?s)
    with (process_files env cfg post (process_file env cfg filename s)).
  apply process_files_same.
  destruct (process_files env cfg pre st) as [w n].
  destruct (process_file_invalid filename ds w n Hopen Hmiss)
    as (r & -> & _).
  split; [apply same_files_add_log_l|reflexivity].
Qed.

(** A file with a well-formed dataset whose output can be written and
    is not skipped: it is converted and counted. *)
Lemma process_file_valid (filename : string) (ds : Dataset)
      (lons lats freqs dirns : list float) (times : list datetime64)
      (energy : ndarray4) (w : World) (n : nat) :
  open_dataset env (Os.join (input_dir cfg) filename) = inr ds ->
  well_formed ds lons lats freqs dirns times energy ->
  negb (overwrite cfg) && exists_ (output_path_of cfg filename) w = false ->
  writable (output_path_of cfg filename) w = true ->
  process_file env cfg filename (w, n) =
  ({| files := <[ output_path_of cfg filename :=
                  sp2_text cfg ds lons lats freqs dirns times energy ]>
               (files w);
      dirs := {[ dirname (output_path_of cfg filename) ]} ∪ dirs w;
      log := log w ++ [info ("Successfully converted: " +:+ filename)] |},
   S n).
Proof.
  intros Hopen Hwf Hskip Hwr. unfold process_file. rewrite Hskip.
  rewrite (convert_well_formed _ _ w ds _ _ _ _ _ _ Hopen Hwf Hwr).
  reflexivity.
Qed.

End Conversion.

(* ===================================================================== *)
(** * The claims                                                          *)
(* ===================================================================== *)

Section Claims_samples.
Import Text Float Py Netcdf Sp2 Spec Examples.

(** C1: for every energy sample that is NaN, the integer emitted at
    its position of the frequency x direction matrix is exactly 0: NaN
    is replaced by 0.0 before the rounding, the rounded row has 0 there,
    and the field written is "     0".  The configured exception value
    plays no part: whenever it denotes a non-zero integer the emitted
    integer differs from it, and the script's own exception value
    denotes -99. *)
Theorem C1_nan_sample_written_as_zero
    (cfg : Config) (cwd : string) (energy : ndarray4) (t p fr j : nat)
    (row : list float) :
  row4 energy t p fr = inr row ->
  nth_error row j = Some S754_nan ->
  let fields := map (format_d 6) (row_to_ints row) in
  written (write_row energy t p fr) = [Text.join " " fields +:+ nl] /\
  nth_error (map (nan_to_num (S754_zero false)) row) j
    = Some (S754_zero false) /\
  nth_error (row_to_ints row) j = Some 0 /\
  nth_error fields j = Some "     0" /\
  (sample_to_int (exception_value cfg) <> 0 ->
   nth_error (row_to_ints row) j
     <> Some (sample_to_int (exception_value cfg))) /\
  sample_to_int (exception_value (CONFIG cwd)) = -99.
Proof.
  intros Hrow Hnan fields.
  assert (Hint : nth_error (row_to_ints row) j = Some 0).
  { rewrite (row_to_ints_nth row j S754_nan Hnan). reflexivity. }
  repeat split.
  - rewrite (write_row_ok energy t p fr row Hrow). reflexivity.
  - apply (map_nth_error (nan_to_num (S754_zero false)) j row Hnan).
  - exact Hint.
  - subst fields. apply (map_nth_error (format_d 6) j _ Hint).
  - intros Hne. rewrite Hint. congruence.
Qed.

Lemma C1_witness :
  nth_error (row_to_ints [S754_nan; two_and_a_half; S754_nan]) 0
    = Some 0 /\
  nth_error (map (format_d 6)
               (row_to_ints (map (data4 energy1 0 1 1) (range 3)))) 0
    = Some "     0".
Proof.
  pose proof (C1_nan_sample_written_as_zero (CONFIG "/w") "/w" energy1
                0 1 1 0 (map (data4 energy1 0 1 1) (range 3))
                eq_refl eq_refl) as H.
  split; [reflexivity|]. apply H.
Defined.

(** C2 (as the code has it): a finite energy value that lies within
    the range of a signed 64-bit integer is written as the nearest
    integer, a tie going to the even neighbour; in particular 2.5 is
    written as 2 and 3.5 as 4. *)
Theorem C2_finite_values_round_half_even (x : float) :
  is_finite x = true ->
  fits_int64 (to_Q x) ->
  is_round_half_even (to_Q x) (sample_to_int x) /\
  row_to_ints [two_and_a_half; three_and_a_half] = [2; 4].
Proof.
  intros Hfin Hfit. split; [|reflexivity].
  destruct x as [s|s| |s m e]; try discriminate.
  - destruct s; (split; [vm_compute; discriminate | intros _; reflexivity]).
  - rewrite sample_to_int_finite.
    destruct (rounded_magnitude_spec s m e) as [Hr Hin].
    cbv zeta in Hr, Hin. rewrite (Hin Hfit). exact Hr.
Qed.

Lemma C2_witness :
  is_round_half_even (to_Q two_and_a_half) 2 /\
  is_round_half_even (to_Q three_and_a_half) 4.
Proof.
  split.
  - apply (C2_finite_values_round_half_even two_and_a_half eq_refl).
    split; vm_compute; discriminate.
  - apply (C2_finite_values_round_half_even three_and_a_half eq_refl).
    split; vm_compute; discriminate.
Defined.

(** C2 as stated fails: 1e19 is a non-NaN energy value, its nearest
    integer is 10^19, and what is written is -9223372036854775808; no
    64-bit integer is 1e19 rounded. *)
Lemma C2_counterexample_value_beyond_int64 :
  is_nan ten_to_19 = false /\
  is_finite ten_to_19 = true /\
  is_round_half_even (to_Q ten_to_19) (10 ^ 19) /\
  row_str (row_to_ints [ten_to_19]) = "-9223372036854775808" /\
  ~ is_round_half_even (to_Q ten_to_19) (sample_to_int ten_to_19) /\
  (forall z, in_int64 z = true -> ~ is_round_half_even (to_Q ten_to_19) z).
Proof.
  assert (Hv : is_round_half_even (to_Q ten_to_19) (10 ^ 19)).
  { split.
    - apply Qabs_diff_half. vm_compute. discriminate.
    - intros _. reflexivity. }
  split; [reflexivity|]. split; [reflexivity|]. split; [exact Hv|].
  split; [reflexivity|]. split.
  - intros H.
    pose proof (is_round_half_even_unique _ _ _ H Hv) as Heq.
    vm_compute in Heq. discriminate.
  - intros z Hz H.
    pose proof (is_round_half_even_unique _ _ _ H Hv) as Heq.
    subst z. vm_compute in Hz. discriminate.
Qed.

End Claims_samples.

Section Claims_time.
Import Text Py DateTime Spec.



End Claims_time.

Section Claims_layout.
Import Text Float Py DateTime Netcdf Sp2 Spec Layout Examples.

Lemma nth_error_after {A} (xs ys : list A) (k : nat) :
  nth_error (xs ++ ys) (length xs + k) = nth_error ys k.
Proof.
  rewrite nth_error_app2 by lia. f_equal. lia.
Qed.







End Claims_layout.

Section Claims_structure.
Import Text Float Py DateTime Netcdf Sp2 Spec Layout Examples.

(** C7: for every well-formed dataset the conversion writes without
    raising; the location, frequency and direction counts of the header
    are the lengths of the longitude, frequency and direction arrays
    (each in a six-character field, followed by that many value
    lines); and after the header every time step is its time line
    followed by one data block (FACTOR tag, factor value, one matrix
    line per frequency) per location: exactly as many FACTOR tags as
    locations, and in the whole body as many as time steps times
    locations. *)
Theorem C7_header_counts_and_blocks
    (cfg : Config) (ds : Dataset) (lons lats freqs dirns : list float)
    (times : list datetime64) (energy : ndarray4) :
  well_formed ds lons lats freqs dirns times energy ->
  let L := length lons in
  let F := length freqs in
  let D := length dirns in
  let factors := factors_of ds (length times) L in
  let out := written (write_sp2 cfg ds energy factors L) in
  prepare ds = inr (energy, factors, L) /\
  outcome (write_sp2 cfg ds energy factors L) = inr tt /\
  out = header cfg L lons lats freqs dirns ++
        body times energy factors L F D /\
  nth_error out 6 = Some (count_line L "number of locations") /\
  length (map coordinate_line (combine lons lats)) = L /\
  nth_error out (8 + L) = Some (count_line F "number of frequencies") /\
  nth_error out (10 + L + F) = Some (count_line D "number of directions") /\
  length (header cfg L lons lats freqs dirns) = (16 + L + F + D)%nat /\
  (forall t, (t < length times)%nat ->
     timestep_block times energy factors L F D t =
     time_line (nth t times NaT) ::
     flat_map (location_block energy factors F D t) (range L) /\
     length (range L) = L /\
     count_blocks (timestep_block times energy factors L F D t) = L) /\
  count_blocks (body times energy factors L F D) = (length times * L)%nat.
Proof.
  intros Hwf L F D factors out.
  assert (Hcoords : length (map coordinate_line (combine lons lats)) = L).
  { rewrite length_map, length_combine.
    rewrite (wf_locations _ _ _ _ _ _ _ Hwf). subst L. lia. }
  assert (Hw : write_sp2 cfg ds energy factors L =
               (header cfg L lons lats freqs dirns ++
                body times energy factors L F D, inr tt))
    by exact (write_sp2_ok cfg ds _ _ _ _ _ _ Hwf).
  assert (Hout : out = header cfg L lons lats freqs dirns ++
                       body times energy factors L F D).
  { subst out. now rewrite Hw. }
  assert (Hhead : header cfg L lons lats freqs dirns =
            identification cfg ++
            [ "LONLAT                                  locations in spherical coordinates" +:+ nl;
              count_line L "number of locations" ] ++
            map coordinate_line (combine lons lats) ++
            [ "AFREQ                                   absolute frequencies in Hz" +:+ nl;
              count_line F "number of frequencies" ] ++
            map value_line freqs ++
            [ "NDIR                                    spectral nautical directions in degr" +:+ nl;
              count_line D "number of directions" ] ++
            map value_line dirns ++ quantities cfg).
  { unfold header, locations, frequencies, directions.
    now rewrite <- !app_assoc. }
  split; [exact (prepare_ok ds _ _ _ _ _ _ Hwf)|].
  split.
  { now rewrite Hw. }
  split; [exact Hout|].
  split.
  { rewrite Hout, Hhead. reflexivity. }
  split; [exact Hcoords|].
  split.
  { rewrite Hout, Hhead.
    match goal with
    | |- nth_error ((?a ++ ?b ++ ?c ++ [?d; ?e] ++ ?r) ++ ?r') _ = _ =>
        replace ((a ++ b ++ c ++ [d; e] ++ r) ++ r')
          with ((a ++ b ++ c ++ [d]) ++ e :: (r ++ r'))
          by (rewrite <- !app_assoc; reflexivity)
    end.
    apply nth_error_middle.
    rewrite !length_app, Hcoords. cbn [length identification]. lia. }
  split.
  { rewrite Hout, Hhead.
    match goal with
    | |- nth_error ((?a ++ ?b ++ ?c ++ ?d ++ ?e ++ [?f; ?g] ++ ?r) ++ ?r') _
         = _ =>
        replace ((a ++ b ++ c ++ d ++ e ++ [f; g] ++ r) ++ r')
          with ((a ++ b ++ c ++ d ++ e ++ [f]) ++ g :: (r ++ r'))
          by (rewrite <- !app_assoc; reflexivity)
    end.
    apply nth_error_middle.
    rewrite !length_app, Hcoords, length_map. cbn [length identification].
    subst F. lia. }
  split.
  { rewrite Hhead, !length_app, Hcoords, !length_map.
    cbn [length identification quantities]. subst F D. lia. }
  split.
  { intros t Ht. split; [reflexivity|]. split; [apply length_range|].
    apply count_blocks_timestep. }
  apply count_blocks_body.
Qed.

Lemma C7_witness :
  nth_error (written (write_sp2 (CONFIG "/w") ds1 energy1 (ones 1 2) 2)) 6
    = Some ("     2                                  number of locations" +:+ nl) /\
  count_blocks (body [DT 1710482430750000000] energy1 (ones 1 2) 2 2 3)
    = 2%nat.
Proof.
  assert (Hwf : well_formed ds1 [of_Z 1; of_Z 2] [of_Z 3; of_Z 4]
                  [two_and_a_half; of_Z 1] [of_Z 0; of_Z 90; of_Z 180]
                  [DT 1710482430750000000] energy1).
  { constructor; reflexivity || exact I. }
  pose proof (C7_header_counts_and_blocks (CONFIG "/w") ds1 _ _ _ _ _
                energy1 Hwf) as H.
  cbv zeta in H.
  destruct H as (_ & _ & _ & H6 & _ & _ & _ & _ & _ & Hb).
  split; [exact H6|exact Hb].
Defined.

(** C8 as stated fails: an integer outside -99999..999999 takes more
    than six characters, so the fields are not all six wide. *)
Lemma C8_counterexample_wide_field :
  row_str (row_to_ints [of_Z 1234567; of_Z (-123456)]) = "1234567 -123456" /\
  String.length (format_d 6 (sample_to_int (of_Z 1234567))) = 7%nat /\
  ~ (forall row : list float,
       List.Forall (fun field => String.length field = 6%nat)
                   (map (format_d 6) (row_to_ints row))).
Proof.
  split; [vm_compute; reflexivity|]. split; [vm_compute; reflexivity|].
  intros H. specialize (H [of_Z 1234567]).
  apply List.Forall_inv in H. vm_compute in H. discriminate H.
Qed.

(** C8 (as the code has it): for every (timestep, location) of a
    well-formed dataset the energy matrix is written after the factor
    as one line per frequency, in array order; each line holds one
    integer per direction, in array order, joined by single spaces;
    each integer is right-justified in a field of at least six
    characters, exactly six when it lies between -99999 and 999999. *)
Theorem C8_matrix_lines
    (ds : Dataset) (lons lats freqs dirns : list float)
    (times : list datetime64) (energy : ndarray4) (t p : nat) :
  well_formed ds lons lats freqs dirns times energy ->
  (t < length times)%nat -> (p < length lons)%nat ->
  let F := length freqs in
  let D := length dirns in
  let factors := factors_of ds (length times) (length lons) in
  let out := written (write_location ds energy factors t p) in
  out = ("FACTOR" +:+ nl) :: factor_line factors t p ::
        map (matrix_line energy D t p) (range F) /\
  length out = (2 + F)%nat /\
  forall fr, (fr < F)%nat ->
    let ints :=
      map (fun d => sample_to_int (data4 energy t p fr d)) (range D) in
    nth_error out (2 + fr)
      = Some (Text.join " " (map (format_d 6) ints) +:+ nl) /\
    length ints = D /\
    List.Forall
      (fun v => (6 <= String.length (format_d 6 v))%nat /\
                (-99999 <= v <= 999999 ->
                 String.length (format_d 6 v) = 6%nat)) ints.
Proof.
  intros Hwf Ht Hp F D factors out.
  assert (Hout : out = ("FACTOR" +:+ nl) :: factor_line factors t p ::
                       map (matrix_line energy D t p) (range F)).
  { pose proof (factors_of_shape _ _ _ _ _ _ _ Hwf) as Hsf.
    assert (Hw : write_location ds energy factors t p =
                 (location_block energy factors F D t p, inr tt)).
    { apply (write_location_ok ds energy factors freqs _ _ _ _ _ _ t p
               (wf_frequency _ _ _ _ _ _ _ Hwf)
               (wf_shape _ _ _ _ _ _ _ Hwf) Hsf); lia. }
    subst out. rewrite Hw. reflexivity. }
  split; [exact Hout|]. split.
  { rewrite Hout. cbn [length]. now rewrite length_map, length_range. }
  intros fr Hfr ints. split.
  { rewrite Hout. cbn [Nat.add nth_error].
    rewrite (map_nth_error _ fr (range F) (nth_error_range F fr Hfr)).
    unfold matrix_line, row_str. subst ints.
    rewrite row_to_ints_map.
    rewrite (List.map_map (data4 energy t p fr) sample_to_int).
    reflexivity. }
  split.
  { subst ints. now rewrite length_map, length_range. }
  apply List.Forall_forall. intros v _. split.
  - apply format_d_min_width.
  - apply format_d_6_exact.
Qed.

Lemma C8_witness :
  nth_error (written (write_location ds1 energy1 (ones 1 2) 0 1)) 3
    = Some ("     0    111    112" +:+ nl).
Proof.
  assert (Hwf : well_formed ds1 [of_Z 1; of_Z 2] [of_Z 3; of_Z 4]
                  [two_and_a_half; of_Z 1] [of_Z 0; of_Z 90; of_Z 180]
                  [DT 1710482430750000000] energy1).
  { constructor; reflexivity || exact I. }
  pose proof (C8_matrix_lines ds1 _ _ _ _ _ energy1 0 1 Hwf
                ltac:(cbn [length]; lia) ltac:(cbn [length]; lia)) as H.
  cbv zeta in H. destruct H as (_ & _ & H).
  exact (proj1 (H 1%nat ltac:(cbn [length]; lia))).
Defined.

End Claims_structure.

(** ** Claims about validation, determinism and the batch *)

Section Claims_batch.
Import Text Float Py DateTime Netcdf Logging Os Sp2 Layout Batch Examples.





(** C10: when a required variable is missing, the conversion returns
    False and leaves every file and every directory as it was: neither
    the output file nor its directory is created; only the log grows,
    by the one error of the validation. *)
Theorem C10_validation_failure_leaves_output_unchanged
    (env : Env) (cfg : Config) (input_path output_path : string)
    (w : World) (ds : Dataset) :
  open_dataset env input_path = inr ds ->
  (exists v, missing ds v) ->
  let result := convert_netcdf_to_sp2 env cfg input_path output_path w in
  snd (validate_netcdf ds) = false /\
  snd result = false /\
  files (fst result) = files w /\
  dirs (fst result) = dirs w /\
  exists_ output_path (fst result) = exists_ output_path w /\
  exists_ (dirname output_path) (fst result) =
  exists_ (dirname output_path) w /\
  log (fst result) = log w ++ fst (validate_netcdf ds).
Proof.
  intros Hopen Hmiss result.
  destruct (validate_netcdf_missing ds Hmiss)
    as (pre & var & post & _ & _ & _ & Hval).
  assert (Hres : result =
                 (add_log [error ("Missing required variable: " +:+ var)] w,
                  false))
    by exact (convert_invalid env cfg input_path output_path w ds _
                Hopen Hval).
  rewrite Hres, Hval. cbn [fst snd].
  split; [reflexivity|]. split; [reflexivity|]. split; [reflexivity|].
  split; [reflexivity|]. split; [reflexivity|]. split; reflexivity.
Qed.

Lemma C10_witness :
  convert_netcdf_to_sp2 env1 (CONFIG "/w") "/w/esp_a.nc"
    "/w/converted_sp2_files/esp_a.sp2" world0 =
  ({| files := ∅; dirs := ∅;
      log := [error "Missing required variable: direction"] |}, false).
Proof.
  assert (Hmiss : exists v, missing ds_no_direction v).
  { exists "direction". split; vm_compute; [tauto|reflexivity]. }
  pose proof (C10_validation_failure_leaves_output_unchanged env1
                (CONFIG "/w") "/w/esp_a.nc"
                "/w/converted_sp2_files/esp_a.sp2" world0 ds_no_direction
                eq_refl Hmiss) as H.
  cbv zeta in H. destruct H as (_ & Hok & Hf & Hd & _ & _ & Hl).
  destruct (convert_netcdf_to_sp2 env1 (CONFIG "/w") "/w/esp_a.nc"
              "/w/converted_sp2_files/esp_a.sp2" world0) as [[f d l] ok].
  cbn [fst snd files dirs log] in Hok, Hf, Hd, Hl.
  rewrite Hok, Hf, Hd, Hl. reflexivity.
Defined.

(** The whole script on a directory with an incomplete file, a
    complete one and a file that is not selected. *)
Example main_on_two_files :
  exists w,
    main env1 (CONFIG "/w") world0 = inr w /\
    map fst (map_to_list (files w)) = ["/w/converted_sp2_files/esp_b.sp2"] /\
    files w !! "/w/converted_sp2_files/esp_b.sp2" =
    Some (sp2_text (CONFIG "/w") ds1 [of_Z 1; of_Z 2] [of_Z 3; of_Z 4]
            [Spec.two_and_a_half; of_Z 1] [of_Z 0; of_Z 90; of_Z 180]
            [DT 1710482430750000000] energy1) /\
    map snd (log w) =
    [ "SWAN NetCDF to SP2 Conversion Tool";
      "Started at 2024-03-15 06:00:30";
      "Found 2 NetCDF files to process";
      "Missing required variable: direction";
      "Successfully converted: esp_b.nc";
      nl +:+ "Conversion Summary:";
      "- Total files processed: 2";
      "- Successfully converted: 1";
      "- Output directory: /w/converted_sp2_files";
      "Log file saved to: conversion_log.txt" ].
Proof.
  eexists. split; [vm_compute; reflexivity|].
  split; [vm_compute; reflexivity|]. split; vm_compute; reflexivity.
Qed.

End Claims_batch.

(* ===================================================================== *)
(** * Further properties of the script                                  *)
(* ===================================================================== *)

(** ** What one conversion may change *)

Section Effects.
Import Text Float Py DateTime Netcdf Logging Os Sp2 Layout Batch Records.

Lemma validate_netcdf_cases (ds : Dataset) :
  validate_netcdf ds = ([], true) \/
  exists var, missing ds var /\
    validate_netcdf ds =
    ([error ("Missing required variable: " +:+ var)], false).
Proof.
  destruct (snd (validate_netcdf ds)) eqn:Hv.
  - left. now apply validate_netcdf_true.
  - right.
    destruct (validate_netcdf_missing ds (validate_netcdf_false ds Hv))
      as (pre & var & post & _ & _ & Hm & Hval).
    exists var. now split.
Qed.

Variable env : Env.
Variable cfg : Config.

Local Ltac reported :=
  eexists; split; [reflexivity|];
  eexists; split; [reflexivity|];
  first [right; eexists; reflexivity
        |left; eexists; eexists; split; [reflexivity|]; split;
         [eassumption|reflexivity]].

Local Ltac failed_early :=
  cbn [fst snd add_log files dirs log];
  split; [reported|];
  split; [reflexivity|]; split; [reflexivity|apply union_subseteq_r].

Local Ltac failed_late :=
  cbn [fst snd add_log close_with files dirs log];
  split; [reported|];
  split; [intros p Hp; rewrite ?lookup_insert_ne by congruence; reflexivity|];
  split; [apply union_subseteq_r|reflexivity].

(** One conversion: the log grows by nothing (True) or by one error
    (False); no file but the output changes; no directory but the
    output's is added. *)
Lemma convert_effect (input_path output_path : string) (w : World) :
  let w' := fst (convert_netcdf_to_sp2 env cfg input_path output_path w) in
  let ok := snd (convert_netcdf_to_sp2 env cfg input_path output_path w) in
  (exists rs,
     log w' = log w ++ rs /\
     (if ok then rs = []
      else exists msg,
        rs = [error msg] /\
        ((exists ds var,
            open_dataset env input_path = inr ds /\ missing ds var /\
            msg = "Missing required variable: " +:+ var) \/
         (exists e,
            msg = "Error processing " +:+ basename input_path +:+ ": " +:+
                  str_exn e)))) /\
  (forall p, p <> output_path -> files w' !! p = files w !! p) /\
  dirs w ⊆ dirs w' /\
  dirs w' ⊆ {[ dirname output_path ]} ∪ dirs w.
Proof.
  cbv zeta. unfold convert_netcdf_to_sp2, handler.
  destruct (open_dataset env input_path) as [e|ds]; [failed_early|].
  destruct (validate_netcdf_cases ds) as [->|(var & Hvar & ->)]; cbn [negb];
    [|failed_early].
  rewrite add_log_nil.
  destruct (prepare ds) as [e|[[energy factors] nloc]]; [failed_early|].
  destruct (makedirs (dirname output_path) w) as [e|w1] eqn:Hmk;
    [failed_early|].
  destruct (makedirs_inv _ _ _ Hmk) as (_ & _ & ->).
  destruct (open_w output_path _) as [e|w2] eqn:Hop; [failed_late|].
  destruct (open_w_inv _ _ _ Hop) as (_ & _ & ->).
  destruct (write_sp2 cfg ds energy factors nloc) as [out [e|[]]];
    [failed_late|].
  cbn [fst snd add_log close_with files dirs log].
  split; [exists []; split; [symmetry; apply app_nil_r|reflexivity]|].
  split; [intros p Hp; rewrite !lookup_insert_ne by congruence; reflexivity|].
  split; [apply union_subseteq_r|reflexivity].
Qed.

Lemma startswith_append (pre s : string) : startswith (pre +:+ s) pre = true.
Proof.
  unfold startswith. induction pre as [|a pre IH]; [now destruct s|].
  rewrite append_cons. cbn [String.prefix].
  destruct (ascii_dec a a) as [_|Hne]; [exact IH|now destruct Hne].
Qed.

(** One turn of the loop of [main] logs exactly one record, counts the
    file when that record reports a success, and touches no file but
    the output of this name. *)
Lemma process_file_effect (filename : string) (w : World) (n : nat) :
  let st' := process_file env cfg filename (w, n) in
  (exists r, log (fst st') = log w ++ [r] /\ turn_record filename r /\
             snd st' = ((if is_success r then 1 else 0) + n)%nat) /\
  (forall p, p <> output_path_of cfg filename ->
             files (fst st') !! p = files w !! p) /\
  dirs w ⊆ dirs (fst st') /\
  (overwrite cfg = false -> files w ⊆ files (fst st')).
Proof.
  cbv zeta. unfold process_file.
  destruct (negb (overwrite cfg) &&
            exists_ (output_path_of cfg filename) w) eqn:Hskip.
  - cbn [fst snd add_log files dirs log].
    split; [eexists; split; [reflexivity|split; [now left|reflexivity]]|].
    split; [reflexivity|]. split; [reflexivity|]. intros _. reflexivity.
  - pose proof (convert_effect (Os.join (input_dir cfg) filename)
                  (output_path_of cfg filename) w) as H.
    cbv zeta in H.
    destruct (convert_netcdf_to_sp2 env cfg _ _ w) as [w' ok].
    cbn [fst snd] in H. destruct H as ((rs & Hlog & Hrs) & Hfr & Hd & _).
    assert (Hsub : overwrite cfg = false -> files w ⊆ files w').
    { intros Hov. rewrite Hov in Hskip. cbn [negb andb] in Hskip.
      unfold exists_ in Hskip. apply orb_false_elim in Hskip as [_ Hf].
      apply bool_decide_eq_false in Hf.
      apply map_subseteq_spec. intros p c Hp.
      destruct (decide (p = output_path_of cfg filename)) as [->|Hne].
      - destruct Hf. now exists c.
      - now rewrite (Hfr p Hne). }
    destruct ok.
    + subst rs. cbn [fst snd add_log files dirs log].
      rewrite app_nil_r in Hlog. rewrite Hlog.
      split; [eexists; split; [reflexivity|split; [now right; right|]]|].
      { unfold is_success, info. cbn [fst snd].
        now rewrite startswith_append. }
      split; [exact Hfr|]. split; [exact Hd|exact Hsub].
    + destruct Hrs as (msg & -> & _). cbn [fst snd].
      split; [eexists; split; [exact Hlog|split; [|reflexivity]]|].
      { right. left. now exists msg. }
      split; [exact Hfr|]. split; [exact Hd|exact Hsub].
Qed.

(** The loop over the files. *)
Lemma process_files_effect (names : list string) (w : World) (n : nat) :
  let st' := process_files env cfg names (w, n) in
  (exists rs, log (fst st') = log w ++ rs /\
              List.Forall2 turn_record names rs /\
              snd st' = (length (List.filter is_success rs) + n)%nat) /\
  (forall p, (forall f, In f names -> p <> output_path_of cfg f) ->
             files (fst st') !! p = files w !! p) /\
  dirs w ⊆ dirs (fst st') /\
  (overwrite cfg = false -> files w ⊆ files (fst st')).
Proof.
  cbv zeta. revert w n. induction names as [|f names IH]; intros w n.
  - cbn [process_files fold_left fst snd].
    split; [exists []; split; [symmetry; apply app_nil_r|]|].
    { split; [constructor|reflexivity]. }
    split; [reflexivity|]. split; [reflexivity|]. intros _. reflexivity.
  - change (process_files env cfg (f :: names) (w, n))
      with (process_files env cfg names (process_file env cfg f (w, n))).
    pose proof (process_file_effect f w n) as H1. cbv zeta in H1.
    destruct (process_file env cfg f (w, n)) as [w1 n1].
    cbn [fst snd] in H1.
    destruct H1 as ((r & Hlog1 & Hr & Hn1) & Hfr1 & Hd1 & Hs1).
    destruct (IH w1 n1) as ((rs & Hlog & Hall & Hn) & Hfr & Hd & Hs).
    split; [|split; [|split]].
    + exists (r :: rs). rewrite Hlog, Hlog1, <- app_assoc.
      split; [reflexivity|]. split; [now constructor|].
      rewrite Hn, Hn1. cbn [List.filter].
      destruct (is_success r); cbn [length]; lia.
    + intros p Hp. rewrite Hfr by (intros g Hg; apply Hp; now right).
      apply Hfr1, Hp. now left.
    + etransitivity; [exact Hd1|exact Hd].
    + intros Hov. etransitivity; [exact (Hs1 Hov)|exact (Hs Hov)].
Qed.

End Effects.

(** ** The conversion and the batch, seen from the file system *)

Section World_properties.
Import Text Float Py DateTime Netcdf Logging Os Sp2 Layout Batch Records
       Examples Cases.







(** X5: When some file is selected, [main] logs exactly one record per
    selected name, in the order of the listing, between the announcement
    and the summary: the name was skipped, its conversion failed, or it
    was converted.  The summary reports the number of selected names as
    processed and the number of success records as converted. *)
Theorem main_accounts_for_every_file
    (env : Env) (cfg : Config) (w w' : World) :
  main env cfg w = inr w' ->
  netcdf_files env cfg <> [] ->
  let total := length (netcdf_files env cfg) in
  exists rs,
    log w' =
    log w ++ setup_logging env ++
    [info ("Found " +:+ str_nat total +:+ " NetCDF files to process")] ++
    rs ++ summary env cfg total (length (List.filter is_success rs)) /\
    List.Forall2 turn_record (netcdf_files env cfg) rs /\
    length rs = total /\
    (length (List.filter is_success rs) <= total)%nat.
Proof.
  intros Hmain Hne total. unfold main in Hmain.
  destruct (makedirs (output_dir cfg) (add_log (setup_logging env) w))
    as [e|w1] eqn:Hmk; [discriminate|].
  destruct (makedirs_inv _ _ _ Hmk) as (_ & _ & ->).
  subst total.
  destruct (netcdf_files env cfg) as [|f names] eqn:Hnames;
    [now destruct Hne|].
  set (w1 := add_log _ _) in Hmain.
  pose proof (process_files_effect env cfg (f :: names) w1 O) as H.
  cbv zeta in H.
  destruct (process_files env cfg (f :: names) (w1, O)) as [w2 k].
  cbn [fst snd] in H. destruct H as ((rs & Hlog & Hall & Hk) & _).
  assert (Hlen : length rs = length (f :: names))
    by (symmetry; eapply Forall2_length; exact Hall).
  injection Hmain as <-. exists rs. split; [|split; [|split]].
  - cbn [add_log log]. rewrite Hlog. subst w1. cbn [add_log log].
    rewrite Hk, Nat.add_0_r, <- !app_assoc. reflexivity.
  - exact Hall.
  - exact Hlen.
  - rewrite <- Hlen. apply filter_length_le.
Qed.

Lemma main_accounts_for_every_file_witness :
  let total := length (netcdf_files env1 (CONFIG "/w")) in
  exists w' rs,
    main env1 (CONFIG "/w") world0 = inr w' /\
    length rs = total /\
    (length (List.filter is_success rs) <= total)%nat.
Proof.
  intros total.
  set (w' := match main env1 (CONFIG "/w") world0 with
             | inr w' => w' | inl _ => world0 end).
  assert (Hm : main env1 (CONFIG "/w") world0 = inr w')
    by (vm_compute; reflexivity).
  assert (Hne : netcdf_files env1 (CONFIG "/w") <> [])
    by (vm_compute; discriminate).
  pose proof (main_accounts_for_every_file env1 (CONFIG "/w") world0 w'
                Hm Hne) as H.
  cbv zeta in H. destruct H as (rs & _ & _ & Hlen & Hle).
  exists w', rs. split; [exact Hm|]. split; [exact Hlen|exact Hle].
Defined.



Lemma process_files_all_skipped (env : Env) (cfg : Config)
      (names : list string) (w : World) (n : nat) :
  overwrite cfg = false ->
  (forall f, In f names -> exists_ (output_path_of cfg f) w = true) ->
  process_files env cfg names (w, n) =
  (add_log (map (fun f => info ("Skipping existing file: " +:+ f)) names) w,
   n).
Proof.
  intros Hov. revert w. induction names as [|f names IH]; intros w Hex.
  - cbn [process_files fold_left map]. now rewrite add_log_nil.
  - change (process_files env cfg (f :: names) (w, n))
      with (process_files env cfg names (process_file env cfg f (w, n))).
    unfold process_file at 1. rewrite Hov, (Hex f) by now left.
    cbn [negb andb]. rewrite IH.
    + unfold add_log. cbn [files dirs log map].
      now rewrite <- app_assoc.
    + intros g Hg. specialize (Hex g (or_intror Hg)).
      unfold exists_, add_log in *. exact Hex.
Qed.



End World_properties.

(** ** Validation and the shapes it does not look at *)

Section Shapes.
Import Text Float Py DateTime Netcdf Logging Os Sp2 Spec Layout Batch Records
       Examples Cases Fit.

(** X8: Validation accepts a dataset exactly when it has the six required
    variables, whatever else it has; when it rejects one, the single
    error it logs names the first absent variable in the order
    longitude, latitude, frequency, direction, energy_density, time. *)
Theorem validate_netcdf_accepts_iff_complete (ds : Dataset) :
  (snd (validate_netcdf ds) = true <->
   longitude ds <> None /\ latitude ds <> None /\ frequency ds <> None /\
   direction ds <> None /\ energy_density ds <> None /\ time ds <> None) /\
  (validate_netcdf ds = ([], true) \/
   exists before var after,
     required_vars = before ++ var :: after /\
     (forall v, In v before -> contains (variables ds) v = true) /\
     contains (variables ds) var = false /\
     validate_netcdf ds =
     ([error ("Missing required variable: " +:+ var)], false)).
Proof.
  split.
  - destruct ds as [[lo|] [la|] [fr|] [di|] [en|] [ti|] [fa|]];
      cbn [longitude latitude frequency direction energy_density time];
      (split; [intros H; first [discriminate H
                               |repeat split; discriminate]
              |intros (H1 & H2 & H3 & H4 & H5 & H6);
               first [reflexivity|congruence]]).
  - destruct (snd (validate_netcdf ds)) eqn:Hv.
    + left. now apply validate_netcdf_true.
    + right.
      destruct (validate_netcdf_missing ds (validate_netcdf_false ds Hv))
        as (pre & var & post & Heq & Hpre & [_ Hm] & Hval).
      exists pre, var, post. split; [exact Heq|]. split; [exact Hpre|].
      split; [exact Hm|exact Hval].
Qed.

(** X9: The header has one coordinate line per pair of a longitude and a
    latitude, that is as many as the shorter of the two arrays has
    entries, whatever count [nloc] the line above them announces; it is
    written without raising.  The conversion passes the number of
    longitudes as [nloc]: with fewer latitudes than longitudes the file
    announces more locations than it lists. *)
Theorem header_lists_the_shorter_of_longitude_and_latitude
    (cfg : Config) (ds : Dataset) (nloc : nat)
    (lons lats freqs dirns : list float) :
  longitude ds = Some lons -> latitude ds = Some lats ->
  frequency ds = Some freqs -> direction ds = Some dirns ->
  let coordinates := map coordinate_line (combine lons lats) in
  outcome (write_sp2_header cfg ds nloc) = inr tt /\
  written (write_sp2_header cfg ds nloc) =
    identification cfg ++
    [ "LONLAT                                  locations in spherical coordinates" +:+ nl;
      count_line nloc "number of locations" ] ++
    coordinates ++
    frequencies freqs ++ directions dirns ++ quantities cfg /\
  length coordinates = Nat.min (length lons) (length lats) /\
  (forall i lon lat,
     nth_error lons i = Some lon -> nth_error lats i = Some lat ->
     nth_error (written (write_sp2_header cfg ds nloc)) (7 + i) =
     Some (format_f 10 4 lon +:+ " " +:+ format_f 10 4 lat +:+ nl)) /\
  ((length lats < length lons)%nat -> nloc = length lons ->
   (length coordinates < nloc)%nat).
Proof.
  intros Hlon Hlat Hfr Hdir coordinates.
  rewrite (write_sp2_header_ok cfg ds nloc _ _ _ _ Hlon Hlat Hfr Hdir).
  unfold outcome, written. cbn [fst snd].
  assert (Hlen : length coordinates = Nat.min (length lons) (length lats)).
  { subst coordinates. now rewrite length_map, length_combine. }
  split; [reflexivity|]. split.
  { unfold header, locations. now rewrite <- !app_assoc. }
  split; [exact Hlen|]. split.
  - intros i lon lat Hi Hj.
    unfold header, locations.
    change (identification cfg ++ ?r) with
      (firstn 5 (identification cfg) ++ r).
    cbn [identification firstn app Nat.add nth_error].
    rewrite nth_error_app1.
    + change (format_f 10 4 lon +:+ " " +:+ format_f 10 4 lat +:+ nl)
        with (coordinate_line (lon, lat)).
      apply (map_nth_error coordinate_line i (combine lons lats)).
      clear - Hi Hj. revert lats i Hi Hj.
      induction lons as [|a lons IH]; intros [|b lats] [|i] Hi Hj;
        try discriminate; cbn [combine nth_error] in *.
      * congruence.
      * now apply IH.
    + fold coordinates. rewrite Hlen.
      assert (i < length lons)%nat
        by (apply nth_error_Some; rewrite Hi; discriminate).
      assert (i < length lats)%nat
        by (apply nth_error_Some; rewrite Hj; discriminate).
      lia.
  - intros Hlt ->. rewrite Hlen. lia.
Qed.

Lemma header_lists_the_shorter_of_longitude_and_latitude_witness :
  length (map coordinate_line [(of_Z 1, of_Z 3)]) = 1%nat /\
  nth_error (written (write_sp2_header (CONFIG "/w") ds_fewer_latitudes 2)) 6
  = Some ("     2                                  number of locations" +:+ nl) /\
  nth_error (written (write_sp2_header (CONFIG "/w") ds_fewer_latitudes 2)) 7
  = Some ("    1.0000     3.0000" +:+ nl) /\
  nth_error (written (write_sp2_header (CONFIG "/w") ds_fewer_latitudes 2)) 8
  = Some ("AFREQ                                   absolute frequencies in Hz" +:+ nl).
Proof.
  pose proof (header_lists_the_shorter_of_longitude_and_latitude
                (CONFIG "/w") ds_fewer_latitudes 2
                [of_Z 1; of_Z 2] [of_Z 3] [two_and_a_half; of_Z 1]
                [of_Z 0; of_Z 90; of_Z 180]
                eq_refl eq_refl eq_refl eq_refl) as H.
  cbv zeta in H. destruct H as (_ & Hw & Hlen & _ & _).
  split; [exact Hlen|].
  rewrite Hw. split; [vm_compute; reflexivity|].
  split; vm_compute; reflexivity.
Defined.

Lemma validate_netcdf_fits (ds : Dataset)
      (lons lats freqs dirns : list float) (times : list datetime64)
      (energy : ndarray4) (n0 n1 n2 n3 : nat) :
  fits ds lons lats freqs dirns times energy n0 n1 n2 n3 ->
  validate_netcdf ds = ([], true).
Proof.
  intros [Hlon Hlat Hfr Hdir Hti Hen _ _ _ _ _].
  unfold validate_netcdf, variables.
  rewrite Hlon, Hlat, Hfr, Hdir, Hti, Hen. reflexivity.
Qed.

Lemma prepare_fits (ds : Dataset)
      (lons lats freqs dirns : list float) (times : list datetime64)
      (energy : ndarray4) (n0 n1 n2 n3 : nat) :
  fits ds lons lats freqs dirns times energy n0 n1 n2 n3 ->
  prepare ds =
  inr (energy, factors_of ds (length times) (length lons), length lons).
Proof.
  intros [Hlon Hlat Hfr Hdir Hti Hen _ _ _ _ _].
  unfold prepare, factors_of, variables.
  rewrite Hlon, Hlat, Hfr, Hdir, Hti, Hen. cbn [attr name_if app].
  destruct (factor ds) as [fa|]; reflexivity.
Qed.

Lemma write_sp2_fits (cfg : Config) (ds : Dataset)
      (lons lats freqs dirns : list float) (times : list datetime64)
      (energy : ndarray4) (n0 n1 n2 n3 : nat) :
  fits ds lons lats freqs dirns times energy n0 n1 n2 n3 ->
  let factors := factors_of ds (length times) (length lons) in
  write_sp2 cfg ds energy factors (length lons) =
  (header cfg (length lons) lons lats freqs dirns ++
   body times energy factors (length lons) (length freqs) n3,
   inr tt).
Proof.
  intros [Hlon Hlat Hfr Hdir Hti Hen Hsh Ht Hl Hf Hfa] factors.
  assert (Hsf : exists m0 m1, shape2 factors = (m0, m1) /\
                  (length times <= m0)%nat /\ (length lons <= m1)%nat).
  { subst factors. unfold factors_of. destruct (factor ds) as [fa|].
    - destruct (shape2 fa) as [m0 m1]. now exists m0, m1.
    - exists (length times), (length lons). now split. }
  destruct Hsf as (m0 & m1 & Hsf & Hm0 & Hm1).
  unfold write_sp2.
  eapply bind_ok; [now apply write_sp2_header_ok|].
  rewrite Hti. cbn [attr]. rewrite bind_lift_ok.
  apply for_each_ok. intros t Hin. apply in_range in Hin.
  eapply write_timestep_ok; eauto; lia.
Qed.

(** X10: Shapes are never compared.  When the six variables are present and
    the energy array is at least as large as the time, longitude and
    frequency coordinates, the conversion succeeds: each block has one
    matrix line per frequency coordinate, rows of the array beyond them
    are left out, and each line holds one integer per entry of the last
    axis of the array, whatever number of directions the header
    announces. *)
Theorem larger_arrays_are_cut_to_the_coordinates
    (env : Env) (cfg : Config) (input_path output_path : string) (w : World)
    (ds : Dataset) (lons lats freqs dirns : list float)
    (times : list datetime64) (energy : ndarray4) (n0 n1 n2 n3 : nat) :
  open_dataset env input_path = inr ds ->
  fits ds lons lats freqs dirns times energy n0 n1 n2 n3 ->
  writable output_path w = true ->
  let L := length lons in
  let F := length freqs in
  let factors := factors_of ds (length times) L in
  let result := convert_netcdf_to_sp2 env cfg input_path output_path w in
  snd result = true /\
  files (fst result) !! output_path =
    Some (concat_all (header cfg L lons lats freqs dirns ++
                      body times energy factors L F n3)) /\
  nth_error (header cfg L lons lats freqs dirns)
            (10 + Nat.min L (length lats) + F) =
    Some (count_line (length dirns) "number of directions") /\
  (forall t p,
     location_block energy factors F n3 t p =
     ("FACTOR" +:+ nl) :: factor_line factors t p ::
     map (fun fr =>
            Text.join " "
              (map (format_d 6)
                   (map (fun d => sample_to_int (data4 energy t p fr d))
                        (range n3))) +:+ nl)
         (range F)) /\
  length (range F) = F /\ length (range n3) = n3.
Proof.
  intros Hopen Hfit Hwr L F factors result.
  destruct (writable_inv _ _ Hwr) as (w1 & w2 & Hmk & Hop & Hf & Hd & Hl).
  assert (Hres : result =
                 (close_with output_path
                    (header cfg L lons lats freqs dirns ++
                     body times energy factors L F n3) w2, true)).
  { apply (convert_steps env cfg input_path output_path w w1 w2 ds energy
             factors L _ Hopen
             (validate_netcdf_fits ds _ _ _ _ _ _ _ _ _ _ Hfit)
             (prepare_fits ds _ _ _ _ _ _ _ _ _ _ Hfit) Hmk Hop).
    exact (write_sp2_fits cfg ds _ _ _ _ _ _ _ _ _ _ Hfit). }
  rewrite Hres. cbn [fst snd close_with files].
  split; [reflexivity|]. split; [apply lookup_insert_eq|]. split.
  { unfold header, locations, frequencies, directions.
    change (identification cfg ++ ?r) with
      (firstn 5 (identification cfg) ++ r).
    cbn [identification firstn app].
    assert (Hc : length (map coordinate_line (combine lons lats)) =
                 Nat.min L (length lats))
      by (now rewrite length_map, length_combine).
    replace (10 + Nat.min L (length lats) + F)%nat
      with (7 + (length (map coordinate_line (combine lons lats)) +
                 (2 + (length (map value_line freqs) + 1))))%nat
      by (rewrite Hc, length_map; subst F; lia).
    cbn [Nat.add nth_error].
    rewrite nth_error_after. cbn [app Nat.add nth_error].
    rewrite nth_error_after. reflexivity. }
  split.
  { intros t p. unfold location_block. f_equal. f_equal.
    apply map_ext. intros fr. unfold matrix_line, row_str.
    now rewrite row_to_ints_map, (List.map_map (data4 energy t p fr)). }
  split; apply length_range.
Qed.

Lemma larger_arrays_are_cut_to_the_coordinates_witness :
  snd (convert_netcdf_to_sp2 env2 (CONFIG "/w") "/w/esp_d.nc"
         "/out/esp_d.sp2" world0) = true /\
  location_block energy_wide (ones 1 2) 2 5 0 1 =
  [ "FACTOR" +:+ nl; "1.0000000000000000e+00" +:+ nl;
    "     0    101    102    103    104" +:+ nl;
    "     0    111    112    113    114" +:+ nl ].
Proof.
  assert (Hfit : fits ds_wide_energy [of_Z 1; of_Z 2] [of_Z 3; of_Z 4]
                   [two_and_a_half; of_Z 1] [of_Z 0; of_Z 90; of_Z 180]
                   [DT 1710482430750000000] energy_wide 1 2 3 5).
  { constructor; try reflexivity; try exact I; cbn [length]; lia. }
  pose proof (larger_arrays_are_cut_to_the_coordinates env2 (CONFIG "/w")
                "/w/esp_d.nc" "/out/esp_d.sp2" world0 ds_wide_energy
                _ _ _ _ _ _ _ _ _ _ eq_refl Hfit
                ltac:(vm_compute; reflexivity)) as H.
  cbv zeta in H. destruct H as (Hok & _ & _ & Hblock & _).
  split; [exact Hok|].
  change (ones 1 2) with
    (factors_of ds_wide_energy (length [DT 1710482430750000000])
                (length [of_Z 1; of_Z 2])).
  change 2%nat with (length [two_and_a_half; of_Z 1]) at 1.
  rewrite Hblock. vm_compute. reflexivity.
Defined.

Lemma convert_write_raises (env : Env) (cfg : Config)
      (input_path output_path : string) (w w1 w2 : World)
      (ds : Dataset) (energy : ndarray4) (factors : ndarray2) (nloc : nat)
      (out : list string) (e : exn) :
  open_dataset env input_path = inr ds ->
  validate_netcdf ds = ([], true) ->
  prepare ds = inr (energy, factors, nloc) ->
  makedirs (dirname output_path) w = inr w1 ->
  open_w output_path w1 = inr w2 ->
  write_sp2 cfg ds energy factors nloc = (out, inl e) ->
  convert_netcdf_to_sp2 env cfg input_path output_path w =
  (add_log [error ("Error processing " +:+ basename input_path +:+ ": " +:+
                   str_exn e)]
     (close_with output_path out w2), false).
Proof.
  intros Hopen Hval Hprep Hmk Hop Hout.
  unfold convert_netcdf_to_sp2, handler.
  rewrite Hopen, Hval. cbn [negb].
  rewrite add_log_nil, Hprep, Hmk, Hop, Hout. reflexivity.
Qed.

(** X11: A conversion that raises while it writes (an array smaller than
    the coordinates say, for one) returns False after logging the
    exception, and leaves the output file with what was written before
    the exception; with [overwrite] False the next run finds that file
    and skips the input. *)
Theorem failed_write_leaves_a_partial_file
    (env : Env) (cfg : Config) (filename : string) (w : World)
    (ds : Dataset) (energy : ndarray4) (factors : ndarray2) (nloc : nat)
    (out : list string) (e : exn) :
  let input_path := Os.join (input_dir cfg) filename in
  let output_path := output_path_of cfg filename in
  open_dataset env input_path = inr ds ->
  snd (validate_netcdf ds) = true ->
  prepare ds = inr (energy, factors, nloc) ->
  writable output_path w = true ->
  write_sp2 cfg ds energy factors nloc = (out, inl e) ->
  let result := convert_netcdf_to_sp2 env cfg input_path output_path w in
  snd result = false /\
  files (fst result) !! output_path = Some (concat_all out) /\
  log (fst result) =
    log w ++ [error ("Error processing " +:+ basename input_path +:+ ": " +:+
                     str_exn e)] /\
  (overwrite cfg = false ->
   forall n,
     process_file env cfg filename (fst result, n) =
     (add_log [info ("Skipping existing file: " +:+ filename)] (fst result),
      n)).
Proof.
  intros input_path output_path Hopen Hval Hprep Hwr Hout result.
  destruct (writable_inv _ _ Hwr) as (w1 & w2 & Hmk & Hop & Hf & Hd & Hl).
  assert (Hres : result =
                 (add_log [error ("Error processing " +:+
                                  basename input_path +:+ ": " +:+ str_exn e)]
                    (close_with output_path out w2), false)).
  { exact (convert_write_raises env cfg input_path output_path w w1 w2 ds
             energy factors nloc out e Hopen (validate_netcdf_true ds Hval)
             Hprep Hmk Hop Hout). }
  assert (Hfile : files (fst result) !! output_path = Some (concat_all out)).
  { rewrite Hres. cbn [fst add_log close_with files].
    apply lookup_insert_eq. }
  split; [now rewrite Hres|]. split; [exact Hfile|]. split.
  { rewrite Hres. cbn [fst add_log close_with log]. now rewrite Hl. }
  intros Hov n. unfold process_file. fold output_path.
  rewrite Hov. unfold exists_. rewrite Hfile. cbn [negb andb].
  rewrite (bool_decide_eq_true_2 (is_Some (Some (concat_all out))))
    by (now eexists).
  rewrite orb_true_r. reflexivity.
Qed.

Lemma failed_write_leaves_a_partial_file_witness :
  let result :=
    convert_netcdf_to_sp2 env2 (CONFIG "/w")
      (Os.join (input_dir (CONFIG "/w")) "esp_c.nc")
      (output_path_of (CONFIG "/w") "esp_c.nc") world0 in
  snd result = false /\
  log (fst result) =
  [error "Error processing esp_c.nc: index 1 is out of bounds for axis 1 with size 1"] /\
  exists_ "/w/converted_sp2_files/esp_c.sp2" (fst result) = true.
Proof.
  intros result.
  pose proof (failed_write_leaves_a_partial_file env2 (CONFIG "/w")
                "esp_c.nc" world0 ds_small_energy energy_one_location
                (ones 1 2) 2
                (written (write_sp2 (CONFIG "/w") ds_small_energy
                            energy_one_location (ones 1 2) 2))
                (IndexError "index 1 is out of bounds for axis 1 with size 1")
                ltac:(vm_compute; reflexivity) ltac:(vm_compute; reflexivity)
                ltac:(vm_compute; reflexivity) ltac:(vm_compute; reflexivity)
                ltac:(vm_compute; reflexivity)) as H.
  cbv zeta in H. fold result in H. destruct H as (Hok & _ & Hlog & _).
  split; [exact Hok|]. split.
  - rewrite Hlog. vm_compute. reflexivity.
  - vm_compute. reflexivity.
Defined.

(** X12: A dataset without the optional [factor] variable is converted with
    the factor 1 at every time step and location: in every block the
    line after the FACTOR tag is 1.0000000000000000e+00. *)
Theorem absent_factor_is_written_as_one
    (ds : Dataset) (lons lats freqs dirns : list float)
    (times : list datetime64) (energy : ndarray4) (n0 n1 n2 n3 : nat) :
  fits ds lons lats freqs dirns times energy n0 n1 n2 n3 ->
  factor ds = None ->
  prepare ds =
    inr (energy, ones (length times) (length lons), length lons) /\
  forall t p,
    (t < length times)%nat -> (p < length lons)%nat ->
    written (write_location ds energy (ones (length times) (length lons)) t p)
    = ("FACTOR" +:+ nl) :: ("1.0000000000000000e+00" +:+ nl) ::
      map (matrix_line energy n3 t p) (range (length freqs)).
Proof.
  intros Hfit Hfa. split.
  - rewrite (prepare_fits ds _ _ _ _ _ _ _ _ _ _ Hfit).
    unfold factors_of. now rewrite Hfa.
  - intros t p Ht Hp.
    rewrite (write_location_ok ds energy
               (ones (length times) (length lons)) freqs n0 n1 n2 n3
               (length times) (length lons) t p
               (fit_frequency _ _ _ _ _ _ _ _ _ _ _ Hfit)
               (fit_shape _ _ _ _ _ _ _ _ _ _ _ Hfit) eq_refl);
      [reflexivity|..];
      pose proof (fit_times _ _ _ _ _ _ _ _ _ _ _ Hfit);
      pose proof (fit_locations _ _ _ _ _ _ _ _ _ _ _ Hfit);
      pose proof (fit_frequencies _ _ _ _ _ _ _ _ _ _ _ Hfit); lia.
Qed.

Lemma absent_factor_is_written_as_one_witness :
  nth_error (written (write_location ds1 energy1 (ones 1 2) 0 1)) 1 =
  Some ("1.0000000000000000e+00" +:+ nl).
Proof.
  assert (Hfit : fits ds1 [of_Z 1; of_Z 2] [of_Z 3; of_Z 4]
                   [two_and_a_half; of_Z 1] [of_Z 0; of_Z 90; of_Z 180]
                   [DT 1710482430750000000] energy1 1 2 2 3).
  { constructor; try reflexivity; try exact I; cbn [length]; lia. }
  pose proof (proj2 (absent_factor_is_written_as_one ds1 _ _ _ _ _ _
                       1 2 2 3 Hfit eq_refl) 0%nat 1%nat
                ltac:(cbn [length]; lia) ltac:(cbn [length]; lia)) as H.
  cbn [length] in H. rewrite H. reflexivity.
Defined.

End Shapes.

(** ** Reading numbers back *)

Section ReadingFacts.
Import Text Float Py Netcdf Sp2 Spec Layout Reading.

Lemma digit_value_digit_char (d : Z) :
  0 <= d < 10 -> digit_value (digit_char d) = d.
Proof.
  intros H. unfold digit_value, digit_char.
  rewrite nat_ascii_embedding by lia. lia.
Qed.

Lemma read_digits_shift (s : string) :
  forall acc, read_digits acc s =
              acc * 10 ^ Z.of_nat (String.length s) + read_nat s.
Proof.
  unfold read_nat.
  induction s as [|c s IH]; intros acc; cbn [read_digits String.length].
  - change (10 ^ Z.of_nat 0) with 1. lia.
  - rewrite (IH (acc * 10 + digit_value c)), (IH (0 * 10 + digit_value c)).
    rewrite Nat2Z.inj_succ, Z.pow_succ_r by lia. ring.
Qed.

Lemma read_nat_digits_fuel (fuel : nat) :
  forall (n : Z) (acc : string),
    0 <= n < 2 ^ Z.of_nat fuel ->
    read_nat (digits_fuel fuel n acc) =
    n * 10 ^ Z.of_nat (String.length acc) + read_nat acc.
Proof.
  induction fuel as [|f IH]; intros n acc Hn.
  - change (2 ^ Z.of_nat 0) with 1 in Hn.
    replace n with 0 by lia. cbn [digits_fuel]. lia.
  - cbn [digits_fuel].
    assert (Hstep : read_nat (String (digit_char (n mod 10)) acc) =
                    (n mod 10) * 10 ^ Z.of_nat (String.length acc) +
                    read_nat acc).
    { unfold read_nat at 1. cbn [read_digits].
      rewrite read_digits_shift, digit_value_digit_char
        by (apply Z.mod_pos_bound; lia).
      reflexivity. }
    destruct (Z.ltb_spec n 10) as [Hlt|Hge].
    + rewrite Hstep, Z.mod_small by lia. reflexivity.
    + rewrite IH.
      * rewrite Hstep. cbn [String.length].
        rewrite Nat2Z.inj_succ, Z.pow_succ_r by lia.
        pose proof (Z.div_mod n 10 ltac:(lia)) as Hdm.
        set (P := 10 ^ Z.of_nat (String.length acc)).
        rewrite Hdm at 3. ring.
      * rewrite Nat2Z.inj_succ, Z.pow_succ_r in Hn by lia.
        split; [apply Z.div_pos; lia|].
        apply Z.div_lt_upper_bound; lia.
Qed.

Lemma read_nat_str_nonneg (n : Z) : 0 <= n -> read_nat (str_nonneg n) = n.
Proof.
  intros Hn. unfold str_nonneg. rewrite read_nat_digits_fuel.
  - cbn [String.length]. change (read_nat EmptyString) with 0.
    change (10 ^ Z.of_nat 0) with 1. lia.
  - split; [exact Hn|].
    destruct (Z.eq_dec n 0) as [->|Hne]; [reflexivity|].
    rewrite Nat2Z.inj_succ, Z2Nat.id by apply Z.log2_nonneg.
    apply Z.log2_spec. lia.
Qed.

Lemma read_nat_zeros (k : nat) (s : string) :
  read_nat (replicate_char k "0" +:+ s) = read_nat s.
Proof.
  induction k as [|k IH]; [reflexivity|].
  cbn [replicate_char]. rewrite append_cons.
  unfold read_nat in *. cbn [read_digits]. exact IH.
Qed.

Lemma lstrip_spaces (k : nat) (s : string) :
  lstrip (replicate_char k " " +:+ s) = lstrip s.
Proof.
  induction k as [|k IH]; [reflexivity|].
  cbn [replicate_char]. rewrite append_cons. cbn [lstrip].
  exact IH.
Qed.

(** A run of digits is not empty and starts with a digit. *)
Lemma str_nonneg_head (n : Z) :
  0 <= n ->
  exists c r, str_nonneg n = String c r /\ is_digit c = true /\
              all_chars is_digit r = true.
Proof.
  intros Hn. pose proof (str_nonneg_all_digits n Hn) as Hd.
  pose proof (str_nonneg_length_pos n) as Hl.
  destruct (str_nonneg n) as [|c r]; [cbn in Hl; lia|].
  cbn [all_chars] in Hd. apply andb_prop in Hd as [Hc Hr].
  now exists c, r.
Qed.

Lemma read_int_str_int (z : Z) : read_int (str_int z) = z.
Proof.
  unfold str_int. destruct (Z.ltb_spec z 0) as [Hneg|Hpos].
  - change (read_int (String "-" (str_nonneg (- z))))
      with (- read_nat (str_nonneg (- z))).
    rewrite read_nat_str_nonneg by lia. lia.
  - unfold read_int. destruct (str_nonneg_head z Hpos) as (c & r & Heq & Hc & _).
    pose proof (read_nat_str_nonneg z Hpos) as Hread.
    rewrite Heq in *. cbn [lstrip].
    assert (Hsp : Ascii.eqb c " " = false).
    { apply Ascii.eqb_neq. intros ->. discriminate Hc. }
    assert (Hmi : Ascii.eqb c "-" = false).
    { apply Ascii.eqb_neq. intros ->. discriminate Hc. }
    now rewrite Hsp, Hmi.
Qed.

(** [int()] of a field written with [format_d] is the integer. *)
Lemma read_int_format_d (w : nat) (z : Z) : read_int (format_d w z) = z.
Proof.
  unfold format_d, rjust.
  pose proof (read_int_str_int z) as H. unfold read_int in *.
  now rewrite lstrip_spaces.
Qed.

(** A field has no space after its padding. *)
Lemma str_int_no_space (z : Z) : all_chars (differs " ") (str_int z) = true.
Proof.
  unfold str_int. destruct (Z.ltb_spec z 0).
  - cbn [all_chars]. rewrite (digits_differ " ") by
      (reflexivity || apply str_nonneg_all_digits; lia). reflexivity.
  - apply digits_differ; [reflexivity|now apply str_nonneg_all_digits].
Qed.

Lemma str_int_not_empty (z : Z) : str_int z <> EmptyString.
Proof.
  unfold str_int. destruct (z <? 0); [discriminate|].
  pose proof (str_nonneg_length_pos z) as H.
  destruct (str_nonneg z); [cbn in H; lia|discriminate].
Qed.

Lemma words_cons_space (s : string) : words (String " " s) = words s.
Proof. reflexivity. Qed.

Lemma words_spaces (k : nat) (s : string) :
  words (replicate_char k " " +:+ s) = words s.
Proof.
  induction k as [|k IH]; [reflexivity|].
  cbn [replicate_char]. rewrite append_cons, words_cons_space. exact IH.
Qed.

Lemma words_token (t : string) :
  t <> EmptyString -> all_chars (differs " ") t = true -> words t = [t].
Proof.
  intros Hne Hns. unfold words. rewrite (split_char_absent " " t Hns).
  cbn [List.filter]. destruct (String.eqb_spec t EmptyString); [tauto|].
  reflexivity.
Qed.

Lemma words_token_space (t s : string) :
  t <> EmptyString -> all_chars (differs " ") t = true ->
  words (t +:+ String " " s) = t :: words s.
Proof.
  intros Hne Hns. unfold words. rewrite (split_char_at " " t s Hns).
  cbn [List.filter]. destruct (String.eqb_spec t EmptyString); [tauto|].
  reflexivity.
Qed.

(** Splitting a joined row gives the fields without their padding. *)
Lemma words_row_str (ints : list Z) :
  words (row_str ints) = map str_int ints.
Proof.
  unfold row_str.
  induction ints as [|z ints IH]; [reflexivity|].
  destruct ints as [|z' ints].
  - cbn [map Text.join]. unfold format_d, rjust.
    rewrite words_spaces.
    now rewrite words_token by
      (apply str_int_not_empty || apply str_int_no_space).
  - change (Text.join " " (map (format_d 6) (z :: z' :: ints)))
      with (format_d 6 z +:+ " " +:+
            Text.join " " (map (format_d 6) (z' :: ints))).
    unfold format_d at 1. unfold rjust.
    rewrite append_assoc, words_spaces.
    change (" " +:+ ?r) with (String " " r).
    rewrite words_token_space by
      (apply str_int_not_empty || apply str_int_no_space).
    now rewrite IH.
Qed.

End ReadingFacts.

(** ** The lines of the file can be read back *)

Section ReadBack.
Import Text Float Py Netcdf Sp2 Spec Layout Reading Examples.

Lemma str_int_differs (c : ascii) (z : Z) :
  is_digit c = false -> differs c "-" = true ->
  all_chars (differs c) (str_int z) = true.
Proof.
  intros Hc Hm. unfold str_int. destruct (Z.ltb_spec z 0).
  - cbn [all_chars]. rewrite Hm.
    now rewrite (digits_differ c) by
      (assumption || apply str_nonneg_all_digits; lia).
  - apply digits_differ; [assumption|now apply str_nonneg_all_digits].
Qed.

Lemma row_str_differs (c : ascii) (ints : list Z) :
  is_digit c = false -> differs c "-" = true -> differs c " " = true ->
  all_chars (differs c) (row_str ints) = true.
Proof.
  intros Hc Hm Hs. unfold row_str.
  induction ints as [|z ints IH]; [reflexivity|].
  assert (Hz : all_chars (differs c) (format_d 6 z) = true).
  { unfold format_d, rjust.
    now rewrite all_chars_append, all_chars_replicate, str_int_differs. }
  destruct ints as [|z' ints]; [exact Hz|].
  change (Text.join " " (map (format_d 6) (z :: z' :: ints)))
    with (format_d 6 z +:+ " " +:+
          Text.join " " (map (format_d 6) (z' :: ints))).
  rewrite !all_chars_append, Hz, IH. cbn [all_chars]. now rewrite Hs.
Qed.

(** X13: Every chunk of the energy matrix is one line, and reading it back
    (splitting on blanks, [int()] of each field) gives the integers of
    the samples in the order of the array, however wide a field is. *)
Theorem matrix_line_reads_back
    (energy : ndarray4) (ndir t p fr : nat) :
  exists text,
    matrix_line energy ndir t p fr = text +:+ nl /\
    all_chars (differs (ascii_of_nat 10)) text = true /\
    map read_int (words text) =
    map (fun d => sample_to_int (data4 energy t p fr d)) (range ndir).
Proof.
  unfold matrix_line. eexists. split; [reflexivity|]. split.
  - apply row_str_differs; reflexivity.
  - rewrite words_row_str, row_to_ints_map, !List.map_map.
    apply map_ext. intros d. apply read_int_str_int.
Qed.

Lemma magnitude_bounds (x : float) :
  0 <= fst (magnitude x) /\ 1 <= snd (magnitude x).
Proof.
  destruct x as [s|s| |s m e]; try (cbn; lia).
  pose proof (magnitude_finite_pos s m e). lia.
Qed.

Lemma Qabs_to_Q (x : float) :
  Qabs (to_Q x) = fst (magnitude x) # Z.to_pos (snd (magnitude x)).
Proof.
  pose proof (magnitude_bounds x) as [Hn _]. unfold to_Q.
  destruct (magnitude x) as [n d]. cbn [fst snd] in *.
  unfold Qabs. f_equal. destruct (sign_of x); lia.
Qed.

Lemma format_f_body_finite (x : float) :
  is_finite x = true ->
  format_f_body 4 x =
  let N := round_half_even_div (fst (magnitude x) * 10000)
                               (snd (magnitude x)) in
  sign_str (sign_of x) +:+ str_nonneg (N / 10000) +:+
  String "." (rjust 4 "0" (str_nonneg (N mod 10000))).
Proof.
  destruct x as [s|s| |s m e]; try discriminate; intros _;
    unfold format_f_body; destruct (magnitude _) as [n d]; reflexivity.
Qed.

(** X14: A coordinate, frequency or direction is written in fixed-point
    notation: blanks, a minus for a negative value, the digits of the
    integer part, a point and exactly four digits; the number these
    digits spell is the nearest multiple of 0.0001 to the magnitude of
    the value, ties to even.  The field is ten characters wide or more,
    and exactly ten for a magnitude up to 1000. *)
Theorem value_fields_are_fixed_point (x : float) :
  is_finite x = true ->
  exists (pad ip fp : string) (N : Z),
    format_f 10 4 x =
      pad +:+ sign_str (sign_of x) +:+ ip +:+ String "." fp /\
    all_chars (Ascii.eqb " ") pad = true /\
    ip <> EmptyString /\ all_chars is_digit ip = true /\
    String.length fp = 4%nat /\ all_chars is_digit fp = true /\
    read_nat ip * 10000 + read_nat fp = N /\
    is_round_half_even (Qabs (to_Q x) * inject_Z 10000) N /\
    (10 <= String.length (format_f 10 4 x))%nat /\
    ((Qabs (to_Q x) <= inject_Z 1000)%Q ->
     String.length (format_f 10 4 x) = 10%nat).
Proof.
  intros Hfin.
  pose proof (magnitude_bounds x) as [Hn Hd].
  pose proof (Qabs_to_Q x) as HQ.
  pose proof (format_f_body_finite x Hfin) as Hbody. cbv zeta in Hbody.
  set (n := fst (magnitude x)) in *. set (d := snd (magnitude x)) in *.
  set (N := round_half_even_div (n * 10000) d) in *.
  destruct (round_half_even_div_near (n * 10000) d ltac:(lia) ltac:(lia))
    as (Hnear & Heven & HN0).
  fold N in Hnear, Heven, HN0.
  pose proof (Z.div_mod N 10000 ltac:(lia)) as Hdm.
  pose proof (Z.mod_pos_bound N 10000 ltac:(lia)) as Hfp.
  assert (Hip : 0 <= N / 10000) by (apply Z.div_pos; lia).
  assert (Hlenfp : String.length (rjust 4 "0" (str_nonneg (N mod 10000)))
                   = 4%nat).
  { rewrite length_rjust.
    pose proof (str_nonneg_length_le (N mod 10000) 4
                  ltac:(change (10 ^ Z.of_nat 4) with 10000; lia)
                  ltac:(lia)).
    lia. }
  exists (replicate_char (10 - String.length (format_f_body 4 x)) " "),
         (str_nonneg (N / 10000)),
         (rjust 4 "0" (str_nonneg (N mod 10000))), N.
  split; [unfold format_f, rjust; now rewrite Hbody|].
  split; [now apply all_chars_replicate|].
  split.
  { pose proof (str_nonneg_length_pos (N / 10000)) as Hl.
    destruct (str_nonneg (N / 10000)); [cbn in Hl; lia|discriminate]. }
  split; [now apply str_nonneg_all_digits|].
  split; [exact Hlenfp|].
  split.
  { unfold rjust. rewrite all_chars_append, all_chars_replicate by reflexivity.
    apply str_nonneg_all_digits. lia. }
  split.
  { unfold rjust at 1. rewrite read_nat_zeros, !read_nat_str_nonneg by lia.
    lia. }
  split.
  { rewrite HQ. unfold Qmult, inject_Z. cbn [Qnum Qden].
    rewrite Pos.mul_1_r. split.
    - apply Qabs_diff_half. rewrite Z2Pos.id by lia. exact Hnear.
    - intros Heq. apply Qabs_diff_half_eq in Heq.
      rewrite Z2Pos.id in Heq by lia. exact (Heven Heq). }
  split; [unfold format_f; rewrite length_rjust; lia|].
  intros Hle. rewrite HQ in Hle. unfold Qle, inject_Z in Hle.
  cbn [Qnum Qden] in Hle. rewrite Z2Pos.id in Hle by lia.
  assert (HN : N <= 10000000) by nia.
  assert (Hq : N / 10000 <= 1000)
    by (apply Z.lt_succ_r; apply Z.div_lt_upper_bound; lia).
  pose proof (str_nonneg_length_le (N / 10000) 4
                ltac:(change (10 ^ Z.of_nat 4) with 10000; lia)
                ltac:(lia)) as Hl4.
  unfold format_f. rewrite length_rjust, Hbody, !length_append.
  cbn [String.length]. rewrite Hlenfp.
  destruct (sign_of x); cbn [sign_str String.length]; lia.
Qed.

Lemma value_fields_are_fixed_point_witness :
  format_f 10 4 two_and_a_half = "    2.5000" /\
  String.length (format_f 10 4 (of_Z (-180))) = 10%nat.
Proof.
  split; [vm_compute; reflexivity|].
  destruct (value_fields_are_fixed_point (of_Z (-180)) eq_refl)
    as (pad & ip & fp & N & _ & _ & _ & _ & _ & _ & _ & _ & _ & H).
  apply H. vm_compute. discriminate.
Defined.

End ReadBack.

(** ** The time stamp identifies the second *)

Section TimeRoundTrip.
Import Text Py DateTime Spec Reading Calendar.

Lemma days_before_year_spec (days : Z) :
  days_before_year (fst (days_to_yearsdays days)) +
  snd (days_to_yearsdays days) = days.
Proof.
  rewrite days_to_yearsdays_eq. cbv zeta. unfold days_before_year.
  pose proof (Z.mod_pos_bound (days - 10957) 146097 ltac:(lia)) as Hr.
  pose proof (Z.div_mod (days - 10957) 146097 ltac:(lia)) as Hd.
  set (c := (days - 10957) / 146097) in *.
  set (r := (days - 10957) mod 146097) in *.
  destruct (366 <=? r) eqn:H1.
  - apply Z.leb_le in H1.
    pose proof (Z.mod_pos_bound (r - 1) 36524 ltac:(lia)) as Hr1.
    pose proof (Z.div_mod (r - 1) 36524 ltac:(lia)) as Hd1.
    set (c1 := (r - 1) / 36524) in *. set (r1 := (r - 1) mod 36524) in *.
    assert (0 <= c1 <= 3) by lia.
    destruct (365 <=? r1) eqn:H2.
    + apply Z.leb_le in H2.
      pose proof (Z.mod_pos_bound (r1 + 1) 1461 ltac:(lia)) as Hr2.
      pose proof (Z.div_mod (r1 + 1) 1461 ltac:(lia)) as Hd2.
      set (c2 := (r1 + 1) / 1461) in *. set (r2 := (r1 + 1) mod 1461) in *.
      assert (0 <= c2 <= 24) by lia.
      destruct (366 <=? r2) eqn:H3.
      * apply Z.leb_le in H3.
        pose proof (Z.mod_pos_bound (r2 - 1) 365 ltac:(lia)) as Hr3.
        pose proof (Z.div_mod (r2 - 1) 365 ltac:(lia)) as Hd3.
        set (c3 := (r2 - 1) / 365) in *. set (r3 := (r2 - 1) mod 365) in *.
        assert (1 <= c3 <= 3) by lia.
        cbn [fst snd]. Z.div_mod_to_equations. lia.
      * apply Z.leb_gt in H3. cbn [fst snd]. Z.div_mod_to_equations. lia.
    + apply Z.leb_gt in H2. cbn [fst snd]. Z.div_mod_to_equations. lia.
  - apply Z.leb_gt in H1. cbn [fst snd]. Z.div_mod_to_equations. lia.
Qed.

Lemma days_before_month_spec (leap : bool) (yd : Z) :
  0 <= yd -> (yd <= 364 \/ (yd = 365 /\ leap = true)) ->
  days_before_month leap (fst (month_day (days_per_month_table leap) 1 yd)) +
  (snd (month_day (days_per_month_table leap) 1 yd) - 1) = yd.
Proof.
  intros H0 H1. unfold days_before_month.
  assert (Hb : yd <= (if leap then 365 else 364))
    by (destruct leap, H1 as [H1|[H1 Hl]]; (discriminate Hl || lia)).
  clear H1.
  destruct leap; cbn [days_per_month_table month_day];
    repeat match goal with
           | |- context [if ?a <? ?b then _ else _] =>
               destruct (Z.ltb_spec a b)
           end; cbn [fst snd];
    match goal with
    | |- context [fold_right Z.add 0 ?l] =>
        let v := eval vm_compute in (fold_right Z.add 0 l) in
        change (fold_right Z.add 0 l) with v
    end; lia.
Qed.

(** The calendar fields numpy extracts denote the second the count of
    nanoseconds falls in. *)
Lemma seconds_of_to_datetimestruct (ns : Z) :
  seconds_since_epoch (to_datetimestruct ns) = ns / 1000000000.
Proof.
  unfold seconds_since_epoch, to_datetimestruct.
  change (24 * 60 * 60 * 1000000000) with 86400000000000.
  change (60 * 60 * 1000000000) with 3600000000000.
  change (60 * 1000000000) with 60000000000.
  set (days := ns / 86400000000000).
  set (rest := ns mod 86400000000000).
  pose proof (days_before_year_spec days) as Hy.
  pose proof (days_to_yearsdays_spec days) as (_ & Hyd0 & Hyd).
  destruct (days_to_yearsdays days) as [y yd]. cbn [fst snd] in *.
  assert (Hleap : yd <= 364 \/ (yd = 365 /\ is_leapyear y = true)) by tauto.
  pose proof (days_before_month_spec (is_leapyear y) yd Hyd0 Hleap) as Hm.
  destruct (month_day (days_per_month_table (is_leapyear y)) 1 yd)
    as [mo d].
  cbn [fst snd year month day hour minute sec] in *.
  replace (days_before_year y + days_before_month (is_leapyear y) mo +
           (d - 1)) with days by lia.
  subst days rest. Z.div_mod_to_equations. lia.
Qed.

Lemma read_nat_zero_pad (w : nat) (z : Z) :
  0 <= z -> read_nat (zero_pad w z) = z.
Proof.
  intros Hz. unfold zero_pad.
  destruct (Z.ltb_spec z 0); [lia|].
  unfold rjust. now rewrite read_nat_zeros, read_nat_str_nonneg.
Qed.

Lemma substring_fields (a b c e f g : string) :
  String.length a = 4%nat -> String.length b = 2%nat ->
  String.length c = 2%nat -> String.length e = 2%nat ->
  String.length f = 2%nat -> String.length g = 2%nat ->
  let s := (a +:+ b +:+ c) +:+ "." +:+ (e +:+ f +:+ g) in
  String.substring 0 4 s = a /\ String.substring 4 2 s = b /\
  String.substring 6 2 s = c /\ String.substring 9 2 s = e /\
  String.substring 11 2 s = f /\ String.substring 13 2 s = g.
Proof.
  intros La Lb Lc Le Lf Lg.
  destruct a as [|a0 [|a1 [|a2 [|a3 [|a4 a]]]]]; try discriminate La.
  destruct b as [|b0 [|b1 [|b2 b]]]; try discriminate Lb.
  destruct c as [|c0 [|c1 [|c2 c]]]; try discriminate Lc.
  destruct e as [|e0 [|e1 [|e2 e]]]; try discriminate Le.
  destruct f as [|f0 [|f1 [|f2 f]]]; try discriminate Lf.
  destruct g as [|g0 [|g1 [|g2 g]]]; try discriminate Lg.
  cbv zeta. split; [reflexivity|]. split; [reflexivity|].
  split; [reflexivity|]. split; [reflexivity|]. split; reflexivity.
Qed.

(** X15: The time stamp of a valid time can be read back: its fifteen
    characters give the calendar fields, and these denote the second the
    time falls in.  So two times get the same time stamp only when they
    fall in the same second. *)
Theorem swan_time_identifies_the_second (ns : Z) :
  valid_ns ns ->
  exists text,
    format_swan_time (DT ns) = inr text /\
    read_swan_time text = to_datetimestruct ns /\
    seconds_since_epoch (read_swan_time text) = ns / 1000000000 /\
    (forall ns', valid_ns ns' -> format_swan_time (DT ns') = inr text ->
                 ns' / 1000000000 = ns / 1000000000).
Proof.
  assert (Hread : forall n, valid_ns n ->
            let d := to_datetimestruct n in
            format_swan_time (DT n) =
              inr (swan_date d +:+ "." +:+ swan_clock d) /\
            read_swan_time (swan_date d +:+ "." +:+ swan_clock d) = d).
  { intros n Hv d.
    pose proof (fields_in_range n Hv) as Hf. cbv zeta in Hf. fold d in Hf.
    destruct Hf as (Hy & Hmo & Hd & Hh & Hmi & Hs).
    split; [apply format_swan_time_fields; fold d; lia|].
    unfold swan_date, swan_clock.
    assert (P4 : 10 ^ Z.of_nat 4 = 10000) by reflexivity.
    assert (P2 : 10 ^ Z.of_nat 2 = 100) by reflexivity.
    destruct (substring_fields
                (zero_pad 4 (year d)) (zero_pad 2 (month d))
                (zero_pad 2 (day d)) (zero_pad 2 (hour d))
                (zero_pad 2 (minute d)) (zero_pad 2 (sec d)))
      as (E1 & E2 & E3 & E4 & E5 & E6);
      try (apply zero_pad_length; lia).
    unfold read_swan_time. rewrite E1, E2, E3, E4, E5, E6.
    rewrite !read_nat_zero_pad by lia. now destruct d. }
  intros Hv. destruct (Hread ns Hv) as [Hfmt Hrd].
  eexists. split; [exact Hfmt|]. split; [exact Hrd|]. split.
  - rewrite Hrd. apply seconds_of_to_datetimestruct.
  - intros ns' Hv' Hfmt'. destruct (Hread ns' Hv') as [Hfmt2 Hrd2].
    rewrite Hfmt2 in Hfmt'. injection Hfmt' as Heq.
    rewrite <- (seconds_of_to_datetimestruct ns'),
            <- (seconds_of_to_datetimestruct ns).
    rewrite <- Hrd2, <- Hrd. now rewrite Heq.
Qed.

Lemma swan_time_identifies_the_second_witness :
  seconds_since_epoch (read_swan_time "20240315.060030") = 1710482430.
Proof.
  destruct (swan_time_identifies_the_second 1710482430750000000
              ltac:(unfold valid_ns; lia))
    as (text & Hfmt & _ & Hsec & _).
  assert (Htext : format_swan_time (DT 1710482430750000000) =
                  inr "20240315.060030") by (vm_compute; reflexivity).
  rewrite Htext in Hfmt. injection Hfmt as <-. exact Hsec.
Defined.

End TimeRoundTrip.

(** ** Names of the output files *)

Section OutputNames.
Import Text Py Os Sp2 Spec.

Lemma startswith_inv (pre s : string) :
  startswith s pre = true -> exists r, s = pre +:+ r.
Proof.
  unfold startswith. revert s.
  induction pre as [|a pre IH]; intros s H.
  - now exists s.
  - destruct s as [|b s]; [discriminate H|]. cbn [String.prefix] in H.
    destruct (ascii_dec a b) as [<-|]; [|discriminate H].
    destruct (IH s H) as [r ->]. now exists r.
Qed.

Lemma rev_string_append (s t : string) :
  rev_string (s +:+ t) = rev_string t +:+ rev_string s.
Proof.
  induction s as [|a s IH].
  - rewrite append_nil_l. cbn [rev_string]. now rewrite append_nil_r.
  - rewrite append_cons. cbn [rev_string].
    now rewrite IH, append_assoc.
Qed.

Lemma rev_string_involutive (s : string) : rev_string (rev_string s) = s.
Proof.
  induction s as [|a s IH]; [reflexivity|].
  cbn [rev_string]. rewrite rev_string_append, IH. reflexivity.
Qed.

Lemma endswith_inv (suf s : string) :
  endswith s suf = true -> exists stem, s = stem +:+ suf.
Proof.
  unfold endswith. intros H.
  destruct (startswith_inv _ _ H) as [r Hr].
  exists (rev_string r).
  rewrite <- (rev_string_involutive s), Hr, rev_string_append.
  now rewrite rev_string_involutive.
Qed.

Lemma append_inv_head (s a b : string) : s +:+ a = s +:+ b -> a = b.
Proof.
  induction s as [|c s IH]; [now rewrite !append_nil_l|].
  rewrite !append_cons. intros [= H]. now apply IH.
Qed.

Lemma append_inv_tail (t a b : string) : a +:+ t = b +:+ t -> a = b.
Proof.
  intros H. apply (f_equal rev_string) in H.
  rewrite !rev_string_append in H. apply append_inv_head in H.
  apply (f_equal rev_string) in H. now rewrite !rev_string_involutive in H.
Qed.

(** A name without a separator is its own last component. *)
Lemma split_path_name (f : string) :
  all_chars (differs "/") f = true -> split_path f = (EmptyString, f).
Proof.
  induction f as [|a f IH]; [reflexivity|].
  cbn [all_chars]. intros H. apply andb_prop in H as [Ha Hf].
  cbn [split_path]. rewrite (IH Hf).
  unfold differs in Ha. apply negb_true_iff in Ha.
  unfold is_sep. now rewrite Ha.
Qed.

Lemma split_dot_no_dot (s : string) :
  all_chars (differs ".") s = true -> split_dot s = (s, EmptyString).
Proof.
  induction s as [|a s IH]; [reflexivity|].
  cbn [all_chars]. intros H. apply andb_prop in H as [Ha Hs].
  cbn [split_dot]. rewrite (IH Hs).
  unfold differs in Ha. apply negb_true_iff in Ha.
  unfold is_dot. now rewrite Ha.
Qed.

(** The extension starts at the last dot. *)
Lemma split_dot_last (stem ext : string) :
  all_chars (differs ".") ext = true ->
  split_dot (stem +:+ String "." ext) = (stem, String "." ext).
Proof.
  intros Hext. induction stem as [|a stem IH].
  - rewrite append_nil_l. cbn [split_dot].
    now rewrite (split_dot_no_dot ext Hext).
  - rewrite append_cons. cbn [split_dot]. now rewrite IH.
Qed.

(** A selected name is "esp_" followed by something and ends with
    ".nc"; what comes before ".nc" starts with an "e". *)
Lemma selected_name_stem (f : string) :
  startswith f "esp_" = true -> endswith f ".nc" = true ->
  exists c stem, f = String c stem +:+ ".nc" /\ c = "e"%char.
Proof.
  intros Hs He.
  destruct (startswith_inv _ _ Hs) as [r Hr].
  destruct (endswith_inv _ _ He) as [stem Hstem].
  destruct stem as [|c stem].
  - rewrite Hr in Hstem. discriminate Hstem.
  - exists c, stem. split; [exact Hstem|].
    rewrite Hr in Hstem. now injection Hstem as <- _.
Qed.

Lemma output_path_of_selected (cfg : Config) (f : string) :
  startswith f "esp_" = true -> endswith f ".nc" = true ->
  all_chars (differs "/") f = true ->
  exists stem,
    f = stem +:+ ".nc" /\
    startswith (stem +:+ ".sp2") "/" = false /\
    output_path_of cfg f = Os.join (output_dir cfg) (stem +:+ ".sp2").
Proof.
  intros Hs He Hsep.
  destruct (selected_name_stem f Hs He) as (c & stem & Hf & Hc).
  exists (String c stem). split; [exact Hf|]. split; [now subst c|].
  unfold output_path_of, splitext.
  rewrite (split_path_name f Hsep), Hf.
  change (String c stem +:+ ".nc") with (String c stem +:+ String "." "nc").
  rewrite (split_dot_last (String c stem) "nc" eq_refl).
  subst c. reflexivity.
Qed.

Lemma output_path_of_injective (cfg : Config) (f g : string) :
  startswith f "esp_" = true -> endswith f ".nc" = true ->
  all_chars (differs "/") f = true ->
  startswith g "esp_" = true -> endswith g ".nc" = true ->
  all_chars (differs "/") g = true ->
  output_path_of cfg f = output_path_of cfg g -> f = g.
Proof.
  intros Hfs Hfe Hfp Hgs Hge Hgp.
  destruct (output_path_of_selected cfg f Hfs Hfe Hfp)
    as (sf & Hf & Hf1 & Hf2).
  destruct (output_path_of_selected cfg g Hgs Hge Hgp)
    as (sg & Hg & Hg1 & Hg2).
  rewrite Hf2, Hg2. unfold Os.join. rewrite Hf1, Hg1.
  intros Heq. rewrite Hf, Hg. f_equal.
  apply (append_inv_tail ".sp2").
  destruct (String.eqb (output_dir cfg) EmptyString ||
            endswith (output_dir cfg) "/").
  - now apply append_inv_head in Heq.
  - apply append_inv_head in Heq. now apply append_inv_head in Heq.
Qed.

(** X16: The output of a selected name [X.nc] that is a plain file name is
    [X.sp2] joined to the output directory, and two selected names with
    the same output are the same name: no two files of a batch are
    written to one path. *)
Theorem selected_names_have_outputs_of_their_own
    (cfg : Config) (f g : string) :
  startswith f "esp_" = true -> endswith f ".nc" = true ->
  all_chars (differs "/") f = true ->
  startswith g "esp_" = true -> endswith g ".nc" = true ->
  all_chars (differs "/") g = true ->
  (exists stem,
     f = stem +:+ ".nc" /\
     output_path_of cfg f = Os.join (output_dir cfg) (stem +:+ ".sp2")) /\
  (output_path_of cfg f = output_path_of cfg g -> f = g).
Proof.
  intros Hfs Hfe Hfp Hgs Hge Hgp. split.
  - destruct (output_path_of_selected cfg f Hfs Hfe Hfp)
      as (stem & Hf & _ & Hout).
    exists stem. split; [exact Hf|exact Hout].
  - now apply output_path_of_injective.
Qed.

Lemma selected_names_have_outputs_of_their_own_witness :
  output_path_of (CONFIG "/w") "esp_a.nc" = "/w/converted_sp2_files/esp_a.sp2"
  /\ ("esp_a.nc" = "esp_b.nc" \/
      output_path_of (CONFIG "/w") "esp_a.nc" <>
      output_path_of (CONFIG "/w") "esp_b.nc").
Proof.
  split; [vm_compute; reflexivity|]. right. intros Heq.
  pose proof (proj2 (selected_names_have_outputs_of_their_own (CONFIG "/w")
                       "esp_a.nc" "esp_b.nc"
                       eq_refl eq_refl eq_refl eq_refl eq_refl eq_refl)
                Heq) as H.
  discriminate H.
Defined.

End OutputNames.

(** ** Sizes *)

Section Sizes.
Import Text Float Py DateTime Netcdf Logging Os Sp2 Spec Layout Batch Examples.

Lemma length_join_fixed (k : nat) (parts : list string) :
  Forall (fun p => String.length p = k) parts -> parts <> [] ->
  (String.length (Text.join " " parts) + 1 = (k + 1) * length parts)%nat.
Proof.
  induction 1 as [|p rest Hp Hrest IH]; [tauto|]. intros _.
  destruct rest as [|q rest].
  - cbn [Text.join length]. lia.
  - change (Text.join " " (p :: q :: rest))
      with (p +:+ " " +:+ Text.join " " (q :: rest)).
    rewrite !length_append. cbn [String.length].
    specialize (IH ltac:(discriminate)). cbn [length] in *. lia.
Qed.

(** X17: When every integer of a row lies between -99999 and 999999 the line
    is as long as seven characters per entry of the row, the line feed
    included: the columns of the matrix line up. *)
Theorem matrix_lines_have_fixed_width
    (energy : ndarray4) (ndir t p fr : nat) :
  (1 <= ndir)%nat ->
  (forall d, (d < ndir)%nat ->
             -99999 <= sample_to_int (data4 energy t p fr d) <= 999999) ->
  String.length (matrix_line energy ndir t p fr) = (7 * ndir)%nat.
Proof.
  intros Hn Hr. unfold matrix_line, row_str.
  rewrite length_append. change (String.length nl) with 1%nat.
  rewrite (length_join_fixed 6).
  - rewrite length_map, row_to_ints_length, length_map, length_range. lia.
  - apply List.Forall_forall. intros field Hin.
    apply in_map_iff in Hin as (z & <- & Hz).
    rewrite row_to_ints_map in Hz.
    apply in_map_iff in Hz as (x & <- & Hx).
    apply in_map_iff in Hx as (d & <- & Hd).
    apply in_range in Hd. apply format_d_6_exact, Hr, Hd.
  - destruct ndir; [lia|]. unfold range. cbn [seq map row_to_ints].
    discriminate.
Qed.

Lemma matrix_lines_have_fixed_width_witness :
  String.length (matrix_line energy1 3 0 1 1) = 21%nat.
Proof.
  apply (matrix_lines_have_fixed_width energy1 3 0 1 1); [lia|].
  intros d Hd.
  destruct d as [|[|[|d]]]; [vm_compute; split; discriminate..|lia].
Defined.

Lemma length_flat_map_const {A B} (f : A -> list B) (xs : list A) (k : nat) :
  (forall x, length (f x) = k) ->
  length (flat_map f xs) = (length xs * k)%nat.
Proof.
  intros H. induction xs as [|x xs IH]; [reflexivity|].
  cbn [flat_map length]. rewrite length_app, H, IH. lia.
Qed.

Lemma endswith_self (s : string) : endswith s s = true.
Proof.
  unfold endswith.
  rewrite <- (append_nil_r (rev_string s)) at 2.
  apply startswith_append.
Qed.

Lemma endswith_append_r (s t suf : string) :
  endswith t suf = true -> endswith (s +:+ t) suf = true.
Proof.
  intros H. destruct (endswith_inv _ _ H) as [stem ->].
  unfold endswith. rewrite <- append_assoc, rev_string_append.
  apply startswith_append.
Qed.

Local Ltac ends_with_nl :=
  repeat (apply endswith_append_r); apply endswith_self.

(** X18: The file of a well-formed dataset is written in
    16 + L + F + D + T * (1 + L * (2 + F)) chunks, for L locations, F
    frequencies, D directions and T time steps, and every chunk ends
    with a line feed: the file ends with a complete line. *)
Theorem sp2_file_size
    (cfg : Config) (ds : Dataset) (lons lats freqs dirns : list float)
    (times : list datetime64) (energy : ndarray4) :
  well_formed ds lons lats freqs dirns times energy ->
  let L := length lons in
  let F := length freqs in
  let D := length dirns in
  let T := length times in
  let out := written (write_sp2 cfg ds energy (factors_of ds T L) L) in
  length out = (16 + L + F + D + T * (1 + L * (2 + F)))%nat /\
  List.Forall (fun chunk => endswith chunk nl = true) out.
Proof.
  intros Hwf L F D T out. subst out.
  assert (Hw : write_sp2 cfg ds energy (factors_of ds T L) L =
               (header cfg L lons lats freqs dirns ++
                body times energy (factors_of ds T L) L F D, inr tt))
    by exact (write_sp2_ok cfg ds _ _ _ _ _ _ Hwf).
  rewrite Hw. unfold written. cbn [fst].
  set (factors := factors_of ds T L).
  assert (Hblock : forall t p,
            length (location_block energy factors F D t p) = (2 + F)%nat).
  { intros t p. unfold location_block. cbn [length].
    now rewrite length_map, length_range. }
  assert (Hstep : forall t,
            length (timestep_block times energy factors L F D t) =
            (1 + L * (2 + F))%nat).
  { intros t. unfold timestep_block. cbn [length].
    rewrite (length_flat_map_const _ _ (2 + F)) by (intros p; apply Hblock).
    now rewrite length_range. }
  split.
  - rewrite length_app. unfold body.
    rewrite (length_flat_map_const _ _ (1 + L * (2 + F)))
      by (intros t; apply Hstep).
    rewrite length_range. fold T.
    unfold header, locations, frequencies, directions.
    rewrite !length_app, !length_map, length_combine.
    cbn [length identification quantities].
    rewrite (wf_locations _ _ _ _ _ _ _ Hwf). fold L F D. lia.
  - apply List.Forall_forall. intros chunk Hin.
    apply in_app_iff in Hin as [Hin|Hin].
    + unfold header, locations, frequencies, directions in Hin.
      rewrite !in_app_iff in Hin.
      unfold identification, quantities, count_line, exception_line in Hin.
      cbn [In] in Hin. rewrite !in_map_iff in Hin.
      unfold coordinate_line, value_line in Hin.
      repeat match type of Hin with
             | _ \/ _ => destruct Hin as [Hin|Hin]
             | ex _ => destruct Hin as (x & Hin & _)
             | False => destruct Hin
             end; subst chunk; ends_with_nl.
    + unfold body in Hin. apply in_flat_map in Hin as (t & _ & Hin).
      unfold timestep_block in Hin. cbn [In] in Hin.
      destruct Hin as [<-|Hin].
      * unfold time_line.
        destruct (format_swan_time_total (nth t times NaT)) as [s ->].
        ends_with_nl.
      * apply in_flat_map in Hin as (p & _ & Hin).
        unfold location_block in Hin. cbn [In] in Hin.
        rewrite in_map_iff in Hin.
        destruct Hin as [<-|[<-|(fr & <- & _)]].
        -- ends_with_nl.
        -- unfold factor_line. ends_with_nl.
        -- unfold matrix_line. ends_with_nl.
Qed.

Lemma sp2_file_size_witness :
  length (written (write_sp2 (CONFIG "/w") ds1 energy1 (ones 1 2) 2)) =
  32%nat.
Proof.
  assert (Hwf : well_formed ds1 [of_Z 1; of_Z 2] [of_Z 3; of_Z 4]
                  [two_and_a_half; of_Z 1] [of_Z 0; of_Z 90; of_Z 180]
                  [DT 1710482430750000000] energy1).
  { constructor; reflexivity || exact I. }
  exact (proj1 (sp2_file_size (CONFIG "/w") ds1 _ _ _ _ _ energy1 Hwf)).
Defined.

(** X19: In the loop of [main], the turns of other plain selected names leave
    the output of a name as it is: what a batch wrote for one input is
    not changed by the inputs that follow. *)
Theorem later_files_leave_an_output_alone
    (env : Env) (cfg : Config) (f : string) (later : list string)
    (w : World) (n : nat) :
  startswith f "esp_" = true -> endswith f ".nc" = true ->
  all_chars (differs "/") f = true ->
  (forall g, In g later ->
             g <> f /\ startswith g "esp_" = true /\
             endswith g ".nc" = true /\ all_chars (differs "/") g = true) ->
  files (fst (process_files env cfg later (w, n))) !! output_path_of cfg f =
  files w !! output_path_of cfg f.
Proof.
  intros Hs He Hp Hlater.
  pose proof (process_files_effect env cfg later w n) as H.
  cbv zeta in H. destruct H as (_ & Hfr & _).
  apply Hfr. intros g Hg Heq.
  destruct (Hlater g Hg) as (Hne & Hgs & Hge & Hgp).
  apply Hne. symmetry.
  exact (output_path_of_injective cfg f g Hs He Hp Hgs Hge Hgp Heq).
Qed.

Lemma later_files_leave_an_output_alone_witness :
  files (fst (process_files env1 (CONFIG "/w") ["esp_a.nc"]
                ({| files := {[ output_path_of (CONFIG "/w") "esp_b.nc"
                                := "text" ]};
                    dirs := ∅; log := [] |}, O)))
    !! output_path_of (CONFIG "/w") "esp_b.nc" = Some "text".
Proof.
  rewrite (later_files_leave_an_output_alone env1 (CONFIG "/w") "esp_b.nc"
             ["esp_a.nc"] _ O eq_refl eq_refl eq_refl).
  - apply lookup_insert_eq.
  - intros g [<-|[]]. split; [discriminate|]. split; [reflexivity|].
    split; reflexivity.
Defined.

End Sizes.

(** ** Arrays smaller than the coordinates *)

Section Bounds.
Import Text Float Py DateTime Netcdf Logging Os Sp2 Spec Layout Batch
       Examples Cases.

(** A loop whose iterations return until one raises: the chunks of the
    iterations before it and what that one wrote are written, and the
    exception leaves the loop. *)
Lemma for_each_raise {A} (xs : list A) (x : A) (ys : list A)
      (body : A -> Wr unit) (chunks : A -> list string)
      (out : list string) (e : exn) :
  (forall y, In y xs -> body y = (chunks y, inr tt)) ->
  body x = (out, inl e) ->
  for_each (xs ++ x :: ys) body = (flat_map chunks xs ++ out, inl e).
Proof.
  intros Hxs Hx. induction xs as [|a xs IH].
  - cbn [app for_each flat_map]. unfold bind. now rewrite Hx.
  - cbn [app for_each flat_map]. rewrite <- app_assoc.
    apply bind_ok with (a := tt).
    + apply Hxs. now left.
    + apply IH. intros y Hy. apply Hxs. now right.
Qed.

Lemma range_split (n k : nat) :
  (k < n)%nat -> range n = range k ++ k :: seq (S k) (n - S k).
Proof.
  intros H. unfold range.
  replace n with (k + S (n - S k))%nat at 1 by lia.
  now rewrite seq_app.
Qed.

Lemma write_location_out_of_bounds (ds : Dataset) (energy : ndarray4)
      (factors : ndarray2) (freqs : list float)
      (n0 n1 n2 n3 m0 m1 t p : nat) :
  frequency ds = Some freqs ->
  shape4 energy = (n0, n1, n2, n3) -> shape2 factors = (m0, m1) ->
  (t < n0)%nat -> (n1 <= p)%nat -> (1 <= length freqs)%nat ->
  (t < m0)%nat -> (p < m1)%nat ->
  write_location ds energy factors t p =
  (["FACTOR" +:+ nl; factor_line factors t p],
   inl (out_of_bounds p 1 n1)).
Proof.
  intros Hfr Hse Hsf Ht Hp Hf Ht' Hp'. unfold write_location.
  rewrite (index2_in_bounds factors m0 m1 t p Hsf Ht' Hp').
  rewrite Hfr. cbn [attr]. rewrite !bind_lift_ok.
  apply bind_write. apply bind_write.
  destruct (length freqs) as [|k]; [lia|].
  unfold range. cbn [seq for_each]. unfold write_row, row4.
  rewrite Hse.
  apply Nat.ltb_lt in Ht. rewrite Ht.
  assert (Hp1 : (p <? n1)%nat = false) by (apply Nat.ltb_ge; lia).
  rewrite Hp1. reflexivity.
Qed.

Lemma write_timestep_out_of_bounds (ds : Dataset) (energy : ndarray4)
      (factors : ndarray2) (freqs : list float) (times : list datetime64)
      (n0 n1 n2 n3 m0 m1 nloc t : nat) :
  frequency ds = Some freqs -> time ds = Some times ->
  shape4 energy = (n0, n1, n2, n3) -> shape2 factors = (m0, m1) ->
  (t < length times)%nat ->
  (t < n0)%nat -> (n1 < nloc)%nat -> (1 <= length freqs <= n2)%nat ->
  (t < m0)%nat -> (nloc <= m1)%nat ->
  write_timestep ds energy factors nloc t =
  (time_line (nth t times NaT) ::
   flat_map (location_block energy factors (length freqs) n3 t) (range n1) ++
   ["FACTOR" +:+ nl; factor_line factors t n1],
   inl (out_of_bounds n1 1 n1)).
Proof.
  intros Hfr Hti Hse Hsf Htl Ht Hl Hf Ht' Hl'.
  unfold write_timestep, time_line.
  rewrite Hti. cbn [attr]. rewrite bind_lift_ok.
  destruct (nth_error times t) as [nptime|] eqn:Hnth;
    [|apply nth_error_None in Hnth; lia].
  rewrite (index1_in_bounds times t nptime Hnth), bind_lift_ok.
  rewrite (nth_error_nth times t NaT Hnth).
  destruct (format_swan_time_total nptime) as [swan_time ->].
  rewrite bind_lift_ok.
  apply bind_write.
  rewrite (range_split nloc n1 Hl).
  apply for_each_raise.
  - intros p Hin. apply in_range in Hin.
    apply (write_location_ok ds energy factors freqs n0 n1 n2 n3 m0 m1);
      (assumption || lia).
  - apply (write_location_out_of_bounds ds energy factors freqs
             n0 n1 n2 n3 m0 m1); (assumption || lia).
Qed.

(** X20: When the energy array has fewer locations than there are
    longitudes, the conversion fails at the first location the array
    lacks: it returns False, the error logged is the IndexError of that
    location, and the output file is left holding the header, the first
    time line, the blocks of the locations the array has, and the FACTOR
    tag and factor of the one it lacks. *)
Theorem too_few_locations_fail_the_conversion
    (env : Env) (cfg : Config) (input_path output_path : string) (w : World)
    (ds : Dataset) (lons lats freqs dirns : list float)
    (times : list datetime64) (energy : ndarray4) (n0 n1 n2 n3 : nat) :
  open_dataset env input_path = inr ds ->
  longitude ds = Some lons -> latitude ds = Some lats ->
  frequency ds = Some freqs -> direction ds = Some dirns ->
  time ds = Some times -> energy_density ds = Some energy ->
  factor ds = None ->
  shape4 energy = (n0, n1, n2, n3) ->
  (1 <= length times)%nat -> (1 <= n0)%nat ->
  (1 <= length freqs <= n2)%nat ->
  (n1 < length lons)%nat ->
  writable output_path w = true ->
  let L := length lons in
  let factors := ones (length times) L in
  let result := convert_netcdf_to_sp2 env cfg input_path output_path w in
  snd result = false /\
  log (fst result) =
    log w ++
    [error ("Error processing " +:+ basename input_path +:+ ": index " +:+
            str_nat n1 +:+ " is out of bounds for axis 1 with size " +:+
            str_nat n1)] /\
  files (fst result) !! output_path =
    Some (concat_all
            (header cfg L lons lats freqs dirns ++
             time_line (nth 0 times NaT) ::
             flat_map (location_block energy factors (length freqs) n3 0)
                      (range n1) ++
             ["FACTOR" +:+ nl; factor_line factors 0 n1])).
Proof.
  intros Hopen Hlon Hlat Hfr Hdir Hti Hen Hfa Hsh HT Hn0 HF Hn1 Hwr
         L factors result.
  destruct (writable_inv _ _ Hwr) as (w1 & w2 & Hmk & Hop & Hf & Hd & Hl).
  assert (Hval : validate_netcdf ds = ([], true)).
  { unfold validate_netcdf, variables.
    rewrite Hlon, Hlat, Hfr, Hdir, Hti, Hen. reflexivity. }
  assert (Hprep : prepare ds = inr (energy, factors, L)).
  { unfold prepare, variables.
    rewrite Hlon, Hlat, Hfr, Hdir, Hti, Hen, Hfa. reflexivity. }
  assert (Hout : write_sp2 cfg ds energy factors L =
                 (header cfg L lons lats freqs dirns ++
                  (time_line (nth 0 times NaT) ::
                   flat_map (location_block energy factors (length freqs)
                                            n3 0) (range n1) ++
                   ["FACTOR" +:+ nl; factor_line factors 0 n1]),
                  inl (out_of_bounds n1 1 n1))).
  { unfold write_sp2.
    eapply bind_ok; [now apply write_sp2_header_ok|].
    rewrite Hti. cbn [attr]. rewrite bind_lift_ok.
    rewrite (range_split (length times) 0) by lia.
    rewrite <- (app_nil_l (time_line _ :: _)).
    apply (for_each_raise [] 0%nat _ _ (fun _ => [])); [intros y []|].
    apply (write_timestep_out_of_bounds ds energy factors freqs times
             n0 n1 n2 n3 (length times) L L 0);
      try assumption; try reflexivity; lia. }
  assert (Hres : result = _)
    by exact (convert_write_raises env cfg input_path output_path w w1 w2 ds
                energy factors L _ _ Hopen Hval Hprep Hmk Hop Hout).
  rewrite Hres. cbn [fst snd add_log close_with files log].
  split; [reflexivity|]. split; [now rewrite Hl|apply lookup_insert_eq].
Qed.

Lemma too_few_locations_fail_the_conversion_witness :
  let result :=
    convert_netcdf_to_sp2 env2 (CONFIG "/w") "/w/esp_c.nc" "/out/esp_c.sp2"
      world0 in
  snd result = false /\
  log (fst result) =
  [error "Error processing esp_c.nc: index 1 is out of bounds for axis 1 with size 1"].
Proof.
  intros result.
  pose proof (too_few_locations_fail_the_conversion env2 (CONFIG "/w")
                "/w/esp_c.nc" "/out/esp_c.sp2" world0 ds_small_energy
                [of_Z 1; of_Z 2] [of_Z 3; of_Z 4] [two_and_a_half; of_Z 1]
                [of_Z 0; of_Z 90; of_Z 180] [DT 1710482430750000000]
                energy_one_location 1 1 2 3
                eq_refl eq_refl eq_refl eq_refl eq_refl eq_refl eq_refl
                eq_refl eq_refl
                ltac:(cbn [length]; lia) ltac:(lia)
                ltac:(cbn [length]; lia) ltac:(cbn [length]; lia)
                ltac:(vm_compute; reflexivity)) as H.
  cbv zeta in H. fold result in H. destruct H as (Hok & Hlog & _).
  split; [exact Hok|]. rewrite Hlog. vm_compute. reflexivity.
Defined.

End Bounds.

(** ** Time values that are not times *)

Section NotATime.
Import Text Py DateTime Spec Layout.

(** X21: [format_swan_time] never raises, whatever the value: the text numpy
    gives always has exactly one "T" to split at, so a time line is
    written for every entry of the time coordinate.  For NaT the text is
    the three characters [Na.], which is not a time stamp: a missing
    time does not stop the conversion, it is written as that text. *)
Theorem format_swan_time_never_raises (nptime : datetime64) :
  exists text,
    format_swan_time nptime = inr text /\
    time_line nptime =
      text +:+ "                         date and time" +:+ nl /\
    (nptime = NaT -> text = "Na." /\ is_swan_time text = false).
Proof.
  destruct (format_swan_time_total nptime) as [text Htext].
  exists text. split; [exact Htext|]. split.
  - unfold time_line. now rewrite Htext.
  - intros ->. injection Htext as <-. split; reflexivity.
Qed.

End NotATime.
